(** * Emu68, line-E translator (M68k_LINEE.c): shift, rotate and bitfield
      instructions of the 68k, translated to AArch64.

    The development embeds the AArch64 build of [src/src/M68k_LINEE.c]
    (the branches under [#ifdef __aarch64__]).  A handler of the C file
    appends 32-bit host instruction words at an emission cursor and calls
    the register allocator, the effective-address resolver and the
    program-counter services through the same cursor.  Here a handler is a
    computation in a small state monad whose state carries the words and
    service calls issued so far, the allocator's scratch counter and the
    guest read pointer.

    Module [md5] embeds [CalcMD5] and the portable branch of [CalcCRC32]
    of [src/src/md5.c]. *)

From Stdlib Require Import ZArith List String Bool Lia.
From stdpp Require Import base list.

Open Scope string_scope.
Open Scope Z_scope.

(** ** C operators on integers *)

Notation "a .& b" := (Z.land a b) (at level 40, left associativity) : Z_scope.
Notation "a .| b" := (Z.lor a b) (at level 50, left associativity) : Z_scope.
Notation "a .^ b" := (Z.lxor a b) (at level 50, left associativity) : Z_scope.
Notation "a << b" := (Z.shiftl a b) (at level 35) : Z_scope.
Notation "a >> b" := (Z.shiftr a b) (at level 35) : Z_scope.

(** A C integer used as a condition. *)
Definition nz (z : Z) : bool := negb (z =? 0).

(** Conversions to [uint8_t] and [uint16_t]. *)
Definition u8 (z : Z) : Z := z .& 0xff.
Definition u16 (z : Z) : Z := z .& 0xffff.

(** ** Host registers and emitted items *)

(** A [uint8_t] register number of the C code.  [Scratch k] is the k-th
    scratch register acquired from the allocator since the entry point was
    called, [M68kReg n] the host register bound to guest register [n], and
    [RegCC] the register returned by [RA_ModifyCC]. *)
Inductive hreg : Type :=
| Scratch (k : nat)
| M68kReg (n : Z)
| RegCC.

(** An argument of an instruction encoder: a register variable or an
    integer expression (immediates, shift kinds, condition codes, and the
    literal register number 31). *)
Inductive arg : Type :=
| R (r : hreg)
| I (z : Z).

(** What a handler leaves at the cursor, in order: encoded instructions
    ([ptr++] receives [mnemonic(args)]), literal words, and the calls of external
    services that receive the cursor. *)
Inductive item : Type :=
| Op (mnemonic : string) (args : list arg)
| Raw (w : Z)
| RA_Alloc (r : hreg)
| RA_Copy (r : hreg) (guest : Z)
| RA_Free (r : hreg)
| RA_Map (guest : Z)
| RA_MapForWrite (guest : Z)
| RA_SetDirty (guest : Z)
| RA_CC
| EA_Load (r : hreg) (size ea : Z) (ext_in : Z) (read_only : Z)
| PC_Advance (bytes : Z)
| PC_Flush
| Svc (name : string) (args : list arg).

Definition hreg_eqb (a b : hreg) : bool :=
  match a, b with
  | Scratch i, Scratch j => Nat.eqb i j
  | M68kReg i, M68kReg j => Z.eqb i j
  | RegCC, RegCC => true
  | _, _ => false
  end.

Definition arg_eqb (a b : arg) : bool :=
  match a, b with
  | R x, R y => hreg_eqb x y
  | I x, I y => Z.eqb x y
  | _, _ => false
  end.

(** ** Collaborators that are not part of the sources *)

(** Modelled from the spec: the headers [support.h], [M68k.h], [A64.h] and
    [RegisterAllocator.h] and the functions [M68K_GetSRMask],
    [SR_GetEALength], [EMIT_LoadFromEffectiveAddress] and [EMIT_GetNZxx]
    are missing from the sources.  Their constants and the results the
    handlers branch on are fields of this class; the spec fixes only that
    the five condition-code masks are distinct bits of a 5-bit mask, that
    the resolver reports the extension words of the addressing mode, and
    that [GetSRMask] yields the update mask of the instruction at an
    address.  Guest memory is a function from word addresses to raw
    16-bit words. *)
Class Externals : Type := {
  (* support.h *)
  host_big_endian : bool;
  (* M68k.h: condition-code masks and bit numbers, exception vector *)
  SR_C : Z; SR_V : Z; SR_Z : Z; SR_N : Z; SR_X : Z;
  SRB_Z : Z; SRB_N : Z; SRB_X : Z;
  VECTOR_ILLEGAL_INSTRUCTION : Z;
  (* A64.h: condition codes and shift kinds *)
  A64_CC_EQ : Z; A64_CC_NE : Z; A64_CC_CS : Z; A64_CC_MI : Z;
  ARM_CC_EQ : Z; ARM_CC_MI : Z;
  LSL : Z; LSR : Z; ASR : Z; ROR : Z;
  (* flag analysis and instruction-length services *)
  M68K_GetSRMask : (Z -> Z) -> Z -> Z;
  SR_GetEALength : (Z -> Z) -> Z -> Z -> Z -> Z;
  (* extension-word counter after EMIT_LoadFromEffectiveAddress: guest
     memory, read pointer, addressing-mode field, counter on entry *)
  EA_ext_words : (Z -> Z) -> Z -> Z -> Z -> Z;
  (* update mask left by EMIT_GetNZxx *)
  GetNZxx_mask : Z -> Z;
  (* number of words a service call leaves at the cursor *)
  svc_words : item -> Z
}.

Section Basics.
Context `{Externals}.

Definition SR_XC : Z := SR_X .| SR_C.
Definition SR_NZV : Z := SR_N .| SR_Z .| SR_V.
Definition SR_NZVC : Z := SR_N .| SR_Z .| SR_V .| SR_C.
Definition SR_CCR : Z := SR_X .| SR_N .| SR_Z .| SR_V .| SR_C.

Definition bswap16 (x : Z) : Z := ((x << 8) .| (x >> 8)) .& 0xffff.
Definition bswap32 (x : Z) : Z :=
  ((x .& 0xff) << 24) .| ((x .& 0xff00) << 8) .|
  ((x >> 8) .& 0xff00) .| ((x >> 24) .& 0xff).

(** [BE16] reads a big-endian guest word, [INSN_TO_LE] stores a host
    instruction word little-endian. *)
Definition BE16 (x : Z) : Z := if host_big_endian then x else bswap16 x.
Definition INSN_TO_LE (x : Z) : Z := if host_big_endian then bswap32 x else x.

(** ** Translator state *)

Record jit : Type := mkJit {
  code : list item;       (* items left at the cursor, oldest first *)
  ra_next : nat;          (* number of scratch registers acquired so far *)
  m68k_mem : Z -> Z;      (* guest memory, by word address *)
  m68k_ptr : Z            (* guest read pointer, a word address *)
}.

Definition M (A : Type) : Type := jit -> A * jit.

Definition ret {A} (a : A) : M A := fun s => (a, s).
Definition bind {A B} (m : M A) (k : A -> M B) : M B :=
  fun s => let (a, s') := m s in k a s'.
Definition skip : M unit := ret tt.

End Basics.

Notation "x <- c ;; k" := (bind c (fun x => k))
  (at level 100, c at next level, k at level 200, right associativity).
Notation "c ;; k" := (bind c (fun _ => k))
  (at level 100, k at level 200, right associativity).

Section LineE.
Context `{Externals}.


Definition exec {A} (m : M A) (s : jit) : jit := snd (m s).

(** An item is appended at the cursor: a word stored through [ptr++], or
    the call of a service that receives the cursor. *)
Definition put (x : item) : M unit :=
  fun s => (tt, mkJit (code s ++ [x]) (ra_next s) (m68k_mem s) (m68k_ptr s)).

Definition emit (mnemonic : string) (args : list arg) : M unit :=
  put (Op mnemonic args).

(** ** Register allocator *)

(** Modelled from the spec: [allocScratch] and [copyFromGuestReg] hand out
    a scratch register that the caller has to give back with
    [freeScratch]; [map] and [mapForWrite] return the host register bound
    to a guest register; [getWritable] returns the flags register. *)
Definition fresh (mk : hreg -> item) : M hreg :=
  fun s => let r := Scratch (ra_next s) in
    (r, mkJit (code s ++ [mk r]) (S (ra_next s)) (m68k_mem s) (m68k_ptr s)).

Definition RA_AllocARMRegister : M hreg := fresh RA_Alloc.
Definition RA_CopyFromM68kRegister (guest : Z) : M hreg :=
  fresh (fun r => RA_Copy r guest).
Definition RA_FreeARMRegister (r : hreg) : M unit := put (RA_Free r).
Definition RA_MapM68kRegister (guest : Z) : M hreg :=
  put (RA_Map guest) ;; ret (M68kReg guest).
Definition RA_MapM68kRegisterForWrite (guest : Z) : M hreg :=
  put (RA_MapForWrite guest) ;; ret (M68kReg guest).
Definition RA_SetDirtyM68kRegister (guest : Z) : M unit :=
  put (RA_SetDirty guest).
Definition RA_ModifyCC : M hreg := put RA_CC ;; ret RegCC.

(** ** Effective addresses, program counter, flags *)

(** Modelled from the spec: called with [*arm_reg = 0xff], the resolver
    returns a host register holding the effective address, which the
    handler releases, and adds the extension words of the addressing mode
    to the counter it is given. *)
Definition EMIT_LoadFromEffectiveAddress (size ea ext_words read_only : Z)
  : M (hreg * Z) :=
  fun s =>
    let r := Scratch (ra_next s) in
    ((r, EA_ext_words (m68k_mem s) (m68k_ptr s) ea ext_words),
     mkJit (code s ++ [EA_Load r size ea ext_words read_only])
           (S (ra_next s)) (m68k_mem s) (m68k_ptr s)).

Definition EMIT_AdvancePC (bytes : Z) : M unit := put (PC_Advance bytes).
Definition EMIT_FlushPC : M unit := put PC_Flush.
Definition EMIT_GetNZ00 (cc : hreg) (update_mask : Z) : M unit :=
  put (Svc "EMIT_GetNZ00" [R cc; I update_mask]).
Definition EMIT_GetNZxx (cc : hreg) (update_mask : Z) : M Z :=
  put (Svc "EMIT_GetNZxx" [R cc; I update_mask]) ;;
  ret (GetNZxx_mask update_mask).
Definition EMIT_SetFlagsConditional (cc : hreg) (flag cond : Z) : M unit :=
  put (Svc "EMIT_SetFlagsConditional" [R cc; I flag; I cond]).
Definition EMIT_Exception (vector extra : Z) : M unit :=
  put (Svc "EMIT_Exception" [I vector; I extra]).
Definition EMIT_InjectDebugString (fmt : string) (args : list arg) : M unit :=
  put (Svc ("EMIT_InjectDebugString: " ++ fmt) args).

(** ** Guest instruction stream *)

(** The guest word [i] places after the read pointer, through [BE16],
    and [M68K_GetSRMask] of that place, stored in a [uint8_t]. *)
Definition fetch16 (i : Z) : M Z :=
  fun s => (BE16 (u16 (m68k_mem s (m68k_ptr s + i))), s).
Definition GetSRMask (i : Z) : M Z :=
  fun s => (u8 (M68K_GetSRMask (m68k_mem s) (m68k_ptr s + i)), s).
(** The read pointer moves [n] words forward. *)
Definition advance_m68k_ptr (n : Z) : M unit :=
  fun s => (tt, mkJit (code s) (ra_next s) (m68k_mem s) (m68k_ptr s + n)).

(** ** Cursor arithmetic *)

(** Words an item occupies in the code buffer. *)
Definition item_words (x : item) : Z :=
  match x with
  | Op _ _ | Raw _ => 1
  | _ => svc_words x
  end.

Definition words (l : list item) : Z :=
  fold_right (fun x n => item_words x + n) 0 l.

(** [tmp_ptr = ptr]: the position of the next item. *)
Definition cursor : M nat := fun s => (length (code s), s).
(** [ptr - tmp_ptr], in words. *)
Definition words_from (tmp_ptr : nat) : M Z :=
  fun s => (words (drop tmp_ptr (code s)), s).
(** The item at [tmp_ptr] is overwritten. *)
Definition patch (tmp_ptr : nat) (x : item) : M unit :=
  fun s => (tt, mkJit (<[tmp_ptr := x]> (code s)) (ra_next s)
                      (m68k_mem s) (m68k_ptr s)).

(** ** Memory shifts and rotates: one bit, 16-bit operand

    [EMIT_ASR_mem], [EMIT_LSR_mem], [EMIT_ROXR_mem] and [EMIT_ROR_mem] are
    aliases of the left-hand functions; bit 8 of the opcode selects the
    direction. *)

Definition EMIT_ASL_mem (opcode : Z) : M unit :=
  update_mask <- GetSRMask (-1) ;;
  let direction := (opcode >> 8) .& 1 in
  tmp <- RA_AllocARMRegister ;;
  let ext_words := 0 in
  ea <- EMIT_LoadFromEffectiveAddress 0 (opcode .& 0x3f) ext_words 1 ;;
  let dest := ea.1 in
  let ext_words := ea.2 in
  (if opcode .& 0x38 =? 0x20
   then emit "ldrsh_offset_preindex" [R dest; R tmp; I (- 2)]
   else emit "ldrsh_offset" [R dest; R tmp; I 0]) ;;
  (if nz (update_mask .& (SR_C .| SR_X))
   then
     (if nz direction
      then emit "tst_immed" [R tmp; I 1; I (32 - 15)]
      else emit "tst_immed" [R tmp; I 1; I 0])
   else skip) ;;
  (if nz direction then emit "lsl" [R tmp; R tmp; I 1] else emit "asr" [R tmp; R tmp; I 1]) ;;
  (if opcode .& 0x38 =? 0x18
   then emit "strh_offset_postindex" [R dest; R tmp; I 2]
   else emit "strh_offset" [R dest; R tmp; I 0]) ;;
  EMIT_AdvancePC (2 * (ext_words + 1)) ;;
  advance_m68k_ptr ext_words ;;
  (if nz update_mask
   then
     cc <- RA_ModifyCC ;;
     tmp2 <- RA_AllocARMRegister ;;
     emit "mov_immed_u16" [R tmp2; I update_mask; I 0] ;;
     emit "bic_reg" [R cc; R cc; R tmp2; I LSL; I 0] ;;
     (if nz (update_mask .& (SR_C .| SR_X))
      then
        emit "b_cc" [I A64_CC_EQ; I 3] ;;
        emit "mov_immed_u16" [R tmp2; I (SR_C .| SR_X); I 0] ;;
        emit "orr_reg" [R cc; R cc; R tmp2; I LSL; I 0]
      else skip) ;;
     RA_FreeARMRegister tmp2 ;;
     (if nz (update_mask .& (SR_Z .| SR_N))
      then
        emit "cmn_reg" [I 31; R tmp; I LSL; I 16] ;;
        emit "mov_immed_u16" [R tmp; I update_mask; I 0] ;;
        (if nz (update_mask .& SR_Z)
         then
           emit "b_cc" [I (A64_CC_EQ .^ 1); I 2] ;;
           emit "orr_immed" [R cc; R cc; I 1; I ((32 - SRB_Z) .& 31)]
         else skip) ;;
        (if nz (update_mask .& SR_N)
         then
           emit "b_cc" [I (A64_CC_MI .^ 1); I 2] ;;
           emit "orr_immed" [R cc; R cc; I 1; I ((32 - SRB_N) .& 31)]
         else skip)
      else skip)
   else skip) ;;
  RA_FreeARMRegister tmp ;;
  RA_FreeARMRegister dest.
Definition EMIT_ASR_mem := EMIT_ASL_mem.

Definition EMIT_LSL_mem (opcode : Z) : M unit :=
  update_mask <- GetSRMask (-1) ;;
  let direction := (opcode >> 8) .& 1 in
  tmp <- RA_AllocARMRegister ;;
  let ext_words := 0 in
  ea <- EMIT_LoadFromEffectiveAddress 0 (opcode .& 0x3f) ext_words 1 ;;
  let dest := ea.1 in
  let ext_words := ea.2 in
  (if opcode .& 0x38 =? 0x20
   then emit "ldrh_offset_preindex" [R dest; R tmp; I (- 2)]
   else emit "ldrh_offset" [R dest; R tmp; I 0]) ;;
  (if nz (update_mask .& (SR_C .| SR_X))
   then
     (if nz direction
      then emit "tst_immed" [R tmp; I 1; I (32 - 15)]
      else emit "tst_immed" [R tmp; I 1; I 0])
   else skip) ;;
  (if nz direction then emit "lsl" [R tmp; R tmp; I 1] else emit "lsr" [R tmp; R tmp; I 1]) ;;
  (if opcode .& 0x38 =? 0x18
   then emit "strh_offset_postindex" [R dest; R tmp; I 2]
   else emit "strh_offset" [R dest; R tmp; I 0]) ;;
  EMIT_AdvancePC (2 * (ext_words + 1)) ;;
  advance_m68k_ptr ext_words ;;
  (if nz update_mask
   then
     cc <- RA_ModifyCC ;;
     tmp2 <- RA_AllocARMRegister ;;
     emit "mov_immed_u16" [R tmp2; I update_mask; I 0] ;;
     emit "bic_reg" [R cc; R cc; R tmp2; I LSL; I 0] ;;
     (if nz (update_mask .& (SR_C .| SR_X))
      then
        emit "b_cc" [I A64_CC_EQ; I 3] ;;
        emit "mov_immed_u16" [R tmp2; I (SR_C .| SR_X); I 0] ;;
        emit "orr_reg" [R cc; R cc; R tmp2; I LSL; I 0]
      else skip) ;;
     RA_FreeARMRegister tmp2 ;;
     (if nz (update_mask .& (SR_Z .| SR_N))
      then
        emit "cmn_reg" [I 31; R tmp; I LSL; I 16] ;;
        emit "mov_immed_u16" [R tmp; I update_mask; I 0] ;;
        (if nz (update_mask .& SR_Z)
         then
           emit "b_cc" [I (A64_CC_EQ .^ 1); I 2] ;;
           emit "orr_immed" [R cc; R cc; I 1; I ((32 - SRB_Z) .& 31)]
         else skip) ;;
        (if nz (update_mask .& SR_N)
         then
           emit "b_cc" [I (A64_CC_MI .^ 1); I 2] ;;
           emit "orr_immed" [R cc; R cc; I 1; I ((32 - SRB_N) .& 31)]
         else skip)
      else skip)
   else skip) ;;
  RA_FreeARMRegister tmp ;;
  RA_FreeARMRegister dest.
Definition EMIT_LSR_mem := EMIT_LSL_mem.

Definition EMIT_ROXL_mem (opcode : Z) : M unit :=
  update_mask <- GetSRMask (-1) ;;
  let direction := (opcode >> 8) .& 1 in
  let ext_words := 0 in
  cc <- RA_ModifyCC ;;
  tmp <- RA_AllocARMRegister ;;
  ea <- EMIT_LoadFromEffectiveAddress 0 (opcode .& 0x3f) ext_words 1 ;;
  let dest := ea.1 in
  let ext_words := ea.2 in
  (if opcode .& 0x38 =? 0x20
   then emit "ldrh_offset_preindex" [R dest; R tmp; I (- 2)]
   else emit "ldrh_offset" [R dest; R tmp; I 0]) ;;
  emit "tst_immed" [R cc; I 1; I (32 - SRB_X)] ;;
  emit "b_cc" [I A64_CC_EQ; I 2] ;;
  (if nz direction
   then
     emit "orr_immed" [R tmp; R tmp; I 1; I 1] ;;
     emit "ror" [R tmp; R tmp; I 31]
   else
     emit "orr_immed" [R tmp; R tmp; I 1; I 16] ;;
     emit "ror" [R tmp; R tmp; I 1]) ;;
  (if opcode .& 0x38 =? 0x18
   then emit "strh_offset_postindex" [R dest; R tmp; I 2]
   else emit "strh_offset" [R dest; R tmp; I 0]) ;;
  EMIT_AdvancePC (2 * (ext_words + 1)) ;;
  advance_m68k_ptr ext_words ;;
  (if nz update_mask
   then
     tmp2 <- RA_AllocARMRegister ;;
     let update_mask_copy := update_mask in
     (if nz (update_mask .& (SR_Z .| SR_N))
      then
        emit "cmn_reg" [I 31; R tmp; I LSL; I 16] ;;
        EMIT_GetNZ00 cc update_mask
      else skip) ;;
     (if nz (update_mask_copy .& SR_XC)
      then
        (if nz direction
         then emit "bfxil" [R cc; R tmp; I 16; I 1]
         else emit "bfxil" [R cc; R tmp; I 31; I 1]) ;;
        (if nz (update_mask_copy .& SR_X) then emit "bfi" [R cc; R cc; I 4; I 1] else skip)
      else skip) ;;
     RA_FreeARMRegister tmp2
   else skip) ;;
  RA_FreeARMRegister tmp ;;
  RA_FreeARMRegister dest.
Definition EMIT_ROXR_mem := EMIT_ROXL_mem.

Definition EMIT_ROL_mem (opcode : Z) : M unit :=
  update_mask <- GetSRMask (-1) ;;
  let direction := (opcode >> 8) .& 1 in
  tmp <- RA_AllocARMRegister ;;
  let ext_words := 0 in
  ea <- EMIT_LoadFromEffectiveAddress 0 (opcode .& 0x3f) ext_words 1 ;;
  let dest := ea.1 in
  let ext_words := ea.2 in
  (if opcode .& 0x38 =? 0x20
   then emit "ldrh_offset_preindex" [R dest; R tmp; I (- 2)]
   else emit "ldrh_offset" [R dest; R tmp; I 0]) ;;
  emit "bfi" [R tmp; R tmp; I 16; I 16] ;;
  (if nz direction
   then emit "ror" [R tmp; R tmp; I (32 - 1)]
   else emit "ror" [R tmp; R tmp; I 1]) ;;
  (if opcode .& 0x38 =? 0x18
   then emit "strh_offset_postindex" [R dest; R tmp; I 2]
   else emit "strh_offset" [R dest; R tmp; I 0]) ;;
  EMIT_AdvancePC (2 * (ext_words + 1)) ;;
  advance_m68k_ptr ext_words ;;
  (if nz update_mask
   then
     cc <- RA_ModifyCC ;;
     (if nz (update_mask .& (SR_Z .| SR_N))
      then emit "cmn_reg" [I 31; R tmp; I LSL; I 16]
      else skip) ;;
     emit "mov_immed_u16" [R tmp; I update_mask; I 0] ;;
     emit "bic_reg" [R cc; R cc; R tmp; I LSL; I 0] ;;
     (if nz (update_mask .& SR_Z)
      then
        emit "b_cc" [I (A64_CC_EQ .^ 1); I 2] ;;
        emit "orr_immed" [R cc; R cc; I 1; I ((32 - SRB_Z) .& 31)]
      else skip) ;;
     (if nz (update_mask .& SR_N)
      then
        emit "b_cc" [I (A64_CC_MI .^ 1); I 2] ;;
        emit "orr_immed" [R cc; R cc; I 1; I ((32 - SRB_N) .& 31)]
      else skip) ;;
     (if nz (update_mask .& (SR_C .| SR_X))
      then
        (if nz direction
         then emit "tst_immed" [R tmp; I 1; I 0]
         else emit "tst_immed" [R tmp; I 1; I 1]) ;;
        emit "b_cc" [I A64_CC_EQ; I 3] ;;
        emit "mov_immed_u16" [R tmp; I (SR_C .| SR_X); I 0] ;;
        emit "orr_reg" [R cc; R cc; R tmp; I LSL; I 0]
      else skip)
   else skip) ;;
  RA_FreeARMRegister tmp ;;
  RA_FreeARMRegister dest.
Definition EMIT_ROR_mem := EMIT_ROL_mem.

(** ** Register shifts and rotates

    Bits 6-7 of the opcode give the operand size, bit 5 selects a shift
    count held in a guest register, bit 8 the direction.  [EMIT_ASR],
    [EMIT_LSR], [EMIT_ROR] and [EMIT_ROXR] are aliases. *)

Definition EMIT_ASL (opcode : Z) : M unit :=
  update_mask <- GetSRMask (-1) ;;
  let shift := (opcode >> 9) .& 7 in
  let size := 1 << ((opcode >> 6) .& 3) in
  let regshift := (opcode >> 5) .& 1 in
  reg <- RA_MapM68kRegister (opcode .& 7) ;;
  tmp <- RA_AllocARMRegister ;;
  let direction := (opcode >> 8) .& 1 in
  RA_SetDirtyM68kRegister (opcode .& 7) ;;
  (if nz regshift
   then
     shiftreg <- RA_MapM68kRegister shift ;;
     (if nz direction
      then
        (if size =? 4
         then
           emit "lslv64" [R tmp; R reg; R shiftreg] ;;
           emit "mov_reg" [R reg; R tmp] ;;
           (if nz (update_mask .& (SR_C .| SR_X))
            then emit "tst64_immed" [R tmp; I 1; I 32; I 1]
            else skip)
         else if size =? 2
         then
           emit "lslv64" [R tmp; R reg; R shiftreg] ;;
           (if nz (update_mask .& (SR_C .| SR_X))
            then emit "tst_immed" [R tmp; I 1; I 16]
            else skip) ;;
           emit "bfi" [R reg; R tmp; I 0; I 16]
         else if size =? 1
         then
           emit "lslv64" [R tmp; R reg; R shiftreg] ;;
           (if nz (update_mask .& (SR_C .| SR_X))
            then emit "tst_immed" [R tmp; I 1; I 24]
            else skip) ;;
           emit "bfi" [R reg; R tmp; I 0; I 8]
         else skip)
      else
        mask <- RA_AllocARMRegister ;;
        (if nz (update_mask .& (SR_C .| SR_X))
         then
           t <- RA_AllocARMRegister ;;
           emit "sub_immed" [R t; R shiftreg; I 1] ;;
           emit "mov_immed_u16" [R mask; I 1; I 0] ;;
           emit "lslv64" [R mask; R mask; R t] ;;
           RA_FreeARMRegister t
         else skip) ;;
        (if size =? 4
         then
           emit "sxtw64" [R tmp; R reg] ;;
           (if nz (update_mask .& (SR_C .| SR_X))
            then emit "ands64_reg" [I 31; R tmp; R mask; I LSL; I 0]
            else skip) ;;
           emit "asrv64" [R tmp; R tmp; R shiftreg] ;;
           emit "mov_reg" [R reg; R tmp]
         else if size =? 2
         then
           emit "sxth64" [R tmp; R reg] ;;
           (if nz (update_mask .& (SR_C .| SR_X))
            then emit "ands64_reg" [I 31; R tmp; R mask; I LSL; I 0]
            else skip) ;;
           emit "asrv64" [R tmp; R tmp; R shiftreg] ;;
           emit "bfi" [R reg; R tmp; I 0; I 16]
         else if size =? 1
         then
           emit "sxtb64" [R tmp; R reg] ;;
           (if nz (update_mask .& (SR_C .| SR_X))
            then emit "ands64_reg" [I 31; R tmp; R mask; I LSL; I 0]
            else skip) ;;
           emit "asrv64" [R tmp; R tmp; R shiftreg] ;;
           emit "bfi" [R reg; R tmp; I 0; I 8]
         else skip) ;;
        RA_FreeARMRegister mask)
   else
     let shift := if negb (nz shift) then 8 else shift in
     (if nz (update_mask .& (SR_C .| SR_X))
      then
        (if nz direction
         then
           (if size =? 4 then emit "tst_immed" [R reg; I 1; I shift]
            else if size =? 2 then emit "tst_immed" [R reg; I 1; I (16 + shift)]
            else if size =? 1 then emit "tst_immed" [R reg; I 1; I (31 .& (24 + shift))]
            else skip)
         else
           emit "tst_immed" [R reg; I 1; I (31 .& (33 - shift))])
      else skip) ;;
     (if nz direction
      then
        (if size =? 4 then emit "lsl" [R reg; R reg; I shift]
         else if size =? 2
         then
           emit "lsl" [R tmp; R reg; I shift] ;;
           emit "bfi" [R reg; R tmp; I 0; I 16]
         else if size =? 1
         then
           emit "lsl" [R tmp; R reg; I shift] ;;
           emit "bfi" [R reg; R tmp; I 0; I 8]
         else skip)
      else
        (if size =? 4 then emit "asr" [R reg; R reg; I shift]
         else if size =? 2
         then
           emit "sxth" [R tmp; R reg] ;;
           emit "asr" [R tmp; R tmp; I shift] ;;
           emit "bfi" [R reg; R tmp; I 0; I 16]
         else if size =? 1
         then
           emit "sxtb" [R tmp; R reg] ;;
           emit "asr" [R tmp; R tmp; I shift] ;;
           emit "bfi" [R reg; R tmp; I 0; I 8]
         else skip))) ;;
  EMIT_AdvancePC 2 ;;
  (if nz update_mask
   then
     cc <- RA_ModifyCC ;;
     tmp2 <- RA_AllocARMRegister ;;
     emit "mov_immed_u16" [R tmp2; I update_mask; I 0] ;;
     emit "bic_reg" [R cc; R cc; R tmp2; I LSL; I 0] ;;
     (if nz (update_mask .& (SR_C .| SR_X))
      then
        emit "b_cc" [I A64_CC_EQ; I 3] ;;
        emit "mov_immed_u16" [R tmp2; I (SR_C .| SR_X); I 0] ;;
        emit "orr_reg" [R cc; R cc; R tmp2; I LSL; I 0]
      else skip) ;;
     RA_FreeARMRegister tmp2 ;;
     (if nz (update_mask .& (SR_Z .| SR_N))
      then
        (if size =? 4 then emit "cmn_reg" [I 31; R reg; I LSL; I 0]
         else if size =? 2 then emit "cmn_reg" [I 31; R tmp; I LSL; I 16]
         else if size =? 1 then emit "cmn_reg" [I 31; R tmp; I LSL; I 24]
         else skip) ;;
        (if nz (update_mask .& SR_Z)
         then
           emit "b_cc" [I (A64_CC_EQ .^ 1); I 2] ;;
           emit "orr_immed" [R cc; R cc; I 1; I ((32 - SRB_Z) .& 31)]
         else skip) ;;
        (if nz (update_mask .& SR_N)
         then
           emit "b_cc" [I (A64_CC_MI .^ 1); I 2] ;;
           emit "orr_immed" [R cc; R cc; I 1; I ((32 - SRB_N) .& 31)]
         else skip)
      else skip)
   else skip) ;;
  RA_FreeARMRegister tmp.
Definition EMIT_ASR := EMIT_ASL.

Definition EMIT_LSL (opcode : Z) : M unit :=
  update_mask <- GetSRMask (-1) ;;
  let direction := (opcode >> 8) .& 1 in
  let shift := (opcode >> 9) .& 7 in
  let size := 1 << ((opcode >> 6) .& 3) in
  let regshift := (opcode >> 5) .& 1 in
  reg <- RA_MapM68kRegister (opcode .& 7) ;;
  tmp <- RA_AllocARMRegister ;;
  RA_SetDirtyM68kRegister (opcode .& 7) ;;
  (if nz regshift
   then
     shiftreg <- RA_MapM68kRegister shift ;;
     (if nz direction
      then
        (if size =? 4
         then
           emit "lslv64" [R tmp; R reg; R shiftreg] ;;
           emit "mov_reg" [R reg; R tmp] ;;
           (if nz (update_mask .& (SR_C .| SR_X))
            then emit "tst64_immed" [R tmp; I 1; I 32; I 1]
            else skip)
         else if size =? 2
         then
           emit "lslv64" [R tmp; R reg; R shiftreg] ;;
           (if nz (update_mask .& (SR_C .| SR_X))
            then emit "tst_immed" [R tmp; I 1; I 16]
            else skip) ;;
           emit "bfi" [R reg; R tmp; I 0; I 16]
         else if size =? 1
         then
           emit "lslv64" [R tmp; R reg; R shiftreg] ;;
           (if nz (update_mask .& (SR_C .| SR_X))
            then emit "tst_immed" [R tmp; I 1; I 24]
            else skip) ;;
           emit "bfi" [R reg; R tmp; I 0; I 8]
         else skip)
      else
        mask <- RA_AllocARMRegister ;;
        (if nz (update_mask .& (SR_C .| SR_X))
         then
           t <- RA_AllocARMRegister ;;
           emit "sub_immed" [R t; R shiftreg; I 1] ;;
           emit "mov_immed_u16" [R mask; I 1; I 0] ;;
           emit "lslv64" [R mask; R mask; R t] ;;
           RA_FreeARMRegister t
         else skip) ;;
        (if size =? 4
         then
           emit "mov_reg" [R tmp; R reg] ;;
           (if nz (update_mask .& (SR_C .| SR_X))
            then emit "ands_reg" [I 31; R tmp; R mask; I LSL; I 0]
            else skip) ;;
           emit "lsrv64" [R tmp; R tmp; R shiftreg] ;;
           emit "mov_reg" [R reg; R tmp]
         else if size =? 2
         then
           emit "uxth" [R tmp; R reg] ;;
           (if nz (update_mask .& (SR_C .| SR_X))
            then emit "ands_reg" [I 31; R tmp; R mask; I LSL; I 0]
            else skip) ;;
           emit "lsrv64" [R tmp; R tmp; R shiftreg] ;;
           emit "bfi" [R reg; R tmp; I 0; I 16]
         else if size =? 1
         then
           emit "uxtb" [R tmp; R reg] ;;
           (if nz (update_mask .& (SR_C .| SR_X))
            then emit "ands_reg" [I 31; R tmp; R mask; I LSL; I 0]
            else skip) ;;
           emit "lsrv64" [R tmp; R tmp; R shiftreg] ;;
           emit "bfi" [R reg; R tmp; I 0; I 8]
         else skip) ;;
        RA_FreeARMRegister mask)
   else
     let shift := if negb (nz shift) then 8 else shift in
     (if nz (update_mask .& (SR_C .| SR_X))
      then
        (if nz direction
         then
           (if size =? 4 then emit "tst_immed" [R reg; I 1; I shift]
            else if size =? 2 then emit "tst_immed" [R reg; I 1; I (16 + shift)]
            else if size =? 1 then emit "tst_immed" [R reg; I 1; I (31 .& (24 + shift))]
            else skip)
         else
           emit "tst_immed" [R reg; I 1; I (31 .& (33 - shift))])
      else skip) ;;
     (if nz direction
      then
        (if size =? 4 then emit "lsl" [R reg; R reg; I shift]
         else if size =? 2
         then
           emit "lsl" [R tmp; R reg; I shift] ;;
           emit "bfi" [R reg; R tmp; I 0; I 16]
         else if size =? 1
         then
           emit "lsl" [R tmp; R reg; I shift] ;;
           emit "bfi" [R reg; R tmp; I 0; I 8]
         else skip)
      else
        (if size =? 4 then emit "lsr" [R reg; R reg; I shift]
         else if size =? 2
         then
           emit "uxth" [R tmp; R reg] ;;
           emit "lsr" [R tmp; R tmp; I shift] ;;
           emit "bfi" [R reg; R tmp; I 0; I 16]
         else if size =? 1
         then
           emit "uxtb" [R tmp; R reg] ;;
           emit "lsr" [R tmp; R tmp; I shift] ;;
           emit "bfi" [R reg; R tmp; I 0; I 8]
         else skip))) ;;
  EMIT_AdvancePC 2 ;;
  (if nz update_mask
   then
     cc <- RA_ModifyCC ;;
     tmp2 <- RA_AllocARMRegister ;;
     emit "mov_immed_u16" [R tmp2; I update_mask; I 0] ;;
     emit "bic_reg" [R cc; R cc; R tmp2; I LSL; I 0] ;;
     (if nz (update_mask .& (SR_C .| SR_X))
      then
        emit "b_cc" [I A64_CC_EQ; I 3] ;;
        emit "mov_immed_u16" [R tmp2; I (SR_C .| SR_X); I 0] ;;
        emit "orr_reg" [R cc; R cc; R tmp2; I LSL; I 0]
      else skip) ;;
     RA_FreeARMRegister tmp2 ;;
     (if nz (update_mask .& (SR_Z .| SR_N))
      then
        (if size =? 4 then emit "cmn_reg" [I 31; R reg; I LSL; I 0]
         else if size =? 2 then emit "cmn_reg" [I 31; R tmp; I LSL; I 16]
         else if size =? 1 then emit "cmn_reg" [I 31; R tmp; I LSL; I 24]
         else skip) ;;
        (if nz (update_mask .& SR_Z)
         then
           emit "b_cc" [I (A64_CC_EQ .^ 1); I 2] ;;
           emit "orr_immed" [R cc; R cc; I 1; I ((32 - SRB_Z) .& 31)]
         else skip) ;;
        (if nz (update_mask .& SR_N)
         then
           emit "b_cc" [I (A64_CC_MI .^ 1); I 2] ;;
           emit "orr_immed" [R cc; R cc; I 1; I ((32 - SRB_N) .& 31)]
         else skip)
      else skip)
   else skip) ;;
  RA_FreeARMRegister tmp.
Definition EMIT_LSR := EMIT_LSL.

Definition EMIT_ROL (opcode : Z) : M unit :=
  update_mask <- GetSRMask (-1) ;;
  let direction := (opcode >> 8) .& 1 in
  let shift := (opcode >> 9) .& 7 in
  let size := 1 << ((opcode >> 6) .& 3) in
  let regshift := (opcode >> 5) .& 1 in
  reg <- RA_MapM68kRegister (opcode .& 7) ;;
  tmp <- RA_AllocARMRegister ;;
  RA_SetDirtyM68kRegister (opcode .& 7) ;;
  (if nz regshift
   then
     shift <- RA_CopyFromM68kRegister shift ;;
     (if nz direction
      then
        emit "neg_reg" [R shift; R shift; I LSL; I 0] ;;
        emit "add_immed" [R shift; R shift; I 32]
      else skip) ;;
     (if size =? 4 then emit "rorv" [R reg; R reg; R shift]
      else if size =? 2
      then
        emit "mov_reg" [R tmp; R reg] ;;
        emit "bfi" [R tmp; R tmp; I 16; I 16] ;;
        emit "rorv" [R tmp; R tmp; R shift] ;;
        emit "bfi" [R reg; R tmp; I 0; I 16]
      else if size =? 1
      then
        emit "mov_reg" [R tmp; R reg] ;;
        emit "bfi" [R tmp; R tmp; I 8; I 8] ;;
        emit "bfi" [R tmp; R tmp; I 16; I 16] ;;
        emit "rorv" [R tmp; R tmp; R shift] ;;
        emit "bfi" [R reg; R tmp; I 0; I 8]
      else skip) ;;
     RA_FreeARMRegister shift
   else
     let shift := if negb (nz shift) then 8 else shift in
     let shift := if nz direction then 32 - shift else shift in
     (if size =? 4 then emit "ror" [R reg; R reg; I shift]
      else if size =? 2
      then
        emit "mov_reg" [R tmp; R reg] ;;
        emit "bfi" [R tmp; R tmp; I 16; I 16] ;;
        emit "ror" [R tmp; R tmp; I shift] ;;
        emit "bfi" [R reg; R tmp; I 0; I 16]
      else if size =? 1
      then
        emit "mov_reg" [R tmp; R reg] ;;
        emit "bfi" [R tmp; R tmp; I 8; I 8] ;;
        emit "bfi" [R tmp; R tmp; I 16; I 16] ;;
        emit "ror" [R tmp; R tmp; I shift] ;;
        emit "bfi" [R reg; R tmp; I 0; I 8]
      else skip)) ;;
  EMIT_AdvancePC 2 ;;
  (if nz update_mask
   then
     cc <- RA_ModifyCC ;;
     (if size =? 4 then emit "cmn_reg" [I 31; R reg; I LSL; I 0]
      else if size =? 2 then emit "cmn_reg" [I 31; R tmp; I LSL; I 16]
      else if size =? 1 then emit "cmn_reg" [I 31; R tmp; I LSL; I 24]
      else skip) ;;
     let old_mask := update_mask .& SR_C in
     update_mask <- EMIT_GetNZxx cc update_mask ;;
     let update_mask := update_mask .| old_mask in
     (if nz (update_mask .& SR_Z) then EMIT_SetFlagsConditional cc SR_Z ARM_CC_EQ else skip) ;;
     (if nz (update_mask .& SR_N) then EMIT_SetFlagsConditional cc SR_N ARM_CC_MI else skip) ;;
     (if nz (update_mask .& SR_C)
      then
        (if negb (nz direction)
         then
           (if size =? 4 then emit "bfxil" [R cc; R reg; I 31; I 1]
            else if size =? 2 then emit "bfxil" [R cc; R reg; I 15; I 1]
            else if size =? 1 then emit "bfxil" [R cc; R reg; I 7; I 1]
            else skip)
         else
           emit "bfi" [R cc; R reg; I 0; I 1])
      else skip)
   else skip) ;;
  RA_FreeARMRegister tmp.
Definition EMIT_ROR := EMIT_ROL.

(** The two [Raw 0] words of the register-count form are the places that
    the C code fills in later through [tmp_ptr]. *)
Definition EMIT_ROXL (opcode : Z) : M unit :=
  update_mask <- GetSRMask (-1) ;;
  let dir := opcode .& 0x100 in
  cc <- RA_ModifyCC ;;
  let size := (opcode >> 6) .& 3 in
  dest <- RA_MapM68kRegister (opcode .& 7) ;;
  RA_SetDirtyM68kRegister (opcode .& 7) ;;
  (if nz (opcode .& 0x20)
   then
     amount_reg <- RA_MapM68kRegister ((opcode >> 9) .& 7) ;;
     amount <- RA_AllocARMRegister ;;
     tmp <- RA_AllocARMRegister ;;
     tmp2 <- RA_AllocARMRegister ;;
     emit "ands_immed" [R tmp; R amount_reg; I 6; I 0] ;;
     tmp_ptr <- cursor ;;
     put (Raw 0) ;;
     (if nz (update_mask .& SR_NZV)
      then
        (if size =? 0 then emit "cmn_reg" [I 31; R dest; I LSL; I 24]
         else if size =? 1 then emit "cmn_reg" [I 31; R dest; I LSL; I 16]
         else if size =? 2 then emit "cmn_reg" [I 31; R dest; I LSL; I 0]
         else skip) ;;
        let tmp_mask := update_mask in
        EMIT_GetNZ00 cc tmp_mask
      else skip) ;;
     (if nz (update_mask .& SR_X) then emit "bfxil" [R cc; R cc; I 4; I 1] else skip) ;;
     put (Raw 0) ;;
     d <- words_from tmp_ptr ;;
     patch tmp_ptr (Op "b_cc" [I A64_CC_NE; I d]) ;;
     ptr <- cursor ;;
     let tmp_ptr := (ptr - 1)%nat in
     emit "mov_immed_u16" [R tmp2; I (if size =? 0 then 9 else (if size =? 1 then 17 else 33)); I 0] ;;
     emit "udiv" [R amount; R tmp; R tmp2] ;;
     emit "msub" [R amount; R tmp; R amount; R tmp2] ;;
     (if size =? 0 then emit "and_immed" [R tmp; R dest; I 8; I 0]
      else if size =? 1 then emit "and_immed" [R tmp; R dest; I 16; I 0]
      else if size =? 2 then emit "mov_reg" [R tmp; R dest]
      else skip) ;;
     emit "tst_immed" [R cc; I 1; I (32 - SRB_X)] ;;
     (if nz dir
      then
        (if size =? 0
         then
           emit "neg_reg" [R amount; R amount; I LSR; I 0] ;;
           emit "add_immed" [R amount; R amount; I 32] ;;
           emit "b_cc" [I A64_CC_EQ; I 2] ;;
           emit "orr_immed" [R tmp; R tmp; I 1; I (32 - 8)] ;;
           emit "bfi" [R tmp; R tmp; I (32 - 9); I 9] ;;
           emit "rorv" [R tmp; R tmp; R amount] ;;
           emit "bfi" [R dest; R tmp; I 0; I 8]
         else if size =? 1
         then
           emit "neg_reg" [R amount; R amount; I LSR; I 0] ;;
           emit "add_immed" [R amount; R amount; I 64] ;;
           emit "b_cc" [I A64_CC_EQ; I 2] ;;
           emit "orr_immed" [R tmp; R tmp; I 1; I (32 - 16)] ;;
           emit "bfi64" [R tmp; R tmp; I (64 - 17); I 17] ;;
           emit "rorv64" [R tmp; R tmp; R amount] ;;
           emit "bfi" [R dest; R tmp; I 0; I 16]
         else if size =? 2
         then
           emit "neg_reg" [R amount; R amount; I LSR; I 0] ;;
           emit "add_immed" [R amount; R amount; I 64] ;;
           emit "b_cc" [I A64_CC_EQ; I 2] ;;
           emit "orr64_immed" [R tmp; R tmp; I 1; I 32; I 1] ;;
           emit "lsl64" [R tmp; R tmp; I 31] ;;
           emit "bfxil64" [R tmp; R tmp; I 31; I 32] ;;
           emit "rorv64" [R tmp; R tmp; R amount] ;;
           emit "mov_reg" [R dest; R tmp]
         else skip)
      else
        (if size =? 0
         then
           emit "b_cc" [I A64_CC_EQ; I 2] ;;
           emit "orr_immed" [R tmp; R tmp; I 1; I (32 - 8)] ;;
           emit "bfi" [R tmp; R tmp; I 9; I 9] ;;
           emit "rorv" [R tmp; R tmp; R amount] ;;
           emit "bfi" [R dest; R tmp; I 0; I 8]
         else if size =? 1
         then
           emit "b_cc" [I A64_CC_EQ; I 2] ;;
           emit "orr_immed" [R tmp; R tmp; I 1; I (32 - 16)] ;;
           emit "bfi64" [R tmp; R tmp; I 17; I 17] ;;
           emit "rorv64" [R tmp; R tmp; R amount] ;;
           emit "bfi" [R dest; R tmp; I 0; I 16]
         else if size =? 2
         then
           emit "b_cc" [I A64_CC_EQ; I 2] ;;
           emit "orr64_immed" [R tmp; R tmp; I 1; I (64 - 32); I 1] ;;
           emit "bfi64" [R tmp; R tmp; I 33; I 31] ;;
           emit "rorv64" [R tmp; R tmp; R amount] ;;
           emit "mov_reg" [R dest; R tmp]
         else skip)) ;;
     (if nz (update_mask .& SR_NZV)
      then
        (if size =? 0 then emit "cmn_reg" [I 31; R tmp; I LSL; I 24]
         else if size =? 1 then emit "cmn_reg" [I 31; R tmp; I LSL; I 16]
         else if size =? 2 then emit "cmn_reg" [I 31; R tmp; I LSL; I 0]
         else skip) ;;
        let tmp_mask := update_mask in
        EMIT_GetNZ00 cc tmp_mask
      else skip) ;;
     (if nz (update_mask .& SR_XC)
      then
        (if size =? 0 then emit "bfxil" [R cc; R tmp; I 8; I 1]
         else if size =? 1 then emit "bfxil" [R cc; R tmp; I 16; I 1]
         else if size =? 2 then emit "bfxil64" [R cc; R tmp; I 32; I 1]
         else skip) ;;
        (if nz (update_mask .& SR_X) then emit "bfi" [R cc; R cc; I 4; I 1] else skip) ;;
        d <- words_from tmp_ptr ;;
        patch tmp_ptr (Op "b" [I d])
      else skip) ;;
     RA_FreeARMRegister tmp ;;
     RA_FreeARMRegister tmp2 ;;
     RA_FreeARMRegister amount
   else
     tmp <- RA_AllocARMRegister ;;
     let amount := (opcode >> 9) .& 7 in
     let amount := if amount =? 0 then 8 else amount in
     (if nz dir
      then
        (if size =? 0
         then
           emit "mov_reg" [R tmp; R dest] ;;
           emit "bic_immed" [R tmp; R tmp; I 1; I 1] ;;
           emit "tbz" [R cc; I SRB_X; I 2] ;;
           emit "orr_immed" [R tmp; R tmp; I 1; I 1] ;;
           emit "bfi" [R tmp; R tmp; I (31 - 8); I 8] ;;
           emit "ror" [R tmp; R tmp; I (32 - amount)] ;;
           emit "bfi" [R dest; R tmp; I 0; I 8]
         else if size =? 1
         then
           emit "mov_reg" [R tmp; R dest] ;;
           emit "bic_immed" [R tmp; R tmp; I 1; I 1] ;;
           emit "tbz" [R cc; I SRB_X; I 2] ;;
           emit "orr_immed" [R tmp; R tmp; I 1; I 1] ;;
           emit "bfi64" [R tmp; R tmp; I (31 - 16); I 16] ;;
           emit "ror" [R tmp; R tmp; I (32 - amount)] ;;
           emit "bfi" [R dest; R tmp; I 0; I 16]
         else if size =? 2
         then
           emit "lsl64" [R tmp; R dest; I 31] ;;
           emit "bic64_immed" [R tmp; R tmp; I 1; I 1; I 1] ;;
           emit "tbz" [R cc; I SRB_X; I 2] ;;
           emit "orr64_immed" [R tmp; R tmp; I 1; I 1; I 1] ;;
           emit "bfxil64" [R tmp; R tmp; I 31; I 32] ;;
           emit "ror64" [R tmp; R tmp; I (64 - amount)] ;;
           emit "mov_reg" [R dest; R tmp]
         else skip)
      else
        (if size =? 0
         then
           emit "mov_reg" [R tmp; R dest] ;;
           emit "bic_immed" [R tmp; R tmp; I 1; I (32 - 8)] ;;
           emit "tbz" [R cc; I SRB_X; I 2] ;;
           emit "orr_immed" [R tmp; R tmp; I 1; I (32 - 8)] ;;
           emit "bfi" [R tmp; R tmp; I 9; I 9] ;;
           emit "ror" [R tmp; R tmp; I amount] ;;
           emit "bfi" [R dest; R tmp; I 0; I 8]
         else if size =? 1
         then
           emit "mov_reg" [R tmp; R dest] ;;
           emit "bic_immed" [R tmp; R tmp; I 1; I (32 - 16)] ;;
           emit "tbz" [R cc; I SRB_X; I 2] ;;
           emit "orr_immed" [R tmp; R tmp; I 1; I (32 - 16)] ;;
           emit "bfi64" [R tmp; R tmp; I 17; I 17] ;;
           emit "ror64" [R tmp; R tmp; I amount] ;;
           emit "bfi" [R dest; R tmp; I 0; I 16]
         else if size =? 2
         then
           emit "lsl64" [R tmp; R dest; I 33] ;;
           emit "bfi64" [R tmp; R dest; I 0; I 32] ;;
           emit "tbz" [R cc; I SRB_X; I 4] ;;
           emit "orr64_immed" [R tmp; R tmp; I 1; I 32; I 1] ;;
           emit "b" [I 2] ;;
           emit "bic64_immed" [R tmp; R tmp; I 1; I 32; I 1] ;;
           emit "ror64" [R tmp; R tmp; I amount] ;;
           emit "mov_reg" [R dest; R tmp]
         else skip)) ;;
     (if nz (update_mask .& SR_NZV)
      then
        (if size =? 0 then emit "cmn_reg" [I 31; R tmp; I LSL; I 24]
         else if size =? 1 then emit "cmn_reg" [I 31; R tmp; I LSL; I 16]
         else if size =? 2 then emit "cmn_reg" [I 31; R tmp; I LSL; I 0]
         else skip) ;;
        let tmp_mask := update_mask in
        EMIT_GetNZ00 cc tmp_mask
      else skip) ;;
     (if nz (update_mask .& SR_XC)
      then
        (if nz dir
         then
           (if size =? 0 then emit "bfxil" [R cc; R tmp; I 31; I 1]
            else if size =? 1 then emit "bfxil" [R cc; R tmp; I 31; I 1]
            else if size =? 2 then emit "bfxil64" [R cc; R tmp; I 63; I 1]
            else skip)
         else
           (if size =? 0 then emit "bfxil" [R cc; R tmp; I 8; I 1]
            else if size =? 1 then emit "bfxil" [R cc; R tmp; I 16; I 1]
            else if size =? 2 then emit "bfxil64" [R cc; R tmp; I 32; I 1]
            else skip)) ;;
        (if nz (update_mask .& SR_X) then emit "bfi" [R cc; R cc; I 4; I 1] else skip)
      else skip) ;;
     RA_FreeARMRegister tmp) ;;
  EMIT_AdvancePC 2.
Definition EMIT_ROXR := EMIT_ROXL.

(** ** Bitfield instructions

    The extension word [opcode2] follows the opcode: bit 11 selects an
    offset held in a guest register, bit 5 a width held in a guest
    register, and a width of 0 stands for 32.  The [_reg] functions and
    the first halves of [EMIT_BFTST], [EMIT_BFEXTU] and [EMIT_BFEXTS]
    treat a field in a data register, the others a field in memory.  In
    these three the memory half updates [ext_words] through the resolver;
    the branch returns the counter that the end of the function uses. *)

Definition EMIT_BFTST (opcode : Z) : M unit :=
  update_mask <- GetSRMask (-1) ;;
  let ext_words := 1 in
  opcode2 <- fetch16 0 ;;
  ext_words <-
    (if opcode .& 0x0038 =? 0
     then
       src <- RA_MapM68kRegister (opcode .& 7) ;;
       (if opcode2 .& 0x0820 =? 0
        then
          let offset := (opcode2 >> 6) .& 0x1f in
          let width := opcode2 .& 0x1f in
          (if negb (offset =? 0) || negb (width =? 0)
           then
             tmp <- RA_AllocARMRegister ;;
             emit "lsl64" [R tmp; R src; I 32] ;;
             emit "orr64_reg" [R tmp; R tmp; R src; I LSL; I 0] ;;
             let width := if width =? 0 then 32 else width in
             emit "sbfx64" [R tmp; R tmp; I (64 - (offset + width)); I width] ;;
             (if nz update_mask
              then
                cc <- RA_ModifyCC ;;
                emit "cmn_reg" [I 31; R tmp; I LSL; I 0] ;;
                EMIT_GetNZ00 cc update_mask
              else skip) ;;
             RA_FreeARMRegister tmp
           else
             (if nz update_mask
              then
                cc <- RA_ModifyCC ;;
                emit "cmn_reg" [I 31; R src; I LSL; I 0] ;;
                EMIT_GetNZ00 cc update_mask
              else skip))
        else if negb (nz (opcode2 .& (1 << 11))) && (nz (opcode2 .& (1 << 5)))
        then
          tmp <- RA_AllocARMRegister ;;
          width_reg <- RA_CopyFromM68kRegister (opcode2 .& 7) ;;
          mask_reg <- RA_AllocARMRegister ;;
          let offset := (opcode2 >> 6) .& 31 in
          emit "lsl64" [R tmp; R src; I (32 + offset)] ;;
          emit "orr64_reg" [R tmp; R tmp; R src; I LSL; I offset] ;;
          emit "and_immed" [R width_reg; R width_reg; I 5; I 0] ;;
          emit "cbnz" [R width_reg; I 2] ;;
          emit "mov_immed_u16" [R width_reg; I 32; I 0] ;;
          emit "mov_immed_u16" [R mask_reg; I 1; I 0] ;;
          emit "lslv64" [R mask_reg; R mask_reg; R width_reg] ;;
          emit "sub64_immed" [R mask_reg; R mask_reg; I 1] ;;
          emit "rorv64" [R mask_reg; R mask_reg; R width_reg] ;;
          emit "ands64_reg" [R tmp; R tmp; R mask_reg; I LSL; I 0] ;;
          (if nz update_mask
           then
             cc <- RA_ModifyCC ;;
             EMIT_GetNZ00 cc update_mask
           else skip) ;;
          RA_FreeARMRegister tmp ;;
          RA_FreeARMRegister width_reg ;;
          RA_FreeARMRegister mask_reg
        else if (nz (opcode2 .& (1 << 11))) && negb (nz (opcode2 .& (1 << 5)))
        then
          off_reg <- RA_CopyFromM68kRegister ((opcode2 >> 6) .& 7) ;;
          mask_reg <- RA_AllocARMRegister ;;
          tmp <- RA_AllocARMRegister ;;
          let width := opcode2 .& 31 in
          emit "and_immed" [R off_reg; R off_reg; I 5; I 0] ;;
          let width := if width =? 0 then 32 else width in
          emit "orr64_immed" [R mask_reg; I 31; I width; I width; I 1] ;;
          emit "lsl64" [R tmp; R src; I 32] ;;
          emit "orr64_reg" [R tmp; R tmp; R src; I LSL; I 0] ;;
          emit "lslv64" [R tmp; R tmp; R off_reg] ;;
          emit "ands64_reg" [R tmp; R tmp; R mask_reg; I LSL; I 0] ;;
          (if nz update_mask
           then
             cc <- RA_ModifyCC ;;
             EMIT_GetNZ00 cc update_mask
           else skip) ;;
          RA_FreeARMRegister tmp ;;
          RA_FreeARMRegister mask_reg ;;
          RA_FreeARMRegister off_reg
        else if (nz (opcode2 .& (1 << 11))) && (nz (opcode2 .& (1 << 5)))
        then
          off_reg <- RA_CopyFromM68kRegister ((opcode2 >> 6) .& 7) ;;
          width_reg <- RA_CopyFromM68kRegister (opcode2 .& 7) ;;
          mask_reg <- RA_AllocARMRegister ;;
          tmp <- RA_AllocARMRegister ;;
          emit "and_immed" [R off_reg; R off_reg; I 5; I 0] ;;
          emit "and_immed" [R width_reg; R width_reg; I 5; I 0] ;;
          emit "cbnz" [R width_reg; I 2] ;;
          emit "mov_immed_u16" [R width_reg; I 32; I 0] ;;
          emit "mov_immed_u16" [R mask_reg; I 1; I 0] ;;
          emit "lslv64" [R mask_reg; R mask_reg; R width_reg] ;;
          emit "sub64_immed" [R mask_reg; R mask_reg; I 1] ;;
          emit "rorv64" [R mask_reg; R mask_reg; R width_reg] ;;
          emit "lsl64" [R tmp; R src; I 32] ;;
          emit "orr64_reg" [R tmp; R tmp; R src; I LSL; I 0] ;;
          emit "lslv64" [R tmp; R tmp; R off_reg] ;;
          emit "ands64_reg" [R tmp; R tmp; R mask_reg; I LSL; I 0] ;;
          (if nz update_mask
           then
             cc <- RA_ModifyCC ;;
             EMIT_GetNZ00 cc update_mask
           else skip) ;;
          RA_FreeARMRegister tmp ;;
          RA_FreeARMRegister mask_reg ;;
          RA_FreeARMRegister width_reg ;;
          RA_FreeARMRegister off_reg
        else skip) ;;
       ret ext_words
     else
       ea <- EMIT_LoadFromEffectiveAddress 0 (opcode .& 0x3f) ext_words 0 ;;
       let base := ea.1 in
       let ext_words := ea.2 in
       (if negb (nz (opcode2 .& (1 << 11))) && negb (nz (opcode2 .& (1 << 5)))
        then
          tmp <- RA_AllocARMRegister ;;
          let offset := (opcode2 >> 6) .& 31 in
          let width := opcode2 .& 31 in
          let width := if width =? 0 then 32 else width in
          emit "ldr64_offset" [R base; R tmp; I 0] ;;
          emit "sbfx64" [R tmp; R tmp; I ((64 - offset) - width); I width] ;;
          (if nz update_mask
           then
             cc <- RA_ModifyCC ;;
             emit "cmn64_reg" [I 31; R tmp; I LSL; I (64 - width)] ;;
             EMIT_GetNZ00 cc update_mask
           else skip) ;;
          RA_FreeARMRegister tmp
        else if negb (nz (opcode2 .& (1 << 11))) && (nz (opcode2 .& (1 << 5)))
        then
          tmp <- RA_AllocARMRegister ;;
          width_reg <- RA_CopyFromM68kRegister (opcode2 .& 7) ;;
          mask_reg <- RA_AllocARMRegister ;;
          let offset := (opcode2 >> 6) .& 31 in
          emit "ldr64_offset" [R base; R tmp; I 0] ;;
          (if negb (offset =? 0) then emit "lsl64" [R tmp; R tmp; I offset] else skip) ;;
          emit "and_immed" [R width_reg; R width_reg; I 5; I 0] ;;
          emit "cbnz" [R width_reg; I 2] ;;
          emit "mov_immed_u16" [R width_reg; I 32; I 0] ;;
          emit "mov_immed_u16" [R mask_reg; I 1; I 0] ;;
          emit "lslv64" [R mask_reg; R mask_reg; R width_reg] ;;
          emit "sub64_immed" [R mask_reg; R mask_reg; I 1] ;;
          emit "rorv64" [R mask_reg; R mask_reg; R width_reg] ;;
          emit "ands64_reg" [R tmp; R tmp; R mask_reg; I LSL; I 0] ;;
          (if nz update_mask
           then
             cc <- RA_ModifyCC ;;
             EMIT_GetNZ00 cc update_mask
           else skip) ;;
          RA_FreeARMRegister tmp ;;
          RA_FreeARMRegister width_reg ;;
          RA_FreeARMRegister mask_reg
        else if (nz (opcode2 .& (1 << 11))) && negb (nz (opcode2 .& (1 << 5)))
        then
          off_reg <- RA_CopyFromM68kRegister ((opcode2 >> 6) .& 7) ;;
          mask_reg <- RA_AllocARMRegister ;;
          tmp <- RA_AllocARMRegister ;;
          let width := opcode2 .& 31 in
          let width := if width =? 0 then 32 else width in
          emit "add_reg" [R base; R base; R off_reg; I ASR; I 3] ;;
          emit "and_immed" [R off_reg; R off_reg; I 3; I 0] ;;
          emit "orr64_immed" [R mask_reg; I 31; I width; I width; I 1] ;;
          emit "ldr64_offset" [R base; R tmp; I 0] ;;
          emit "lslv64" [R tmp; R tmp; R off_reg] ;;
          emit "ands64_reg" [R tmp; R tmp; R mask_reg; I LSL; I 0] ;;
          (if nz update_mask
           then
             cc <- RA_ModifyCC ;;
             EMIT_GetNZ00 cc update_mask
           else skip) ;;
          RA_FreeARMRegister tmp ;;
          RA_FreeARMRegister mask_reg ;;
          RA_FreeARMRegister off_reg
        else if (nz (opcode2 .& (1 << 11))) && (nz (opcode2 .& (1 << 5)))
        then
          off_reg <- RA_CopyFromM68kRegister ((opcode2 >> 6) .& 7) ;;
          width_reg <- RA_CopyFromM68kRegister (opcode2 .& 7) ;;
          mask_reg <- RA_AllocARMRegister ;;
          tmp <- RA_AllocARMRegister ;;
          emit "add_reg" [R base; R base; R off_reg; I ASR; I 3] ;;
          emit "and_immed" [R off_reg; R off_reg; I 3; I 0] ;;
          emit "and_immed" [R width_reg; R width_reg; I 5; I 0] ;;
          emit "cbnz" [R width_reg; I 2] ;;
          emit "mov_immed_u16" [R width_reg; I 32; I 0] ;;
          emit "mov_immed_u16" [R mask_reg; I 1; I 0] ;;
          emit "lslv64" [R mask_reg; R mask_reg; R width_reg] ;;
          emit "sub64_immed" [R mask_reg; R mask_reg; I 1] ;;
          emit "rorv64" [R mask_reg; R mask_reg; R width_reg] ;;
          emit "ldr64_offset" [R base; R tmp; I 0] ;;
          emit "lslv64" [R tmp; R tmp; R off_reg] ;;
          emit "ands64_reg" [R tmp; R tmp; R mask_reg; I LSL; I 0] ;;
          (if nz update_mask
           then
             cc <- RA_ModifyCC ;;
             EMIT_GetNZ00 cc update_mask
           else skip) ;;
          RA_FreeARMRegister tmp ;;
          RA_FreeARMRegister mask_reg ;;
          RA_FreeARMRegister width_reg ;;
          RA_FreeARMRegister off_reg
        else skip) ;;
       RA_FreeARMRegister base ;;
       ret ext_words) ;;
  EMIT_AdvancePC (2 * (ext_words + 1)) ;;
  advance_m68k_ptr ext_words.

Definition EMIT_BFEXTU (opcode : Z) : M unit :=
  update_mask <- GetSRMask (-1) ;;
  let ext_words := 1 in
  opcode2 <- fetch16 0 ;;
  ext_words <-
    (if opcode .& 0x0038 =? 0
     then
       src <- RA_MapM68kRegister (opcode .& 7) ;;
       (if opcode2 .& 0x0820 =? 0
        then
          dest <- RA_MapM68kRegister ((opcode2 >> 12) .& 7) ;;
          let offset := (opcode2 >> 6) .& 0x1f in
          let width := opcode2 .& 0x1f in
          RA_SetDirtyM68kRegister ((opcode2 >> 12) .& 7) ;;
          let width := if width =? 0 then 32 else width in
          (if negb (offset =? 0) || negb (width =? 32)
           then
             tmp <- RA_AllocARMRegister ;;
             emit "lsl64" [R tmp; R src; I 32] ;;
             emit "orr64_reg" [R tmp; R tmp; R src; I LSL; I 0] ;;
             emit "ubfx64" [R dest; R tmp; I (64 - (offset + width)); I width] ;;
             RA_FreeARMRegister tmp
           else
             emit "mov_reg" [R dest; R src]) ;;
          (if nz update_mask
           then
             cc <- RA_ModifyCC ;;
             emit "cmn_reg" [I 31; R dest; I LSL; I (32 - width)] ;;
             EMIT_GetNZ00 cc update_mask
           else skip)
        else if negb (nz (opcode2 .& (1 << 11))) && (nz (opcode2 .& (1 << 5)))
        then
          dest <- RA_MapM68kRegisterForWrite ((opcode2 >> 12) .& 7) ;;
          tmp <- RA_AllocARMRegister ;;
          width_reg <- RA_CopyFromM68kRegister (opcode2 .& 7) ;;
          mask_reg <- RA_AllocARMRegister ;;
          let offset := (opcode2 >> 6) .& 31 in
          emit "lsl64" [R tmp; R src; I (32 + offset)] ;;
          emit "orr64_reg" [R tmp; R tmp; R src; I LSL; I offset] ;;
          emit "and_immed" [R width_reg; R width_reg; I 5; I 0] ;;
          emit "cbnz" [R width_reg; I 2] ;;
          emit "mov_immed_u16" [R width_reg; I 32; I 0] ;;
          emit "mov_immed_u16" [R mask_reg; I 1; I 0] ;;
          emit "lslv64" [R mask_reg; R mask_reg; R width_reg] ;;
          emit "sub64_immed" [R mask_reg; R mask_reg; I 1] ;;
          emit "rorv64" [R mask_reg; R mask_reg; R width_reg] ;;
          emit "ands64_reg" [R tmp; R tmp; R mask_reg; I LSL; I 0] ;;
          emit "mov_immed_u16" [R mask_reg; I 64; I 0] ;;
          emit "sub_reg" [R width_reg; R mask_reg; R width_reg; I LSL; I 0] ;;
          emit "lsrv64" [R tmp; R tmp; R width_reg] ;;
          emit "mov_reg" [R dest; R tmp] ;;
          (if nz update_mask
           then
             cc <- RA_ModifyCC ;;
             EMIT_GetNZ00 cc update_mask
           else skip) ;;
          RA_FreeARMRegister tmp ;;
          RA_FreeARMRegister width_reg ;;
          RA_FreeARMRegister mask_reg
        else if (nz (opcode2 .& (1 << 11))) && negb (nz (opcode2 .& (1 << 5)))
        then
          dest <- RA_MapM68kRegisterForWrite ((opcode2 >> 12) .& 7) ;;
          off_reg <- RA_CopyFromM68kRegister ((opcode2 >> 6) .& 7) ;;
          mask_reg <- RA_AllocARMRegister ;;
          tmp <- RA_AllocARMRegister ;;
          let width := opcode2 .& 31 in
          emit "and_immed" [R off_reg; R off_reg; I 5; I 0] ;;
          let width := if width =? 0 then 32 else width in
          emit "orr64_immed" [R mask_reg; I 31; I width; I width; I 1] ;;
          emit "lsl64" [R tmp; R src; I 32] ;;
          emit "orr64_reg" [R tmp; R tmp; R src; I LSL; I 0] ;;
          emit "lslv64" [R tmp; R tmp; R off_reg] ;;
          emit "ands64_reg" [R tmp; R tmp; R mask_reg; I LSL; I 0] ;;
          emit "lsr64" [R tmp; R tmp; I (64 - width)] ;;
          emit "mov_reg" [R dest; R tmp] ;;
          (if nz update_mask
           then
             cc <- RA_ModifyCC ;;
             EMIT_GetNZ00 cc update_mask
           else skip) ;;
          RA_FreeARMRegister tmp ;;
          RA_FreeARMRegister mask_reg ;;
          RA_FreeARMRegister off_reg
        else if (nz (opcode2 .& (1 << 11))) && (nz (opcode2 .& (1 << 5)))
        then
          dest <- RA_MapM68kRegisterForWrite ((opcode2 >> 12) .& 7) ;;
          off_reg <- RA_CopyFromM68kRegister ((opcode2 >> 6) .& 7) ;;
          width_reg <- RA_CopyFromM68kRegister (opcode2 .& 7) ;;
          mask_reg <- RA_AllocARMRegister ;;
          tmp <- RA_AllocARMRegister ;;
          emit "and_immed" [R off_reg; R off_reg; I 5; I 0] ;;
          emit "and_immed" [R width_reg; R width_reg; I 5; I 0] ;;
          emit "cbnz" [R width_reg; I 2] ;;
          emit "mov_immed_u16" [R width_reg; I 32; I 0] ;;
          emit "mov_immed_u16" [R mask_reg; I 1; I 0] ;;
          emit "lslv64" [R mask_reg; R mask_reg; R width_reg] ;;
          emit "sub64_immed" [R mask_reg; R mask_reg; I 1] ;;
          emit "rorv64" [R mask_reg; R mask_reg; R width_reg] ;;
          emit "lsl64" [R tmp; R src; I 32] ;;
          emit "orr64_reg" [R tmp; R tmp; R src; I LSL; I 0] ;;
          emit "lslv64" [R tmp; R tmp; R off_reg] ;;
          emit "ands64_reg" [R tmp; R tmp; R mask_reg; I LSL; I 0] ;;
          emit "mov_immed_u16" [R off_reg; I 64; I 0] ;;
          emit "sub_reg" [R width_reg; R off_reg; R width_reg; I LSL; I 0] ;;
          emit "lsrv64" [R tmp; R tmp; R width_reg] ;;
          emit "mov_reg" [R dest; R tmp] ;;
          (if nz update_mask
           then
             cc <- RA_ModifyCC ;;
             EMIT_GetNZ00 cc update_mask
           else skip) ;;
          RA_FreeARMRegister tmp ;;
          RA_FreeARMRegister mask_reg ;;
          RA_FreeARMRegister width_reg ;;
          RA_FreeARMRegister off_reg
        else skip) ;;
       ret ext_words
     else
       ea <- EMIT_LoadFromEffectiveAddress 0 (opcode .& 0x3f) ext_words 0 ;;
       let base := ea.1 in
       let ext_words := ea.2 in
       (if negb (nz (opcode2 .& (1 << 11))) && negb (nz (opcode2 .& (1 << 5)))
        then
          dest <- RA_MapM68kRegisterForWrite ((opcode2 >> 12) .& 7) ;;
          tmp <- RA_AllocARMRegister ;;
          let offset := (opcode2 >> 6) .& 31 in
          let width := opcode2 .& 31 in
          let width := if width =? 0 then 32 else width in
          emit "ldr64_offset" [R base; R tmp; I 0] ;;
          emit "ubfx64" [R tmp; R tmp; I ((64 - offset) - width); I width] ;;
          emit "mov_reg" [R dest; R tmp] ;;
          (if nz update_mask
           then
             cc <- RA_ModifyCC ;;
             emit "cmn64_reg" [I 31; R tmp; I LSL; I (64 - width)] ;;
             EMIT_GetNZ00 cc update_mask
           else skip) ;;
          RA_FreeARMRegister tmp
        else if negb (nz (opcode2 .& (1 << 11))) && (nz (opcode2 .& (1 << 5)))
        then
          dest <- RA_MapM68kRegisterForWrite ((opcode2 >> 12) .& 7) ;;
          tmp <- RA_AllocARMRegister ;;
          width_reg <- RA_CopyFromM68kRegister (opcode2 .& 7) ;;
          mask_reg <- RA_AllocARMRegister ;;
          let offset := (opcode2 >> 6) .& 31 in
          emit "ldr64_offset" [R base; R tmp; I 0] ;;
          (if negb (offset =? 0) then emit "lsl64" [R tmp; R tmp; I offset] else skip) ;;
          emit "and_immed" [R width_reg; R width_reg; I 5; I 0] ;;
          emit "cbnz" [R width_reg; I 2] ;;
          emit "mov_immed_u16" [R width_reg; I 32; I 0] ;;
          emit "mov_immed_u16" [R mask_reg; I 1; I 0] ;;
          emit "lslv64" [R mask_reg; R mask_reg; R width_reg] ;;
          emit "sub64_immed" [R mask_reg; R mask_reg; I 1] ;;
          emit "rorv64" [R mask_reg; R mask_reg; R width_reg] ;;
          emit "ands64_reg" [R tmp; R tmp; R mask_reg; I LSL; I 0] ;;
          emit "mov_immed_u16" [R mask_reg; I 64; I 0] ;;
          emit "sub_reg" [R width_reg; R mask_reg; R width_reg; I LSL; I 0] ;;
          emit "lsrv64" [R tmp; R tmp; R width_reg] ;;
          emit "mov_reg" [R dest; R tmp] ;;
          (if nz update_mask
           then
             cc <- RA_ModifyCC ;;
             EMIT_GetNZ00 cc update_mask
           else skip) ;;
          RA_FreeARMRegister tmp ;;
          RA_FreeARMRegister width_reg ;;
          RA_FreeARMRegister mask_reg
        else if (nz (opcode2 .& (1 << 11))) && negb (nz (opcode2 .& (1 << 5)))
        then
          dest <- RA_MapM68kRegisterForWrite ((opcode2 >> 12) .& 7) ;;
          off_reg <- RA_CopyFromM68kRegister ((opcode2 >> 6) .& 7) ;;
          mask_reg <- RA_AllocARMRegister ;;
          tmp <- RA_AllocARMRegister ;;
          let width := opcode2 .& 31 in
          let width := if width =? 0 then 32 else width in
          emit "add_reg" [R base; R base; R off_reg; I ASR; I 3] ;;
          emit "and_immed" [R off_reg; R off_reg; I 3; I 0] ;;
          emit "orr64_immed" [R mask_reg; I 31; I width; I width; I 1] ;;
          emit "ldr64_offset" [R base; R tmp; I 0] ;;
          emit "lslv64" [R tmp; R tmp; R off_reg] ;;
          emit "ands64_reg" [R tmp; R tmp; R mask_reg; I LSL; I 0] ;;
          emit "lsr64" [R tmp; R tmp; I (64 - width)] ;;
          emit "mov_reg" [R dest; R tmp] ;;
          (if nz update_mask
           then
             cc <- RA_ModifyCC ;;
             EMIT_GetNZ00 cc update_mask
           else skip) ;;
          RA_FreeARMRegister tmp ;;
          RA_FreeARMRegister mask_reg ;;
          RA_FreeARMRegister off_reg
        else skip) ;;
       (if (nz (opcode2 .& (1 << 11))) && (nz (opcode2 .& (1 << 5)))
        then
          dest <- RA_MapM68kRegisterForWrite ((opcode2 >> 12) .& 7) ;;
          off_reg <- RA_CopyFromM68kRegister ((opcode2 >> 6) .& 7) ;;
          width_reg <- RA_CopyFromM68kRegister (opcode2 .& 7) ;;
          mask_reg <- RA_AllocARMRegister ;;
          tmp <- RA_AllocARMRegister ;;
          emit "add_reg" [R base; R base; R off_reg; I ASR; I 3] ;;
          emit "and_immed" [R off_reg; R off_reg; I 3; I 0] ;;
          emit "and_immed" [R width_reg; R width_reg; I 5; I 0] ;;
          emit "cbnz" [R width_reg; I 2] ;;
          emit "mov_immed_u16" [R width_reg; I 32; I 0] ;;
          emit "mov_immed_u16" [R mask_reg; I 1; I 0] ;;
          emit "lslv64" [R mask_reg; R mask_reg; R width_reg] ;;
          emit "sub64_immed" [R mask_reg; R mask_reg; I 1] ;;
          emit "rorv64" [R mask_reg; R mask_reg; R width_reg] ;;
          emit "ldr64_offset" [R base; R tmp; I 0] ;;
          emit "lslv64" [R tmp; R tmp; R off_reg] ;;
          emit "ands64_reg" [R tmp; R tmp; R mask_reg; I LSL; I 0] ;;
          emit "mov_immed_u16" [R off_reg; I 64; I 0] ;;
          emit "sub_reg" [R width_reg; R off_reg; R width_reg; I LSL; I 0] ;;
          emit "lsrv64" [R tmp; R tmp; R width_reg] ;;
          emit "mov_reg" [R dest; R tmp] ;;
          (if nz update_mask
           then
             cc <- RA_ModifyCC ;;
             EMIT_GetNZ00 cc update_mask
           else skip) ;;
          RA_FreeARMRegister tmp ;;
          RA_FreeARMRegister mask_reg ;;
          RA_FreeARMRegister width_reg ;;
          RA_FreeARMRegister off_reg
        else skip) ;;
       RA_FreeARMRegister base ;;
       ret ext_words) ;;
  EMIT_AdvancePC (2 * (ext_words + 1)) ;;
  advance_m68k_ptr ext_words.

Definition EMIT_BFEXTS (opcode : Z) : M unit :=
  update_mask <- GetSRMask (-1) ;;
  let ext_words := 1 in
  opcode2 <- fetch16 0 ;;
  ext_words <-
    (if opcode .& 0x0038 =? 0
     then
       src <- RA_MapM68kRegister (opcode .& 7) ;;
       (if opcode2 .& 0x0820 =? 0
        then
          dest <- RA_MapM68kRegister ((opcode2 >> 12) .& 7) ;;
          let offset := (opcode2 >> 6) .& 0x1f in
          let width := opcode2 .& 0x1f in
          RA_SetDirtyM68kRegister ((opcode2 >> 12) .& 7) ;;
          (if negb (offset =? 0) || negb (width =? 0)
           then
             tmp <- RA_AllocARMRegister ;;
             emit "lsl64" [R tmp; R src; I 32] ;;
             emit "orr64_reg" [R tmp; R tmp; R src; I LSL; I 0] ;;
             let width := if width =? 0 then 32 else width in
             emit "sbfx64" [R tmp; R tmp; I (64 - (offset + width)); I width] ;;
             emit "mov_reg" [R dest; R tmp] ;;
             RA_FreeARMRegister tmp
           else
             emit "mov_reg" [R dest; R src]) ;;
          (if nz update_mask
           then
             cc <- RA_ModifyCC ;;
             emit "cmn_reg" [I 31; R dest; I LSL; I 0] ;;
             EMIT_GetNZ00 cc update_mask
           else skip)
        else if negb (nz (opcode2 .& (1 << 11))) && (nz (opcode2 .& (1 << 5)))
        then
          dest <- RA_MapM68kRegisterForWrite ((opcode2 >> 12) .& 7) ;;
          tmp <- RA_AllocARMRegister ;;
          width_reg <- RA_CopyFromM68kRegister (opcode2 .& 7) ;;
          mask_reg <- RA_AllocARMRegister ;;
          let offset := (opcode2 >> 6) .& 31 in
          emit "lsl64" [R tmp; R src; I (32 + offset)] ;;
          emit "orr64_reg" [R tmp; R tmp; R src; I LSL; I offset] ;;
          emit "and_immed" [R width_reg; R width_reg; I 5; I 0] ;;
          emit "cbnz" [R width_reg; I 2] ;;
          emit "mov_immed_u16" [R width_reg; I 32; I 0] ;;
          emit "mov_immed_u16" [R mask_reg; I 1; I 0] ;;
          emit "lslv64" [R mask_reg; R mask_reg; R width_reg] ;;
          emit "sub64_immed" [R mask_reg; R mask_reg; I 1] ;;
          emit "rorv64" [R mask_reg; R mask_reg; R width_reg] ;;
          emit "ands64_reg" [R tmp; R tmp; R mask_reg; I LSL; I 0] ;;
          emit "mov_immed_u16" [R mask_reg; I 64; I 0] ;;
          emit "sub_reg" [R width_reg; R mask_reg; R width_reg; I LSL; I 0] ;;
          emit "asrv64" [R tmp; R tmp; R width_reg] ;;
          emit "mov_reg" [R dest; R tmp] ;;
          (if nz update_mask
           then
             cc <- RA_ModifyCC ;;
             EMIT_GetNZ00 cc update_mask
           else skip) ;;
          RA_FreeARMRegister tmp ;;
          RA_FreeARMRegister width_reg ;;
          RA_FreeARMRegister mask_reg
        else if (nz (opcode2 .& (1 << 11))) && negb (nz (opcode2 .& (1 << 5)))
        then
          dest <- RA_MapM68kRegisterForWrite ((opcode2 >> 12) .& 7) ;;
          off_reg <- RA_CopyFromM68kRegister ((opcode2 >> 6) .& 7) ;;
          mask_reg <- RA_AllocARMRegister ;;
          tmp <- RA_AllocARMRegister ;;
          let width := opcode2 .& 31 in
          emit "and_immed" [R off_reg; R off_reg; I 5; I 0] ;;
          let width := if width =? 0 then 32 else width in
          emit "orr64_immed" [R mask_reg; I 31; I width; I width; I 1] ;;
          emit "lsl64" [R tmp; R src; I 32] ;;
          emit "orr64_reg" [R tmp; R tmp; R src; I LSL; I 0] ;;
          emit "lslv64" [R tmp; R tmp; R off_reg] ;;
          emit "ands64_reg" [R tmp; R tmp; R mask_reg; I LSL; I 0] ;;
          emit "asr64" [R tmp; R tmp; I (64 - width)] ;;
          emit "mov_reg" [R dest; R tmp] ;;
          (if nz update_mask
           then
             cc <- RA_ModifyCC ;;
             EMIT_GetNZ00 cc update_mask
           else skip) ;;
          RA_FreeARMRegister tmp ;;
          RA_FreeARMRegister mask_reg ;;
          RA_FreeARMRegister off_reg
        else if (nz (opcode2 .& (1 << 11))) && (nz (opcode2 .& (1 << 5)))
        then
          dest <- RA_MapM68kRegisterForWrite ((opcode2 >> 12) .& 7) ;;
          off_reg <- RA_CopyFromM68kRegister ((opcode2 >> 6) .& 7) ;;
          width_reg <- RA_CopyFromM68kRegister (opcode2 .& 7) ;;
          mask_reg <- RA_AllocARMRegister ;;
          tmp <- RA_AllocARMRegister ;;
          emit "and_immed" [R off_reg; R off_reg; I 5; I 0] ;;
          emit "and_immed" [R width_reg; R width_reg; I 5; I 0] ;;
          emit "cbnz" [R width_reg; I 2] ;;
          emit "mov_immed_u16" [R width_reg; I 32; I 0] ;;
          emit "mov_immed_u16" [R mask_reg; I 1; I 0] ;;
          emit "lslv64" [R mask_reg; R mask_reg; R width_reg] ;;
          emit "sub64_immed" [R mask_reg; R mask_reg; I 1] ;;
          emit "rorv64" [R mask_reg; R mask_reg; R width_reg] ;;
          emit "lsl64" [R tmp; R src; I 32] ;;
          emit "orr64_reg" [R tmp; R tmp; R src; I LSL; I 0] ;;
          emit "lslv64" [R tmp; R tmp; R off_reg] ;;
          emit "ands64_reg" [R tmp; R tmp; R mask_reg; I LSL; I 0] ;;
          emit "mov_immed_u16" [R off_reg; I 64; I 0] ;;
          emit "sub_reg" [R width_reg; R off_reg; R width_reg; I LSL; I 0] ;;
          emit "asrv64" [R tmp; R tmp; R width_reg] ;;
          emit "mov_reg" [R dest; R tmp] ;;
          (if nz update_mask
           then
             cc <- RA_ModifyCC ;;
             EMIT_GetNZ00 cc update_mask
           else skip) ;;
          RA_FreeARMRegister tmp ;;
          RA_FreeARMRegister mask_reg ;;
          RA_FreeARMRegister width_reg ;;
          RA_FreeARMRegister off_reg
        else skip) ;;
       ret ext_words
     else
       ea <- EMIT_LoadFromEffectiveAddress 0 (opcode .& 0x3f) ext_words 0 ;;
       let base := ea.1 in
       let ext_words := ea.2 in
       (if negb (nz (opcode2 .& (1 << 11))) && negb (nz (opcode2 .& (1 << 5)))
        then
          dest <- RA_MapM68kRegisterForWrite ((opcode2 >> 12) .& 7) ;;
          tmp <- RA_AllocARMRegister ;;
          let offset := (opcode2 >> 6) .& 31 in
          let width := opcode2 .& 31 in
          let width := if width =? 0 then 32 else width in
          emit "ldr64_offset" [R base; R tmp; I 0] ;;
          emit "sbfx64" [R tmp; R tmp; I ((64 - offset) - width); I width] ;;
          emit "mov_reg" [R dest; R tmp] ;;
          (if nz update_mask
           then
             cc <- RA_ModifyCC ;;
             emit "cmn64_reg" [I 31; R tmp; I LSL; I (64 - width)] ;;
             EMIT_GetNZ00 cc update_mask
           else skip) ;;
          RA_FreeARMRegister tmp
        else if negb (nz (opcode2 .& (1 << 11))) && (nz (opcode2 .& (1 << 5)))
        then
          dest <- RA_MapM68kRegisterForWrite ((opcode2 >> 12) .& 7) ;;
          tmp <- RA_AllocARMRegister ;;
          width_reg <- RA_CopyFromM68kRegister (opcode2 .& 7) ;;
          mask_reg <- RA_AllocARMRegister ;;
          let offset := (opcode2 >> 6) .& 31 in
          emit "ldr64_offset" [R base; R tmp; I 0] ;;
          (if negb (offset =? 0) then emit "lsl64" [R tmp; R tmp; I offset] else skip) ;;
          emit "and_immed" [R width_reg; R width_reg; I 5; I 0] ;;
          emit "cbnz" [R width_reg; I 2] ;;
          emit "mov_immed_u16" [R width_reg; I 32; I 0] ;;
          emit "mov_immed_u16" [R mask_reg; I 1; I 0] ;;
          emit "lslv64" [R mask_reg; R mask_reg; R width_reg] ;;
          emit "sub64_immed" [R mask_reg; R mask_reg; I 1] ;;
          emit "rorv64" [R mask_reg; R mask_reg; R width_reg] ;;
          emit "ands64_reg" [R tmp; R tmp; R mask_reg; I LSL; I 0] ;;
          emit "mov_immed_u16" [R mask_reg; I 64; I 0] ;;
          emit "sub_reg" [R width_reg; R mask_reg; R width_reg; I LSL; I 0] ;;
          emit "asrv64" [R tmp; R tmp; R width_reg] ;;
          emit "mov_reg" [R dest; R tmp] ;;
          (if nz update_mask
           then
             cc <- RA_ModifyCC ;;
             EMIT_GetNZ00 cc update_mask
           else skip) ;;
          RA_FreeARMRegister tmp ;;
          RA_FreeARMRegister width_reg ;;
          RA_FreeARMRegister mask_reg
        else if (nz (opcode2 .& (1 << 11))) && negb (nz (opcode2 .& (1 << 5)))
        then
          dest <- RA_MapM68kRegisterForWrite ((opcode2 >> 12) .& 7) ;;
          off_reg <- RA_CopyFromM68kRegister ((opcode2 >> 6) .& 7) ;;
          mask_reg <- RA_AllocARMRegister ;;
          tmp <- RA_AllocARMRegister ;;
          let width := opcode2 .& 31 in
          let width := if width =? 0 then 32 else width in
          emit "add_reg" [R base; R base; R off_reg; I ASR; I 3] ;;
          emit "and_immed" [R off_reg; R off_reg; I 3; I 0] ;;
          emit "orr64_immed" [R mask_reg; I 31; I width; I width; I 1] ;;
          emit "ldr64_offset" [R base; R tmp; I 0] ;;
          emit "lslv64" [R tmp; R tmp; R off_reg] ;;
          emit "ands64_reg" [R tmp; R tmp; R mask_reg; I LSL; I 0] ;;
          emit "asr64" [R tmp; R tmp; I (64 - width)] ;;
          emit "mov_reg" [R dest; R tmp] ;;
          (if nz update_mask
           then
             cc <- RA_ModifyCC ;;
             EMIT_GetNZ00 cc update_mask
           else skip) ;;
          RA_FreeARMRegister tmp ;;
          RA_FreeARMRegister mask_reg ;;
          RA_FreeARMRegister off_reg
        else if (nz (opcode2 .& (1 << 11))) && (nz (opcode2 .& (1 << 5)))
        then
          dest <- RA_MapM68kRegisterForWrite ((opcode2 >> 12) .& 7) ;;
          off_reg <- RA_CopyFromM68kRegister ((opcode2 >> 6) .& 7) ;;
          width_reg <- RA_CopyFromM68kRegister (opcode2 .& 7) ;;
          mask_reg <- RA_AllocARMRegister ;;
          tmp <- RA_AllocARMRegister ;;
          emit "add_reg" [R base; R base; R off_reg; I ASR; I 3] ;;
          emit "and_immed" [R off_reg; R off_reg; I 3; I 0] ;;
          emit "and_immed" [R width_reg; R width_reg; I 5; I 0] ;;
          emit "cbnz" [R width_reg; I 2] ;;
          emit "mov_immed_u16" [R width_reg; I 32; I 0] ;;
          emit "mov_immed_u16" [R mask_reg; I 1; I 0] ;;
          emit "lslv64" [R mask_reg; R mask_reg; R width_reg] ;;
          emit "sub64_immed" [R mask_reg; R mask_reg; I 1] ;;
          emit "rorv64" [R mask_reg; R mask_reg; R width_reg] ;;
          emit "ldr64_offset" [R base; R tmp; I 0] ;;
          emit "lslv64" [R tmp; R tmp; R off_reg] ;;
          emit "ands64_reg" [R tmp; R tmp; R mask_reg; I LSL; I 0] ;;
          emit "mov_immed_u16" [R off_reg; I 64; I 0] ;;
          emit "sub_reg" [R width_reg; R off_reg; R width_reg; I LSL; I 0] ;;
          emit "asrv64" [R tmp; R tmp; R width_reg] ;;
          emit "mov_reg" [R dest; R tmp] ;;
          (if nz update_mask
           then
             cc <- RA_ModifyCC ;;
             EMIT_GetNZ00 cc update_mask
           else skip) ;;
          RA_FreeARMRegister tmp ;;
          RA_FreeARMRegister mask_reg ;;
          RA_FreeARMRegister width_reg ;;
          RA_FreeARMRegister off_reg
        else skip) ;;
       RA_FreeARMRegister base ;;
       ret ext_words) ;;
  EMIT_AdvancePC (2 * (ext_words + 1)) ;;
  advance_m68k_ptr ext_words.

Definition EMIT_BFFFO_reg (opcode : Z) : M unit :=
  update_mask <- GetSRMask (-1) ;;
  let ext_words := 1 in
  opcode2 <- fetch16 0 ;;
  src <- RA_MapM68kRegister (opcode .& 7) ;;
  (if opcode2 .& 0x0820 =? 0
   then
     let offset := (opcode2 >> 6) .& 0x1f in
     let width := opcode2 .& 0x1f in
     dest <- RA_MapM68kRegisterForWrite ((opcode2 >> 12) .& 7) ;;
     (if negb (offset =? 0) || negb (width =? 0)
      then
        tmp <- RA_AllocARMRegister ;;
        emit "lsl64" [R tmp; R src; I (32 + offset)] ;;
        emit "orr64_reg" [R tmp; R tmp; R src; I LSL; I offset] ;;
        let width := if width =? 0 then 32 else width in
        emit "ands64_immed" [R tmp; R tmp; I width; I width; I 1] ;;
        emit "orr64_immed" [R tmp; R tmp; I (64 - width); I 0; I 1] ;;
        emit "clz64" [R dest; R tmp] ;;
        emit "add_immed" [R dest; R dest; I offset] ;;
        (if nz update_mask
         then
           cc <- RA_ModifyCC ;;
           EMIT_GetNZ00 cc update_mask
         else skip) ;;
        RA_FreeARMRegister tmp
      else
        (if nz update_mask
         then
           cc <- RA_ModifyCC ;;
           emit "cmn_reg" [I 31; R src; I LSL; I 0] ;;
           emit "clz" [R dest; R src] ;;
           EMIT_GetNZ00 cc update_mask
         else skip))
   else if negb (nz (opcode2 .& (1 << 11))) && (nz (opcode2 .& (1 << 5)))
   then
     tmp <- RA_AllocARMRegister ;;
     dest <- RA_MapM68kRegisterForWrite ((opcode2 >> 12) .& 7) ;;
     width_reg <- RA_CopyFromM68kRegister (opcode2 .& 7) ;;
     mask_reg <- RA_AllocARMRegister ;;
     let offset := (opcode2 >> 6) .& 31 in
     emit "lsl64" [R tmp; R src; I (32 + offset)] ;;
     emit "orr64_reg" [R tmp; R tmp; R src; I LSL; I offset] ;;
     emit "and_immed" [R width_reg; R width_reg; I 5; I 0] ;;
     emit "cbnz" [R width_reg; I 2] ;;
     emit "mov_immed_u16" [R width_reg; I 32; I 0] ;;
     emit "mov_immed_u16" [R mask_reg; I 1; I 0] ;;
     emit "lslv64" [R mask_reg; R mask_reg; R width_reg] ;;
     emit "sub64_immed" [R mask_reg; R mask_reg; I 1] ;;
     emit "rorv64" [R mask_reg; R mask_reg; R width_reg] ;;
     emit "ands64_reg" [R tmp; R tmp; R mask_reg; I LSL; I 0] ;;
     emit "orn64_reg" [R tmp; R tmp; R mask_reg; I LSL; I 0] ;;
     emit "clz64" [R dest; R tmp] ;;
     emit "add_immed" [R dest; R dest; I offset] ;;
     (if nz update_mask
      then
        cc <- RA_ModifyCC ;;
        EMIT_GetNZ00 cc update_mask
      else skip) ;;
     RA_FreeARMRegister tmp ;;
     RA_FreeARMRegister width_reg ;;
     RA_FreeARMRegister mask_reg
   else if (nz (opcode2 .& (1 << 11))) && negb (nz (opcode2 .& (1 << 5)))
   then
     off_reg <- RA_AllocARMRegister ;;
     off_orig <- (if (opcode2 >> 6) .& 7 =? (opcode2 >> 12) .& 7
                  then RA_CopyFromM68kRegister ((opcode2 >> 6) .& 7)
                  else RA_MapM68kRegister ((opcode2 >> 6) .& 7)) ;;
     dest <- RA_MapM68kRegisterForWrite ((opcode2 >> 12) .& 7) ;;
     mask_reg <- RA_AllocARMRegister ;;
     tmp <- RA_AllocARMRegister ;;
     let width := opcode2 .& 31 in
     emit "and_immed" [R off_reg; R off_orig; I 5; I 0] ;;
     let width := if width =? 0 then 32 else width in
     emit "orr64_immed" [R mask_reg; I 31; I width; I width; I 1] ;;
     emit "lsl64" [R tmp; R src; I 32] ;;
     emit "orr64_reg" [R tmp; R tmp; R src; I LSL; I 0] ;;
     emit "lslv64" [R tmp; R tmp; R off_reg] ;;
     emit "ands64_reg" [R tmp; R tmp; R mask_reg; I LSL; I 0] ;;
     emit "orn64_reg" [R tmp; R tmp; R mask_reg; I LSL; I 0] ;;
     emit "clz64" [R dest; R tmp] ;;
     emit "add_reg" [R dest; R dest; R off_orig; I LSL; I 0] ;;
     (if nz update_mask
      then
        cc <- RA_ModifyCC ;;
        EMIT_GetNZ00 cc update_mask
      else skip) ;;
     RA_FreeARMRegister tmp ;;
     RA_FreeARMRegister mask_reg ;;
     RA_FreeARMRegister off_reg ;;
     RA_FreeARMRegister off_orig
   else if (nz (opcode2 .& (1 << 11))) && (nz (opcode2 .& (1 << 5)))
   then
     off_reg <- RA_AllocARMRegister ;;
     dest <- RA_MapM68kRegisterForWrite ((opcode2 >> 12) .& 7) ;;
     off_orig <- (if (opcode2 >> 6) .& 7 =? (opcode2 >> 12) .& 7
                  then RA_CopyFromM68kRegister ((opcode2 >> 6) .& 7)
                  else RA_MapM68kRegister ((opcode2 >> 6) .& 7)) ;;
     width_reg <- RA_CopyFromM68kRegister (opcode2 .& 7) ;;
     mask_reg <- RA_AllocARMRegister ;;
     tmp <- RA_AllocARMRegister ;;
     emit "and_immed" [R off_reg; R off_orig; I 5; I 0] ;;
     emit "and_immed" [R width_reg; R width_reg; I 5; I 0] ;;
     emit "cbnz" [R width_reg; I 2] ;;
     emit "mov_immed_u16" [R width_reg; I 32; I 0] ;;
     emit "mov_immed_u16" [R mask_reg; I 1; I 0] ;;
     emit "lslv64" [R mask_reg; R mask_reg; R width_reg] ;;
     emit "sub64_immed" [R mask_reg; R mask_reg; I 1] ;;
     emit "rorv64" [R mask_reg; R mask_reg; R width_reg] ;;
     emit "lsl64" [R tmp; R src; I 32] ;;
     emit "orr64_reg" [R tmp; R tmp; R src; I LSL; I 0] ;;
     emit "lslv64" [R tmp; R tmp; R off_reg] ;;
     emit "ands64_reg" [R tmp; R tmp; R mask_reg; I LSL; I 0] ;;
     emit "orn64_reg" [R tmp; R tmp; R mask_reg; I LSL; I 0] ;;
     emit "clz64" [R dest; R tmp] ;;
     emit "add_reg" [R dest; R dest; R off_orig; I LSL; I 0] ;;
     (if nz update_mask
      then
        cc <- RA_ModifyCC ;;
        EMIT_GetNZ00 cc update_mask
      else skip) ;;
     RA_FreeARMRegister tmp ;;
     RA_FreeARMRegister mask_reg ;;
     RA_FreeARMRegister width_reg ;;
     RA_FreeARMRegister off_reg ;;
     RA_FreeARMRegister off_orig
   else skip) ;;
  EMIT_AdvancePC (2 * (ext_words + 1)) ;;
  advance_m68k_ptr ext_words.

Definition EMIT_BFFFO (opcode : Z) : M unit :=
  update_mask <- GetSRMask (-1) ;;
  let ext_words := 1 in
  opcode2 <- fetch16 0 ;;
  ea <- EMIT_LoadFromEffectiveAddress 0 (opcode .& 0x3f) ext_words 0 ;;
  let base := ea.1 in
  let ext_words := ea.2 in
  (if negb (nz (opcode2 .& (1 << 11))) && negb (nz (opcode2 .& (1 << 5)))
   then
     tmp <- RA_AllocARMRegister ;;
     dest <- RA_MapM68kRegisterForWrite ((opcode2 >> 12) .& 7) ;;
     let offset := (opcode2 >> 6) .& 31 in
     let width := opcode2 .& 31 in
     let width := if width =? 0 then 32 else width in
     emit "ldr64_offset" [R base; R tmp; I 0] ;;
     (if negb (offset =? 0) then emit "lsl64" [R tmp; R tmp; I offset] else skip) ;;
     emit "ands64_immed" [R tmp; R tmp; I width; I width; I 1] ;;
     emit "orr64_immed" [R tmp; R tmp; I (64 - width); I 0; I 1] ;;
     emit "clz64" [R dest; R tmp] ;;
     emit "add_immed" [R dest; R dest; I offset] ;;
     (if nz update_mask
      then
        cc <- RA_ModifyCC ;;
        EMIT_GetNZ00 cc update_mask
      else skip) ;;
     RA_FreeARMRegister tmp
   else if negb (nz (opcode2 .& (1 << 11))) && (nz (opcode2 .& (1 << 5)))
   then
     tmp <- RA_AllocARMRegister ;;
     dest <- RA_MapM68kRegisterForWrite ((opcode2 >> 12) .& 7) ;;
     width_reg <- RA_CopyFromM68kRegister (opcode2 .& 7) ;;
     mask_reg <- RA_AllocARMRegister ;;
     let offset := (opcode2 >> 6) .& 31 in
     emit "ldr64_offset" [R base; R tmp; I 0] ;;
     (if negb (offset =? 0) then emit "lsl64" [R tmp; R tmp; I offset] else skip) ;;
     emit "and_immed" [R width_reg; R width_reg; I 5; I 0] ;;
     emit "cbnz" [R width_reg; I 2] ;;
     emit "mov_immed_u16" [R width_reg; I 32; I 0] ;;
     emit "mov_immed_u16" [R mask_reg; I 1; I 0] ;;
     emit "lslv64" [R mask_reg; R mask_reg; R width_reg] ;;
     emit "sub64_immed" [R mask_reg; R mask_reg; I 1] ;;
     emit "rorv64" [R mask_reg; R mask_reg; R width_reg] ;;
     emit "ands64_reg" [R tmp; R tmp; R mask_reg; I LSL; I 0] ;;
     emit "orn64_reg" [R tmp; R tmp; R mask_reg; I LSL; I 0] ;;
     emit "clz64" [R dest; R tmp] ;;
     emit "add_immed" [R dest; R dest; I offset] ;;
     (if nz update_mask
      then
        cc <- RA_ModifyCC ;;
        EMIT_GetNZ00 cc update_mask
      else skip) ;;
     RA_FreeARMRegister tmp ;;
     RA_FreeARMRegister width_reg ;;
     RA_FreeARMRegister mask_reg
   else if (nz (opcode2 .& (1 << 11))) && negb (nz (opcode2 .& (1 << 5)))
   then
     off_reg <- RA_CopyFromM68kRegister ((opcode2 >> 6) .& 7) ;;
     dest <- RA_MapM68kRegisterForWrite ((opcode2 >> 12) .& 7) ;;
     off_orig <- (if (opcode2 >> 6) .& 7 =? (opcode2 >> 12) .& 7
                  then RA_CopyFromM68kRegister ((opcode2 >> 6) .& 7)
                  else RA_MapM68kRegister ((opcode2 >> 6) .& 7)) ;;
     mask_reg <- RA_AllocARMRegister ;;
     tmp <- RA_AllocARMRegister ;;
     let width := opcode2 .& 31 in
     let width := if width =? 0 then 32 else width in
     emit "add_reg" [R base; R base; R off_reg; I ASR; I 3] ;;
     emit "and_immed" [R off_reg; R off_reg; I 3; I 0] ;;
     emit "orr64_immed" [R mask_reg; I 31; I width; I width; I 1] ;;
     emit "ldr64_offset" [R base; R tmp; I 0] ;;
     emit "lslv64" [R tmp; R tmp; R off_reg] ;;
     emit "ands64_reg" [R tmp; R tmp; R mask_reg; I LSL; I 0] ;;
     emit "orn64_reg" [R tmp; R tmp; R mask_reg; I LSL; I 0] ;;
     emit "clz64" [R dest; R tmp] ;;
     emit "add_reg" [R dest; R dest; R off_orig; I LSL; I 0] ;;
     (if nz update_mask
      then
        cc <- RA_ModifyCC ;;
        EMIT_GetNZ00 cc update_mask
      else skip) ;;
     RA_FreeARMRegister tmp ;;
     RA_FreeARMRegister mask_reg ;;
     RA_FreeARMRegister off_reg ;;
     RA_FreeARMRegister off_orig
   else if (nz (opcode2 .& (1 << 11))) && (nz (opcode2 .& (1 << 5)))
   then
     off_reg <- RA_CopyFromM68kRegister ((opcode2 >> 6) .& 7) ;;
     dest <- RA_MapM68kRegisterForWrite ((opcode2 >> 12) .& 7) ;;
     off_orig <- (if (opcode2 >> 6) .& 7 =? (opcode2 >> 12) .& 7
                  then RA_CopyFromM68kRegister ((opcode2 >> 6) .& 7)
                  else RA_MapM68kRegister ((opcode2 >> 6) .& 7)) ;;
     width_reg <- RA_CopyFromM68kRegister (opcode2 .& 7) ;;
     mask_reg <- RA_AllocARMRegister ;;
     tmp <- RA_AllocARMRegister ;;
     emit "add_reg" [R base; R base; R off_reg; I ASR; I 3] ;;
     emit "and_immed" [R off_reg; R off_reg; I 3; I 0] ;;
     emit "and_immed" [R width_reg; R width_reg; I 5; I 0] ;;
     emit "cbnz" [R width_reg; I 2] ;;
     emit "mov_immed_u16" [R width_reg; I 32; I 0] ;;
     emit "mov_immed_u16" [R mask_reg; I 1; I 0] ;;
     emit "lslv64" [R mask_reg; R mask_reg; R width_reg] ;;
     emit "sub64_immed" [R mask_reg; R mask_reg; I 1] ;;
     emit "rorv64" [R mask_reg; R mask_reg; R width_reg] ;;
     emit "ldr64_offset" [R base; R tmp; I 0] ;;
     emit "lslv64" [R tmp; R tmp; R off_reg] ;;
     emit "ands64_reg" [R tmp; R tmp; R mask_reg; I LSL; I 0] ;;
     emit "orn64_reg" [R tmp; R tmp; R mask_reg; I LSL; I 0] ;;
     emit "clz64" [R dest; R tmp] ;;
     emit "add_reg" [R dest; R dest; R off_orig; I LSL; I 0] ;;
     (if nz update_mask
      then
        cc <- RA_ModifyCC ;;
        EMIT_GetNZ00 cc update_mask
      else skip) ;;
     RA_FreeARMRegister tmp ;;
     RA_FreeARMRegister mask_reg ;;
     RA_FreeARMRegister width_reg ;;
     RA_FreeARMRegister off_reg ;;
     RA_FreeARMRegister off_orig
   else skip) ;;
  RA_FreeARMRegister base ;;
  EMIT_AdvancePC (2 * (ext_words + 1)) ;;
  advance_m68k_ptr ext_words.

Definition EMIT_BFCHG_reg (opcode : Z) : M unit :=
  update_mask <- GetSRMask (-1) ;;
  let ext_words := 1 in
  opcode2 <- fetch16 0 ;;
  src <- RA_MapM68kRegister (opcode .& 7) ;;
  RA_SetDirtyM68kRegister (opcode .& 7) ;;
  (if opcode2 .& 0x0820 =? 0
   then
     let offset := (opcode2 >> 6) .& 0x1f in
     let width := opcode2 .& 0x1f in
     (if negb (offset =? 0) || negb (width =? 0)
      then
        tmp <- RA_AllocARMRegister ;;
        let width := if width =? 0 then 32 else width in
        (if nz update_mask
         then
           cc <- RA_ModifyCC ;;
           emit "ror" [R tmp; R src; I (31 .& (32 - offset))] ;;
           (if negb (width =? 32)
            then emit "ands_immed" [I 31; R tmp; I width; I width]
            else emit "cmn_reg" [I 31; R tmp; I LSL; I 0]) ;;
           EMIT_GetNZ00 cc update_mask
         else skip) ;;
        (if negb (width =? 32)
         then emit "eor_immed" [R src; R src; I width; I (31 .& (width + offset))]
         else emit "mvn_reg" [R src; R src; I LSL; I 0]) ;;
        RA_FreeARMRegister tmp
      else
        (if nz update_mask
         then
           cc <- RA_ModifyCC ;;
           emit "cmn_reg" [I 31; R src; I LSL; I 0] ;;
           EMIT_GetNZ00 cc update_mask
         else skip) ;;
        emit "mvn_reg" [R src; R src; I LSL; I 0])
   else if negb (nz (opcode2 .& (1 << 11))) && (nz (opcode2 .& (1 << 5)))
   then
     tmp <- RA_AllocARMRegister ;;
     width_reg <- RA_CopyFromM68kRegister (opcode2 .& 7) ;;
     mask_reg <- RA_AllocARMRegister ;;
     let offset := (opcode2 >> 6) .& 31 in
     emit "and_immed" [R width_reg; R width_reg; I 5; I 0] ;;
     emit "cbnz" [R width_reg; I 2] ;;
     emit "mov_immed_u16" [R width_reg; I 32; I 0] ;;
     emit "mov_immed_u16" [R mask_reg; I 1; I 0] ;;
     emit "lslv64" [R mask_reg; R mask_reg; R width_reg] ;;
     emit "sub64_immed" [R mask_reg; R mask_reg; I 1] ;;
     emit "rorv" [R mask_reg; R mask_reg; R width_reg] ;;
     (if nz update_mask
      then
        testreg <- RA_AllocARMRegister ;;
        cc <- RA_ModifyCC ;;
        (if negb (offset =? 0)
         then
           emit "ror" [R testreg; R src; I (31 .& (32 - offset))] ;;
           emit "ands_reg" [I 31; R testreg; R mask_reg; I LSL; I 0]
         else
           emit "ands_reg" [I 31; R src; R mask_reg; I LSL; I 0]) ;;
        EMIT_GetNZ00 cc update_mask ;;
        RA_FreeARMRegister testreg
      else skip) ;;
     (if negb (offset =? 0)
      then emit "eor_reg" [R src; R src; R mask_reg; I ROR; I offset]
      else emit "eor_reg" [R src; R src; R mask_reg; I LSL; I 0]) ;;
     RA_FreeARMRegister tmp ;;
     RA_FreeARMRegister width_reg ;;
     RA_FreeARMRegister mask_reg
   else if (nz (opcode2 .& (1 << 11))) && negb (nz (opcode2 .& (1 << 5)))
   then
     off_reg <- RA_CopyFromM68kRegister ((opcode2 >> 6) .& 7) ;;
     mask_reg <- RA_AllocARMRegister ;;
     tmp <- RA_AllocARMRegister ;;
     let width := opcode2 .& 31 in
     emit "and_immed" [R off_reg; R off_reg; I 5; I 0] ;;
     let width := if width =? 0 then 32 else width in
     (if negb (width =? 32) then emit "orr_immed" [R mask_reg; I 31; I width; I width] else skip) ;;
     (if nz update_mask
      then
        testreg <- RA_AllocARMRegister ;;
        cc <- RA_ModifyCC ;;
        emit "mov_immed_u16" [R testreg; I 32; I 0] ;;
        emit "sub_reg" [R testreg; R testreg; R off_reg; I LSL; I 0] ;;
        emit "rorv" [R testreg; R src; R testreg] ;;
        (if negb (width =? 32)
         then emit "ands_immed" [I 31; R testreg; I width; I width]
         else emit "cmn_reg" [I 31; R testreg; I LSL; I 0]) ;;
        EMIT_GetNZ00 cc update_mask ;;
        RA_FreeARMRegister testreg
      else skip) ;;
     (if negb (width =? 32)
      then
        emit "rorv" [R mask_reg; R mask_reg; R off_reg] ;;
        emit "eor_reg" [R src; R src; R mask_reg; I LSL; I 0]
      else
        emit "mvn_reg" [R src; R src; I LSL; I 0]) ;;
     RA_FreeARMRegister tmp ;;
     RA_FreeARMRegister mask_reg ;;
     RA_FreeARMRegister off_reg
   else if (nz (opcode2 .& (1 << 11))) && (nz (opcode2 .& (1 << 5)))
   then
     off_reg <- RA_CopyFromM68kRegister ((opcode2 >> 6) .& 7) ;;
     width_reg <- RA_CopyFromM68kRegister (opcode2 .& 7) ;;
     mask_reg <- RA_AllocARMRegister ;;
     tmp <- RA_AllocARMRegister ;;
     emit "and_immed" [R off_reg; R off_reg; I 5; I 0] ;;
     emit "and_immed" [R width_reg; R width_reg; I 5; I 0] ;;
     emit "cbnz" [R width_reg; I 2] ;;
     emit "mov_immed_u16" [R width_reg; I 32; I 0] ;;
     emit "mov_immed_u16" [R mask_reg; I 1; I 0] ;;
     emit "lslv64" [R mask_reg; R mask_reg; R width_reg] ;;
     emit "sub64_immed" [R mask_reg; R mask_reg; I 1] ;;
     emit "rorv" [R mask_reg; R mask_reg; R width_reg] ;;
     (if nz update_mask
      then
        testreg <- RA_AllocARMRegister ;;
        cc <- RA_ModifyCC ;;
        emit "mov_immed_u16" [R testreg; I 32; I 0] ;;
        emit "sub_reg" [R testreg; R testreg; R off_reg; I LSL; I 0] ;;
        emit "rorv" [R testreg; R src; R testreg] ;;
        emit "ands_reg" [I 31; R testreg; R mask_reg; I LSL; I 0] ;;
        EMIT_GetNZ00 cc update_mask ;;
        RA_FreeARMRegister testreg
      else skip) ;;
     emit "rorv" [R mask_reg; R mask_reg; R off_reg] ;;
     emit "eor_reg" [R src; R src; R mask_reg; I LSL; I 0] ;;
     RA_FreeARMRegister tmp ;;
     RA_FreeARMRegister mask_reg ;;
     RA_FreeARMRegister width_reg ;;
     RA_FreeARMRegister off_reg
   else skip) ;;
  EMIT_AdvancePC (2 * (ext_words + 1)) ;;
  advance_m68k_ptr ext_words.

Definition EMIT_BFCHG (opcode : Z) : M unit :=
  update_mask <- GetSRMask (-1) ;;
  let ext_words := 1 in
  opcode2 <- fetch16 0 ;;
  ea <- EMIT_LoadFromEffectiveAddress 0 (opcode .& 0x3f) ext_words 0 ;;
  let base := ea.1 in
  let ext_words := ea.2 in
  (if negb (nz (opcode2 .& (1 << 11))) && negb (nz (opcode2 .& (1 << 5)))
   then
     tmp <- RA_AllocARMRegister ;;
     let offset := (opcode2 >> 6) .& 31 in
     let width := opcode2 .& 31 in
     let width := if width =? 0 then 32 else width in
     emit "ldr64_offset" [R base; R tmp; I 0] ;;
     (if nz update_mask
      then
        cc <- RA_ModifyCC ;;
        testreg <- RA_AllocARMRegister ;;
        (if negb (offset =? 0)
         then
           emit "lsl64" [R testreg; R tmp; I offset] ;;
           emit "ands64_immed" [I 31; R testreg; I width; I width; I 1]
         else
           emit "ands64_immed" [I 31; R tmp; I width; I width; I 1]) ;;
        EMIT_GetNZ00 cc update_mask ;;
        RA_FreeARMRegister testreg
      else skip) ;;
     emit "eor64_immed" [R tmp; R tmp; I width; I (width + offset); I 1] ;;
     emit "str64_offset" [R base; R tmp; I 0] ;;
     RA_FreeARMRegister tmp
   else if negb (nz (opcode2 .& (1 << 11))) && (nz (opcode2 .& (1 << 5)))
   then
     tmp <- RA_AllocARMRegister ;;
     width_reg <- RA_CopyFromM68kRegister (opcode2 .& 7) ;;
     mask_reg <- RA_AllocARMRegister ;;
     let offset := (opcode2 >> 6) .& 31 in
     emit "ldr64_offset" [R base; R tmp; I 0] ;;
     emit "and_immed" [R width_reg; R width_reg; I 5; I 0] ;;
     emit "cbnz" [R width_reg; I 2] ;;
     emit "mov_immed_u16" [R width_reg; I 32; I 0] ;;
     emit "mov_immed_u16" [R mask_reg; I 1; I 0] ;;
     emit "lslv64" [R mask_reg; R mask_reg; R width_reg] ;;
     emit "sub64_immed" [R mask_reg; R mask_reg; I 1] ;;
     emit "rorv64" [R mask_reg; R mask_reg; R width_reg] ;;
     (if nz update_mask
      then
        testreg <- RA_AllocARMRegister ;;
        cc <- RA_ModifyCC ;;
        (if negb (offset =? 0)
         then
           emit "lsl64" [R testreg; R tmp; I offset] ;;
           emit "ands64_reg" [I 31; R testreg; R mask_reg; I LSL; I 0]
         else
           emit "ands64_reg" [I 31; R tmp; R mask_reg; I LSL; I 0]) ;;
        EMIT_GetNZ00 cc update_mask ;;
        RA_FreeARMRegister testreg
      else skip) ;;
     (if negb (offset =? 0)
      then emit "eor64_reg" [R tmp; R tmp; R mask_reg; I LSR; I offset]
      else emit "eor64_reg" [R tmp; R tmp; R mask_reg; I LSL; I 0]) ;;
     emit "str64_offset" [R base; R tmp; I 0] ;;
     RA_FreeARMRegister tmp ;;
     RA_FreeARMRegister width_reg ;;
     RA_FreeARMRegister mask_reg
   else if (nz (opcode2 .& (1 << 11))) && negb (nz (opcode2 .& (1 << 5)))
   then
     off_reg <- RA_CopyFromM68kRegister ((opcode2 >> 6) .& 7) ;;
     mask_reg <- RA_AllocARMRegister ;;
     tmp <- RA_AllocARMRegister ;;
     let width := opcode2 .& 31 in
     let width := if width =? 0 then 32 else width in
     emit "add_reg" [R base; R base; R off_reg; I ASR; I 3] ;;
     emit "and_immed" [R off_reg; R off_reg; I 3; I 0] ;;
     emit "orr64_immed" [R mask_reg; I 31; I width; I width; I 1] ;;
     emit "ldr64_offset" [R base; R tmp; I 0] ;;
     (if nz update_mask
      then
        testreg <- RA_AllocARMRegister ;;
        cc <- RA_ModifyCC ;;
        emit "lslv64" [R testreg; R tmp; R off_reg] ;;
        emit "ands64_reg" [I 31; R testreg; R mask_reg; I LSL; I 0] ;;
        EMIT_GetNZ00 cc update_mask ;;
        RA_FreeARMRegister testreg
      else skip) ;;
     emit "lsrv64" [R mask_reg; R mask_reg; R off_reg] ;;
     emit "eor64_reg" [R tmp; R tmp; R mask_reg; I LSL; I 0] ;;
     emit "str64_offset" [R base; R tmp; I 0] ;;
     RA_FreeARMRegister tmp ;;
     RA_FreeARMRegister mask_reg ;;
     RA_FreeARMRegister off_reg
   else if (nz (opcode2 .& (1 << 11))) && (nz (opcode2 .& (1 << 5)))
   then
     off_reg <- RA_CopyFromM68kRegister ((opcode2 >> 6) .& 7) ;;
     width_reg <- RA_CopyFromM68kRegister (opcode2 .& 7) ;;
     mask_reg <- RA_AllocARMRegister ;;
     tmp <- RA_AllocARMRegister ;;
     emit "add_reg" [R base; R base; R off_reg; I ASR; I 3] ;;
     emit "and_immed" [R off_reg; R off_reg; I 3; I 0] ;;
     emit "and_immed" [R width_reg; R width_reg; I 5; I 0] ;;
     emit "cbnz" [R width_reg; I 2] ;;
     emit "mov_immed_u16" [R width_reg; I 32; I 0] ;;
     emit "mov_immed_u16" [R mask_reg; I 1; I 0] ;;
     emit "lslv64" [R mask_reg; R mask_reg; R width_reg] ;;
     emit "sub64_immed" [R mask_reg; R mask_reg; I 1] ;;
     emit "rorv64" [R mask_reg; R mask_reg; R width_reg] ;;
     emit "ldr64_offset" [R base; R tmp; I 0] ;;
     (if nz update_mask
      then
        testreg <- RA_AllocARMRegister ;;
        cc <- RA_ModifyCC ;;
        emit "lslv64" [R testreg; R tmp; R off_reg] ;;
        emit "ands64_reg" [I 31; R testreg; R mask_reg; I LSL; I 0] ;;
        EMIT_GetNZ00 cc update_mask ;;
        RA_FreeARMRegister testreg
      else skip) ;;
     emit "lsrv64" [R mask_reg; R mask_reg; R off_reg] ;;
     emit "eor64_reg" [R tmp; R tmp; R mask_reg; I LSL; I 0] ;;
     emit "str64_offset" [R base; R tmp; I 0] ;;
     RA_FreeARMRegister tmp ;;
     RA_FreeARMRegister mask_reg ;;
     RA_FreeARMRegister width_reg ;;
     RA_FreeARMRegister off_reg
   else skip) ;;
  RA_FreeARMRegister base ;;
  EMIT_AdvancePC (2 * (ext_words + 1)) ;;
  advance_m68k_ptr ext_words.

Definition EMIT_BFSET_reg (opcode : Z) : M unit :=
  update_mask <- GetSRMask (-1) ;;
  let ext_words := 1 in
  opcode2 <- fetch16 0 ;;
  src <- RA_MapM68kRegister (opcode .& 7) ;;
  RA_SetDirtyM68kRegister (opcode .& 7) ;;
  (if opcode2 .& 0x0820 =? 0
   then
     let offset := (opcode2 >> 6) .& 0x1f in
     let width := opcode2 .& 0x1f in
     (if negb (offset =? 0) || negb (width =? 0)
      then
        tmp <- RA_AllocARMRegister ;;
        let width := if width =? 0 then 32 else width in
        (if nz update_mask
         then
           cc <- RA_ModifyCC ;;
           emit "ror" [R tmp; R src; I (31 .& (32 - offset))] ;;
           (if negb (width =? 32)
            then emit "ands_immed" [I 31; R tmp; I width; I width]
            else emit "cmn_reg" [I 31; R tmp; I LSL; I 0]) ;;
           EMIT_GetNZ00 cc update_mask
         else skip) ;;
        (if negb (width =? 32)
         then emit "orr_immed" [R src; R src; I width; I (31 .& (width + offset))]
         else emit "movn_immed_u16" [R src; I 0; I 0]) ;;
        RA_FreeARMRegister tmp
      else
        (if nz update_mask
         then
           cc <- RA_ModifyCC ;;
           emit "cmn_reg" [I 31; R src; I LSL; I 0] ;;
           EMIT_GetNZ00 cc update_mask
         else skip) ;;
        emit "movn_immed_u16" [R src; I 0; I 0])
   else if negb (nz (opcode2 .& (1 << 11))) && (nz (opcode2 .& (1 << 5)))
   then
     tmp <- RA_AllocARMRegister ;;
     width_reg <- RA_CopyFromM68kRegister (opcode2 .& 7) ;;
     mask_reg <- RA_AllocARMRegister ;;
     let offset := (opcode2 >> 6) .& 31 in
     emit "and_immed" [R width_reg; R width_reg; I 5; I 0] ;;
     emit "cbnz" [R width_reg; I 2] ;;
     emit "mov_immed_u16" [R width_reg; I 32; I 0] ;;
     emit "mov_immed_u16" [R mask_reg; I 1; I 0] ;;
     emit "lslv64" [R mask_reg; R mask_reg; R width_reg] ;;
     emit "sub64_immed" [R mask_reg; R mask_reg; I 1] ;;
     emit "rorv" [R mask_reg; R mask_reg; R width_reg] ;;
     (if nz update_mask
      then
        testreg <- RA_AllocARMRegister ;;
        cc <- RA_ModifyCC ;;
        (if negb (offset =? 0)
         then
           emit "ror" [R testreg; R src; I (31 .& (32 - offset))] ;;
           emit "ands_reg" [I 31; R testreg; R mask_reg; I LSL; I 0]
         else
           emit "ands_reg" [I 31; R src; R mask_reg; I LSL; I 0]) ;;
        EMIT_GetNZ00 cc update_mask ;;
        RA_FreeARMRegister testreg
      else skip) ;;
     (if negb (offset =? 0)
      then emit "orr_reg" [R src; R src; R mask_reg; I ROR; I offset]
      else emit "orr_reg" [R src; R src; R mask_reg; I LSL; I 0]) ;;
     RA_FreeARMRegister tmp ;;
     RA_FreeARMRegister width_reg ;;
     RA_FreeARMRegister mask_reg
   else if (nz (opcode2 .& (1 << 11))) && negb (nz (opcode2 .& (1 << 5)))
   then
     off_reg <- RA_CopyFromM68kRegister ((opcode2 >> 6) .& 7) ;;
     mask_reg <- RA_AllocARMRegister ;;
     tmp <- RA_AllocARMRegister ;;
     let width := opcode2 .& 31 in
     emit "and_immed" [R off_reg; R off_reg; I 5; I 0] ;;
     let width := if width =? 0 then 32 else width in
     (if negb (width =? 32) then emit "orr_immed" [R mask_reg; I 31; I width; I width] else skip) ;;
     (if nz update_mask
      then
        testreg <- RA_AllocARMRegister ;;
        cc <- RA_ModifyCC ;;
        emit "mov_immed_u16" [R testreg; I 32; I 0] ;;
        emit "sub_reg" [R testreg; R testreg; R off_reg; I LSL; I 0] ;;
        emit "rorv" [R testreg; R src; R testreg] ;;
        (if negb (width =? 32)
         then emit "ands_immed" [I 31; R testreg; I width; I width]
         else emit "cmn_reg" [I 31; R testreg; I LSL; I 0]) ;;
        EMIT_GetNZ00 cc update_mask ;;
        RA_FreeARMRegister testreg
      else skip) ;;
     (if negb (width =? 32)
      then
        emit "rorv" [R mask_reg; R mask_reg; R off_reg] ;;
        emit "orr_reg" [R src; R src; R mask_reg; I LSL; I 0]
      else
        emit "movn_immed_u16" [R src; I 0; I 0]) ;;
     RA_FreeARMRegister tmp ;;
     RA_FreeARMRegister mask_reg ;;
     RA_FreeARMRegister off_reg
   else if (nz (opcode2 .& (1 << 11))) && (nz (opcode2 .& (1 << 5)))
   then
     off_reg <- RA_CopyFromM68kRegister ((opcode2 >> 6) .& 7) ;;
     width_reg <- RA_CopyFromM68kRegister (opcode2 .& 7) ;;
     mask_reg <- RA_AllocARMRegister ;;
     tmp <- RA_AllocARMRegister ;;
     emit "and_immed" [R off_reg; R off_reg; I 5; I 0] ;;
     emit "and_immed" [R width_reg; R width_reg; I 5; I 0] ;;
     emit "cbnz" [R width_reg; I 2] ;;
     emit "mov_immed_u16" [R width_reg; I 32; I 0] ;;
     emit "mov_immed_u16" [R mask_reg; I 1; I 0] ;;
     emit "lslv64" [R mask_reg; R mask_reg; R width_reg] ;;
     emit "sub64_immed" [R mask_reg; R mask_reg; I 1] ;;
     emit "rorv" [R mask_reg; R mask_reg; R width_reg] ;;
     (if nz update_mask
      then
        testreg <- RA_AllocARMRegister ;;
        cc <- RA_ModifyCC ;;
        emit "mov_immed_u16" [R testreg; I 32; I 0] ;;
        emit "sub_reg" [R testreg; R testreg; R off_reg; I LSL; I 0] ;;
        emit "rorv" [R testreg; R src; R testreg] ;;
        emit "ands_reg" [I 31; R testreg; R mask_reg; I LSL; I 0] ;;
        EMIT_GetNZ00 cc update_mask ;;
        RA_FreeARMRegister testreg
      else skip) ;;
     emit "rorv" [R mask_reg; R mask_reg; R off_reg] ;;
     emit "orr_reg" [R src; R src; R mask_reg; I LSL; I 0] ;;
     RA_FreeARMRegister tmp ;;
     RA_FreeARMRegister mask_reg ;;
     RA_FreeARMRegister width_reg ;;
     RA_FreeARMRegister off_reg
   else skip) ;;
  EMIT_AdvancePC (2 * (ext_words + 1)) ;;
  advance_m68k_ptr ext_words.

Definition EMIT_BFSET (opcode : Z) : M unit :=
  update_mask <- GetSRMask (-1) ;;
  let ext_words := 1 in
  opcode2 <- fetch16 0 ;;
  ea <- EMIT_LoadFromEffectiveAddress 0 (opcode .& 0x3f) ext_words 0 ;;
  let base := ea.1 in
  let ext_words := ea.2 in
  (if negb (nz (opcode2 .& (1 << 11))) && negb (nz (opcode2 .& (1 << 5)))
   then
     tmp <- RA_AllocARMRegister ;;
     let offset := (opcode2 >> 6) .& 31 in
     let width := opcode2 .& 31 in
     let width := if width =? 0 then 32 else width in
     emit "ldr64_offset" [R base; R tmp; I 0] ;;
     (if nz update_mask
      then
        cc <- RA_ModifyCC ;;
        testreg <- RA_AllocARMRegister ;;
        (if negb (offset =? 0)
         then
           emit "lsl64" [R testreg; R tmp; I offset] ;;
           emit "ands64_immed" [I 31; R testreg; I width; I width; I 1]
         else
           emit "ands64_immed" [I 31; R tmp; I width; I width; I 1]) ;;
        EMIT_GetNZ00 cc update_mask ;;
        RA_FreeARMRegister testreg
      else skip) ;;
     emit "orr64_immed" [R tmp; R tmp; I width; I (width + offset); I 1] ;;
     emit "str64_offset" [R base; R tmp; I 0] ;;
     RA_FreeARMRegister tmp
   else if negb (nz (opcode2 .& (1 << 11))) && (nz (opcode2 .& (1 << 5)))
   then
     tmp <- RA_AllocARMRegister ;;
     width_reg <- RA_CopyFromM68kRegister (opcode2 .& 7) ;;
     mask_reg <- RA_AllocARMRegister ;;
     let offset := (opcode2 >> 6) .& 31 in
     emit "ldr64_offset" [R base; R tmp; I 0] ;;
     emit "and_immed" [R width_reg; R width_reg; I 5; I 0] ;;
     emit "cbnz" [R width_reg; I 2] ;;
     emit "mov_immed_u16" [R width_reg; I 32; I 0] ;;
     emit "mov_immed_u16" [R mask_reg; I 1; I 0] ;;
     emit "lslv64" [R mask_reg; R mask_reg; R width_reg] ;;
     emit "sub64_immed" [R mask_reg; R mask_reg; I 1] ;;
     emit "rorv64" [R mask_reg; R mask_reg; R width_reg] ;;
     (if nz update_mask
      then
        testreg <- RA_AllocARMRegister ;;
        cc <- RA_ModifyCC ;;
        (if negb (offset =? 0)
         then
           emit "lsl64" [R testreg; R tmp; I offset] ;;
           emit "ands64_reg" [I 31; R testreg; R mask_reg; I LSL; I 0]
         else
           emit "ands64_reg" [I 31; R tmp; R mask_reg; I LSL; I 0]) ;;
        EMIT_GetNZ00 cc update_mask ;;
        RA_FreeARMRegister testreg
      else skip) ;;
     (if negb (offset =? 0)
      then emit "orr64_reg" [R tmp; R tmp; R mask_reg; I LSR; I offset]
      else emit "orr64_reg" [R tmp; R tmp; R mask_reg; I LSL; I 0]) ;;
     emit "str64_offset" [R base; R tmp; I 0] ;;
     RA_FreeARMRegister tmp ;;
     RA_FreeARMRegister width_reg ;;
     RA_FreeARMRegister mask_reg
   else if (nz (opcode2 .& (1 << 11))) && negb (nz (opcode2 .& (1 << 5)))
   then
     off_reg <- RA_CopyFromM68kRegister ((opcode2 >> 6) .& 7) ;;
     mask_reg <- RA_AllocARMRegister ;;
     tmp <- RA_AllocARMRegister ;;
     let width := opcode2 .& 31 in
     let width := if width =? 0 then 32 else width in
     emit "add_reg" [R base; R base; R off_reg; I ASR; I 3] ;;
     emit "and_immed" [R off_reg; R off_reg; I 3; I 0] ;;
     emit "orr64_immed" [R mask_reg; I 31; I width; I width; I 1] ;;
     emit "ldr64_offset" [R base; R tmp; I 0] ;;
     (if nz update_mask
      then
        testreg <- RA_AllocARMRegister ;;
        cc <- RA_ModifyCC ;;
        emit "lslv64" [R testreg; R tmp; R off_reg] ;;
        emit "ands64_reg" [I 31; R testreg; R mask_reg; I LSL; I 0] ;;
        EMIT_GetNZ00 cc update_mask ;;
        RA_FreeARMRegister testreg
      else skip) ;;
     emit "lsrv64" [R mask_reg; R mask_reg; R off_reg] ;;
     emit "orr64_reg" [R tmp; R tmp; R mask_reg; I LSL; I 0] ;;
     emit "str64_offset" [R base; R tmp; I 0] ;;
     RA_FreeARMRegister tmp ;;
     RA_FreeARMRegister mask_reg ;;
     RA_FreeARMRegister off_reg
   else if (nz (opcode2 .& (1 << 11))) && (nz (opcode2 .& (1 << 5)))
   then
     off_reg <- RA_CopyFromM68kRegister ((opcode2 >> 6) .& 7) ;;
     width_reg <- RA_CopyFromM68kRegister (opcode2 .& 7) ;;
     mask_reg <- RA_AllocARMRegister ;;
     tmp <- RA_AllocARMRegister ;;
     emit "add_reg" [R base; R base; R off_reg; I ASR; I 3] ;;
     emit "and_immed" [R off_reg; R off_reg; I 3; I 0] ;;
     emit "and_immed" [R width_reg; R width_reg; I 5; I 0] ;;
     emit "cbnz" [R width_reg; I 2] ;;
     emit "mov_immed_u16" [R width_reg; I 32; I 0] ;;
     emit "mov_immed_u16" [R mask_reg; I 1; I 0] ;;
     emit "lslv64" [R mask_reg; R mask_reg; R width_reg] ;;
     emit "sub64_immed" [R mask_reg; R mask_reg; I 1] ;;
     emit "rorv64" [R mask_reg; R mask_reg; R width_reg] ;;
     emit "ldr64_offset" [R base; R tmp; I 0] ;;
     (if nz update_mask
      then
        testreg <- RA_AllocARMRegister ;;
        cc <- RA_ModifyCC ;;
        emit "lslv64" [R testreg; R tmp; R off_reg] ;;
        emit "ands64_reg" [I 31; R testreg; R mask_reg; I LSL; I 0] ;;
        EMIT_GetNZ00 cc update_mask ;;
        RA_FreeARMRegister testreg
      else skip) ;;
     emit "lsrv64" [R mask_reg; R mask_reg; R off_reg] ;;
     emit "orr64_reg" [R tmp; R tmp; R mask_reg; I LSL; I 0] ;;
     emit "str64_offset" [R base; R tmp; I 0] ;;
     RA_FreeARMRegister tmp ;;
     RA_FreeARMRegister mask_reg ;;
     RA_FreeARMRegister width_reg ;;
     RA_FreeARMRegister off_reg
   else skip) ;;
  RA_FreeARMRegister base ;;
  EMIT_AdvancePC (2 * (ext_words + 1)) ;;
  advance_m68k_ptr ext_words.

Definition EMIT_BFCLR_reg (opcode : Z) : M unit :=
  update_mask <- GetSRMask (-1) ;;
  let ext_words := 1 in
  opcode2 <- fetch16 0 ;;
  src <- RA_MapM68kRegister (opcode .& 7) ;;
  RA_SetDirtyM68kRegister (opcode .& 7) ;;
  (if opcode2 .& 0x0820 =? 0
   then
     let offset := (opcode2 >> 6) .& 0x1f in
     let width := opcode2 .& 0x1f in
     (if negb (offset =? 0) || negb (width =? 0)
      then
        tmp <- RA_AllocARMRegister ;;
        let width := if width =? 0 then 32 else width in
        (if nz update_mask
         then
           cc <- RA_ModifyCC ;;
           emit "ror" [R tmp; R src; I (31 .& (32 - offset))] ;;
           (if negb (width =? 32)
            then emit "ands_immed" [I 31; R tmp; I width; I width]
            else emit "cmn_reg" [I 31; R tmp; I LSL; I 0]) ;;
           EMIT_GetNZ00 cc update_mask
         else skip) ;;
        (if negb (width =? 32)
         then emit "bic_immed" [R src; R src; I width; I (31 .& (width + offset))]
         else emit "mov_immed_u16" [R src; I 0; I 0]) ;;
        RA_FreeARMRegister tmp
      else
        (if nz update_mask
         then
           cc <- RA_ModifyCC ;;
           emit "cmn_reg" [I 31; R src; I LSL; I 0] ;;
           EMIT_GetNZ00 cc update_mask
         else skip) ;;
        emit "mov_immed_u16" [R src; I 0; I 0])
   else if negb (nz (opcode2 .& (1 << 11))) && (nz (opcode2 .& (1 << 5)))
   then
     tmp <- RA_AllocARMRegister ;;
     width_reg <- RA_CopyFromM68kRegister (opcode2 .& 7) ;;
     mask_reg <- RA_AllocARMRegister ;;
     let offset := (opcode2 >> 6) .& 31 in
     emit "and_immed" [R width_reg; R width_reg; I 5; I 0] ;;
     emit "cbnz" [R width_reg; I 2] ;;
     emit "mov_immed_u16" [R width_reg; I 32; I 0] ;;
     emit "mov_immed_u16" [R mask_reg; I 1; I 0] ;;
     emit "lslv64" [R mask_reg; R mask_reg; R width_reg] ;;
     emit "sub64_immed" [R mask_reg; R mask_reg; I 1] ;;
     emit "rorv" [R mask_reg; R mask_reg; R width_reg] ;;
     (if nz update_mask
      then
        testreg <- RA_AllocARMRegister ;;
        cc <- RA_ModifyCC ;;
        (if negb (offset =? 0)
         then
           emit "ror" [R testreg; R src; I (31 .& (32 - offset))] ;;
           emit "ands_reg" [I 31; R testreg; R mask_reg; I LSL; I 0]
         else
           emit "ands_reg" [I 31; R src; R mask_reg; I LSL; I 0]) ;;
        EMIT_GetNZ00 cc update_mask ;;
        RA_FreeARMRegister testreg
      else skip) ;;
     (if negb (offset =? 0)
      then emit "bic_reg" [R src; R src; R mask_reg; I ROR; I offset]
      else emit "bic_reg" [R src; R src; R mask_reg; I LSL; I 0]) ;;
     RA_FreeARMRegister tmp ;;
     RA_FreeARMRegister width_reg ;;
     RA_FreeARMRegister mask_reg
   else if (nz (opcode2 .& (1 << 11))) && negb (nz (opcode2 .& (1 << 5)))
   then
     off_reg <- RA_CopyFromM68kRegister ((opcode2 >> 6) .& 7) ;;
     mask_reg <- RA_AllocARMRegister ;;
     tmp <- RA_AllocARMRegister ;;
     let width := opcode2 .& 31 in
     emit "and_immed" [R off_reg; R off_reg; I 5; I 0] ;;
     let width := if width =? 0 then 32 else width in
     (if negb (width =? 32) then emit "orr_immed" [R mask_reg; I 31; I width; I width] else skip) ;;
     (if nz update_mask
      then
        testreg <- RA_AllocARMRegister ;;
        cc <- RA_ModifyCC ;;
        emit "mov_immed_u16" [R testreg; I 32; I 0] ;;
        emit "sub_reg" [R testreg; R testreg; R off_reg; I LSL; I 0] ;;
        emit "rorv" [R testreg; R src; R testreg] ;;
        (if negb (width =? 32)
         then emit "ands_immed" [I 31; R testreg; I width; I width]
         else emit "cmn_reg" [I 31; R testreg; I LSL; I 0]) ;;
        EMIT_GetNZ00 cc update_mask ;;
        RA_FreeARMRegister testreg
      else skip) ;;
     (if negb (width =? 32)
      then
        emit "rorv" [R mask_reg; R mask_reg; R off_reg] ;;
        emit "bic_reg" [R src; R src; R mask_reg; I LSL; I 0]
      else
        emit "mov_immed_u16" [R src; I 0; I 0]) ;;
     RA_FreeARMRegister tmp ;;
     RA_FreeARMRegister mask_reg ;;
     RA_FreeARMRegister off_reg
   else if (nz (opcode2 .& (1 << 11))) && (nz (opcode2 .& (1 << 5)))
   then
     off_reg <- RA_CopyFromM68kRegister ((opcode2 >> 6) .& 7) ;;
     width_reg <- RA_CopyFromM68kRegister (opcode2 .& 7) ;;
     mask_reg <- RA_AllocARMRegister ;;
     tmp <- RA_AllocARMRegister ;;
     emit "and_immed" [R off_reg; R off_reg; I 5; I 0] ;;
     emit "and_immed" [R width_reg; R width_reg; I 5; I 0] ;;
     emit "cbnz" [R width_reg; I 2] ;;
     emit "mov_immed_u16" [R width_reg; I 32; I 0] ;;
     emit "mov_immed_u16" [R mask_reg; I 1; I 0] ;;
     emit "lslv64" [R mask_reg; R mask_reg; R width_reg] ;;
     emit "sub64_immed" [R mask_reg; R mask_reg; I 1] ;;
     emit "rorv" [R mask_reg; R mask_reg; R width_reg] ;;
     (if nz update_mask
      then
        testreg <- RA_AllocARMRegister ;;
        cc <- RA_ModifyCC ;;
        emit "mov_immed_u16" [R testreg; I 32; I 0] ;;
        emit "sub_reg" [R testreg; R testreg; R off_reg; I LSL; I 0] ;;
        emit "rorv" [R testreg; R src; R testreg] ;;
        emit "ands_reg" [I 31; R testreg; R mask_reg; I LSL; I 0] ;;
        EMIT_GetNZ00 cc update_mask ;;
        RA_FreeARMRegister testreg
      else skip) ;;
     emit "rorv" [R mask_reg; R mask_reg; R off_reg] ;;
     emit "bic_reg" [R src; R src; R mask_reg; I LSL; I 0] ;;
     RA_FreeARMRegister tmp ;;
     RA_FreeARMRegister mask_reg ;;
     RA_FreeARMRegister width_reg ;;
     RA_FreeARMRegister off_reg
   else skip) ;;
  EMIT_AdvancePC (2 * (ext_words + 1)) ;;
  advance_m68k_ptr ext_words.

Definition EMIT_BFCLR (opcode : Z) : M unit :=
  update_mask <- GetSRMask (-1) ;;
  let ext_words := 1 in
  opcode2 <- fetch16 0 ;;
  ea <- EMIT_LoadFromEffectiveAddress 0 (opcode .& 0x3f) ext_words 0 ;;
  let base := ea.1 in
  let ext_words := ea.2 in
  (if negb (nz (opcode2 .& (1 << 11))) && negb (nz (opcode2 .& (1 << 5)))
   then
     tmp <- RA_AllocARMRegister ;;
     let offset := (opcode2 >> 6) .& 31 in
     let width := opcode2 .& 31 in
     let width := if width =? 0 then 32 else width in
     emit "ldr64_offset" [R base; R tmp; I 0] ;;
     (if nz update_mask
      then
        cc <- RA_ModifyCC ;;
        testreg <- RA_AllocARMRegister ;;
        (if negb (offset =? 0)
         then
           emit "lsl64" [R testreg; R tmp; I offset] ;;
           emit "ands64_immed" [I 31; R testreg; I width; I width; I 1]
         else
           emit "ands64_immed" [I 31; R tmp; I width; I width; I 1]) ;;
        EMIT_GetNZ00 cc update_mask ;;
        RA_FreeARMRegister testreg
      else skip) ;;
     emit "bic64_immed" [R tmp; R tmp; I width; I (width + offset); I 1] ;;
     emit "str64_offset" [R base; R tmp; I 0] ;;
     RA_FreeARMRegister tmp
   else if negb (nz (opcode2 .& (1 << 11))) && (nz (opcode2 .& (1 << 5)))
   then
     tmp <- RA_AllocARMRegister ;;
     width_reg <- RA_CopyFromM68kRegister (opcode2 .& 7) ;;
     mask_reg <- RA_AllocARMRegister ;;
     let offset := (opcode2 >> 6) .& 31 in
     emit "ldr64_offset" [R base; R tmp; I 0] ;;
     emit "and_immed" [R width_reg; R width_reg; I 5; I 0] ;;
     emit "cbnz" [R width_reg; I 2] ;;
     emit "mov_immed_u16" [R width_reg; I 32; I 0] ;;
     emit "mov_immed_u16" [R mask_reg; I 1; I 0] ;;
     emit "lslv64" [R mask_reg; R mask_reg; R width_reg] ;;
     emit "sub64_immed" [R mask_reg; R mask_reg; I 1] ;;
     emit "rorv64" [R mask_reg; R mask_reg; R width_reg] ;;
     (if nz update_mask
      then
        testreg <- RA_AllocARMRegister ;;
        cc <- RA_ModifyCC ;;
        (if negb (offset =? 0)
         then
           emit "lsl64" [R testreg; R tmp; I offset] ;;
           emit "ands64_reg" [I 31; R testreg; R mask_reg; I LSL; I 0]
         else
           emit "ands64_reg" [I 31; R tmp; R mask_reg; I LSL; I 0]) ;;
        EMIT_GetNZ00 cc update_mask ;;
        RA_FreeARMRegister testreg
      else skip) ;;
     (if negb (offset =? 0)
      then emit "bic64_reg" [R tmp; R tmp; R mask_reg; I LSR; I offset]
      else emit "bic64_reg" [R tmp; R tmp; R mask_reg; I LSL; I 0]) ;;
     emit "str64_offset" [R base; R tmp; I 0] ;;
     RA_FreeARMRegister tmp ;;
     RA_FreeARMRegister width_reg ;;
     RA_FreeARMRegister mask_reg
   else if (nz (opcode2 .& (1 << 11))) && negb (nz (opcode2 .& (1 << 5)))
   then
     off_reg <- RA_CopyFromM68kRegister ((opcode2 >> 6) .& 7) ;;
     mask_reg <- RA_AllocARMRegister ;;
     tmp <- RA_AllocARMRegister ;;
     let width := opcode2 .& 31 in
     let width := if width =? 0 then 32 else width in
     emit "add_reg" [R base; R base; R off_reg; I ASR; I 3] ;;
     emit "and_immed" [R off_reg; R off_reg; I 3; I 0] ;;
     emit "orr64_immed" [R mask_reg; I 31; I width; I width; I 1] ;;
     emit "ldr64_offset" [R base; R tmp; I 0] ;;
     (if nz update_mask
      then
        testreg <- RA_AllocARMRegister ;;
        cc <- RA_ModifyCC ;;
        emit "lslv64" [R testreg; R tmp; R off_reg] ;;
        emit "ands64_reg" [I 31; R testreg; R mask_reg; I LSL; I 0] ;;
        EMIT_GetNZ00 cc update_mask ;;
        RA_FreeARMRegister testreg
      else skip) ;;
     emit "lsrv64" [R mask_reg; R mask_reg; R off_reg] ;;
     emit "bic64_reg" [R tmp; R tmp; R mask_reg; I LSL; I 0] ;;
     emit "str64_offset" [R base; R tmp; I 0] ;;
     RA_FreeARMRegister tmp ;;
     RA_FreeARMRegister mask_reg ;;
     RA_FreeARMRegister off_reg
   else if (nz (opcode2 .& (1 << 11))) && (nz (opcode2 .& (1 << 5)))
   then
     off_reg <- RA_CopyFromM68kRegister ((opcode2 >> 6) .& 7) ;;
     width_reg <- RA_CopyFromM68kRegister (opcode2 .& 7) ;;
     mask_reg <- RA_AllocARMRegister ;;
     tmp <- RA_AllocARMRegister ;;
     emit "add_reg" [R base; R base; R off_reg; I ASR; I 3] ;;
     emit "and_immed" [R off_reg; R off_reg; I 3; I 0] ;;
     emit "and_immed" [R width_reg; R width_reg; I 5; I 0] ;;
     emit "cbnz" [R width_reg; I 2] ;;
     emit "mov_immed_u16" [R width_reg; I 32; I 0] ;;
     emit "mov_immed_u16" [R mask_reg; I 1; I 0] ;;
     emit "lslv64" [R mask_reg; R mask_reg; R width_reg] ;;
     emit "sub64_immed" [R mask_reg; R mask_reg; I 1] ;;
     emit "rorv64" [R mask_reg; R mask_reg; R width_reg] ;;
     emit "ldr64_offset" [R base; R tmp; I 0] ;;
     (if nz update_mask
      then
        testreg <- RA_AllocARMRegister ;;
        cc <- RA_ModifyCC ;;
        emit "lslv64" [R testreg; R tmp; R off_reg] ;;
        emit "ands64_reg" [I 31; R testreg; R mask_reg; I LSL; I 0] ;;
        EMIT_GetNZ00 cc update_mask ;;
        RA_FreeARMRegister testreg
      else skip) ;;
     emit "lsrv64" [R mask_reg; R mask_reg; R off_reg] ;;
     emit "bic64_reg" [R tmp; R tmp; R mask_reg; I LSL; I 0] ;;
     emit "str64_offset" [R base; R tmp; I 0] ;;
     RA_FreeARMRegister tmp ;;
     RA_FreeARMRegister mask_reg ;;
     RA_FreeARMRegister width_reg ;;
     RA_FreeARMRegister off_reg
   else skip) ;;
  RA_FreeARMRegister base ;;
  EMIT_AdvancePC (2 * (ext_words + 1)) ;;
  advance_m68k_ptr ext_words.

Definition EMIT_BFINS_reg (opcode : Z) : M unit :=
  update_mask <- GetSRMask (-1) ;;
  let ext_words := 1 in
  opcode2 <- fetch16 0 ;;
  dest <- RA_MapM68kRegister (opcode .& 7) ;;
  src <- RA_MapM68kRegister ((opcode2 >> 12) .& 7) ;;
  RA_SetDirtyM68kRegister (opcode .& 7) ;;
  (if opcode2 .& 0x0820 =? 0
   then
     let offset := (opcode2 >> 6) .& 0x1f in
     let width := opcode2 .& 0x1f in
     (if negb (offset =? 0) || negb (width =? 0)
      then
        tmp <- RA_AllocARMRegister ;;
        masked_src <- RA_AllocARMRegister ;;
        let width := if width =? 0 then 32 else width in
        (if negb (width =? 32)
         then emit "ands_immed" [R masked_src; R src; I width; I 0]
         else emit "mov_reg" [R masked_src; R src]) ;;
        (if negb ((offset + width) .& 31 =? 0)
         then emit "ror" [R masked_src; R masked_src; I (31 .& (offset + width))]
         else skip) ;;
        (if nz update_mask
         then
           cc <- RA_ModifyCC ;;
           testreg <- RA_AllocARMRegister ;;
           (if negb (offset =? 0)
            then
              emit "ror" [R testreg; R masked_src; I (31 .& (32 - offset))] ;;
              emit "cmn_reg" [I 31; R testreg; I LSL; I 0]
            else
              emit "cmn_reg" [I 31; R masked_src; I LSL; I 0]) ;;
           EMIT_GetNZ00 cc update_mask ;;
           RA_FreeARMRegister testreg
         else skip) ;;
        (if negb (width =? 32)
         then
           emit "bic_immed" [R dest; R dest; I width; I (31 .& (width + offset))] ;;
           emit "orr_reg" [R dest; R dest; R masked_src; I LSL; I 0]
         else
           emit "mov_reg" [R dest; R masked_src]) ;;
        RA_FreeARMRegister tmp ;;
        RA_FreeARMRegister masked_src
      else
        (if nz update_mask
         then
           cc <- RA_ModifyCC ;;
           emit "cmn_reg" [I 31; R src; I LSL; I 0] ;;
           EMIT_GetNZ00 cc update_mask
         else skip) ;;
        emit "mov_reg" [R dest; R src])
   else if negb (nz (opcode2 .& (1 << 11))) && (nz (opcode2 .& (1 << 5)))
   then
     tmp <- RA_AllocARMRegister ;;
     masked_src <- RA_AllocARMRegister ;;
     width_reg <- RA_CopyFromM68kRegister (opcode2 .& 7) ;;
     mask_reg <- RA_AllocARMRegister ;;
     let offset := (opcode2 >> 6) .& 31 in
     emit "and_immed" [R width_reg; R width_reg; I 5; I 0] ;;
     emit "cbnz" [R width_reg; I 2] ;;
     emit "mov_immed_u16" [R width_reg; I 32; I 0] ;;
     emit "mov_immed_u16" [R mask_reg; I 1; I 0] ;;
     emit "lslv64" [R mask_reg; R mask_reg; R width_reg] ;;
     emit "sub64_immed" [R mask_reg; R mask_reg; I 1] ;;
     emit "ands_reg" [R masked_src; R src; R mask_reg; I LSL; I 0] ;;
     emit "rorv" [R mask_reg; R mask_reg; R width_reg] ;;
     emit "rorv" [R masked_src; R masked_src; R width_reg] ;;
     (if nz update_mask
      then
        cc <- RA_ModifyCC ;;
        emit "cmn_reg" [I 31; R masked_src; I LSL; I 0] ;;
        EMIT_GetNZ00 cc update_mask
      else skip) ;;
     (if negb (offset =? 0)
      then
        emit "bic_reg" [R dest; R dest; R mask_reg; I ROR; I offset] ;;
        emit "orr_reg" [R dest; R dest; R masked_src; I ROR; I offset]
      else
        emit "bic_reg" [R dest; R dest; R mask_reg; I LSL; I 0] ;;
        emit "orr_reg" [R dest; R dest; R masked_src; I LSL; I 0]) ;;
     RA_FreeARMRegister tmp ;;
     RA_FreeARMRegister width_reg ;;
     RA_FreeARMRegister mask_reg ;;
     RA_FreeARMRegister masked_src
   else if (nz (opcode2 .& (1 << 11))) && negb (nz (opcode2 .& (1 << 5)))
   then
     off_reg <- RA_CopyFromM68kRegister ((opcode2 >> 6) .& 7) ;;
     mask_reg <- RA_AllocARMRegister ;;
     tmp <- RA_AllocARMRegister ;;
     let width := opcode2 .& 31 in
     masked_src <- RA_AllocARMRegister ;;
     emit "and_immed" [R off_reg; R off_reg; I 5; I 0] ;;
     let width := if width =? 0 then 32 else width in
     (if negb (width =? 32)
      then
        emit "ands_immed" [R masked_src; R src; I width; I 0] ;;
        emit "ror" [R masked_src; R masked_src; I width]
      else
        emit "mov_reg" [R masked_src; R src]) ;;
     (if negb (width =? 32) then emit "orr_immed" [R mask_reg; I 31; I width; I width] else skip) ;;
     (if nz update_mask
      then
        cc <- RA_ModifyCC ;;
        emit "cmn_reg" [I 31; R masked_src; I LSL; I 0] ;;
        EMIT_GetNZ00 cc update_mask
      else skip) ;;
     (if negb (width =? 32)
      then
        emit "rorv" [R mask_reg; R mask_reg; R off_reg] ;;
        emit "rorv" [R masked_src; R masked_src; R off_reg] ;;
        emit "bic_reg" [R dest; R dest; R mask_reg; I LSL; I 0] ;;
        emit "orr_reg" [R dest; R dest; R masked_src; I LSL; I 0]
      else
        emit "rorv" [R dest; R masked_src; R off_reg]) ;;
     RA_FreeARMRegister tmp ;;
     RA_FreeARMRegister mask_reg ;;
     RA_FreeARMRegister off_reg ;;
     RA_FreeARMRegister masked_src
   else if (nz (opcode2 .& (1 << 11))) && (nz (opcode2 .& (1 << 5)))
   then
     off_reg <- RA_CopyFromM68kRegister ((opcode2 >> 6) .& 7) ;;
     width_reg <- RA_CopyFromM68kRegister (opcode2 .& 7) ;;
     mask_reg <- RA_AllocARMRegister ;;
     masked_src <- RA_AllocARMRegister ;;
     tmp <- RA_AllocARMRegister ;;
     emit "and_immed" [R off_reg; R off_reg; I 5; I 0] ;;
     emit "and_immed" [R width_reg; R width_reg; I 5; I 0] ;;
     emit "cbnz" [R width_reg; I 2] ;;
     emit "mov_immed_u16" [R width_reg; I 32; I 0] ;;
     emit "mov_immed_u16" [R mask_reg; I 1; I 0] ;;
     emit "lslv64" [R mask_reg; R mask_reg; R width_reg] ;;
     emit "sub64_immed" [R mask_reg; R mask_reg; I 1] ;;
     emit "ands_reg" [R masked_src; R src; R mask_reg; I LSL; I 0] ;;
     emit "rorv" [R mask_reg; R mask_reg; R width_reg] ;;
     emit "rorv" [R masked_src; R masked_src; R width_reg] ;;
     (if nz update_mask
      then
        cc <- RA_ModifyCC ;;
        emit "cmn_reg" [I 31; R masked_src; I LSL; I 0] ;;
        EMIT_GetNZ00 cc update_mask
      else skip) ;;
     emit "rorv" [R mask_reg; R mask_reg; R off_reg] ;;
     emit "rorv" [R masked_src; R masked_src; R off_reg] ;;
     emit "bic_reg" [R dest; R dest; R mask_reg; I LSL; I 0] ;;
     emit "orr_reg" [R dest; R dest; R masked_src; I LSL; I 0] ;;
     RA_FreeARMRegister tmp ;;
     RA_FreeARMRegister mask_reg ;;
     RA_FreeARMRegister width_reg ;;
     RA_FreeARMRegister off_reg ;;
     RA_FreeARMRegister masked_src
   else skip) ;;
  EMIT_AdvancePC (2 * (ext_words + 1)) ;;
  advance_m68k_ptr ext_words.

Definition EMIT_BFINS (opcode : Z) : M unit :=
  update_mask <- GetSRMask (-1) ;;
  let ext_words := 1 in
  opcode2 <- fetch16 0 ;;
  src <- RA_MapM68kRegister ((opcode2 >> 12) .& 7) ;;
  ea <- EMIT_LoadFromEffectiveAddress 0 (opcode .& 0x3f) ext_words 0 ;;
  let base := ea.1 in
  let ext_words := ea.2 in
  (if negb (nz (opcode2 .& (1 << 11))) && negb (nz (opcode2 .& (1 << 5)))
   then
     tmp <- RA_AllocARMRegister ;;
     let offset := (opcode2 >> 6) .& 31 in
     let width := opcode2 .& 31 in
     let width := if width =? 0 then 32 else width in
     emit "ldr64_offset" [R base; R tmp; I 0] ;;
     (if nz update_mask
      then
        cc <- RA_ModifyCC ;;
        emit "cmn64_reg" [I 31; R src; I LSL; I (64 - width)] ;;
        EMIT_GetNZ00 cc update_mask
      else skip) ;;
     emit "bfi64" [R tmp; R src; I (64 - (offset + width)); I width] ;;
     emit "str64_offset" [R base; R tmp; I 0] ;;
     RA_FreeARMRegister tmp
   else if negb (nz (opcode2 .& (1 << 11))) && (nz (opcode2 .& (1 << 5)))
   then
     tmp <- RA_AllocARMRegister ;;
     width_reg <- RA_CopyFromM68kRegister (opcode2 .& 7) ;;
     mask_reg <- RA_AllocARMRegister ;;
     masked_src <- RA_AllocARMRegister ;;
     let offset := (opcode2 >> 6) .& 31 in
     emit "ldr64_offset" [R base; R tmp; I 0] ;;
     emit "and_immed" [R width_reg; R width_reg; I 5; I 0] ;;
     emit "cbnz" [R width_reg; I 2] ;;
     emit "mov_immed_u16" [R width_reg; I 32; I 0] ;;
     emit "mov_immed_u16" [R mask_reg; I 1; I 0] ;;
     emit "lslv64" [R mask_reg; R mask_reg; R width_reg] ;;
     emit "sub64_immed" [R mask_reg; R mask_reg; I 1] ;;
     emit "ands64_reg" [R masked_src; R src; R mask_reg; I LSL; I 0] ;;
     emit "rorv64" [R mask_reg; R mask_reg; R width_reg] ;;
     emit "rorv64" [R masked_src; R masked_src; R width_reg] ;;
     (if nz update_mask
      then
        cc <- RA_ModifyCC ;;
        emit "cmn64_reg" [I 31; R masked_src; I LSL; I 0] ;;
        EMIT_GetNZ00 cc update_mask
      else skip) ;;
     (if negb (offset =? 0)
      then emit "bic64_reg" [R tmp; R tmp; R mask_reg; I LSR; I offset]
      else emit "bic64_reg" [R tmp; R tmp; R mask_reg; I LSL; I 0]) ;;
     (if negb (offset =? 0)
      then emit "orr64_reg" [R tmp; R tmp; R masked_src; I LSR; I offset]
      else emit "orr64_reg" [R tmp; R tmp; R masked_src; I LSL; I 0]) ;;
     emit "str64_offset" [R base; R tmp; I 0] ;;
     RA_FreeARMRegister tmp ;;
     RA_FreeARMRegister width_reg ;;
     RA_FreeARMRegister mask_reg ;;
     RA_FreeARMRegister masked_src
   else if (nz (opcode2 .& (1 << 11))) && negb (nz (opcode2 .& (1 << 5)))
   then
     off_reg <- RA_CopyFromM68kRegister ((opcode2 >> 6) .& 7) ;;
     mask_reg <- RA_AllocARMRegister ;;
     tmp <- RA_AllocARMRegister ;;
     let width := opcode2 .& 31 in
     masked_src <- RA_AllocARMRegister ;;
     let width := if width =? 0 then 32 else width in
     emit "ands64_immed" [R masked_src; R src; I width; I 0; I 1] ;;
     emit "ror64" [R masked_src; R masked_src; I width] ;;
     (if nz update_mask
      then
        cc <- RA_ModifyCC ;;
        emit "cmn64_reg" [I 31; R masked_src; I LSL; I 0] ;;
        EMIT_GetNZ00 cc update_mask
      else skip) ;;
     emit "add_reg" [R base; R base; R off_reg; I ASR; I 3] ;;
     emit "and_immed" [R off_reg; R off_reg; I 3; I 0] ;;
     emit "orr64_immed" [R mask_reg; I 31; I width; I width; I 1] ;;
     emit "ldr64_offset" [R base; R tmp; I 0] ;;
     emit "lsrv64" [R mask_reg; R mask_reg; R off_reg] ;;
     emit "lsrv64" [R masked_src; R masked_src; R off_reg] ;;
     emit "bic64_reg" [R tmp; R tmp; R mask_reg; I LSL; I 0] ;;
     emit "orr64_reg" [R tmp; R tmp; R masked_src; I LSL; I 0] ;;
     emit "str64_offset" [R base; R tmp; I 0] ;;
     RA_FreeARMRegister tmp ;;
     RA_FreeARMRegister mask_reg ;;
     RA_FreeARMRegister off_reg ;;
     RA_FreeARMRegister masked_src
   else if (nz (opcode2 .& (1 << 11))) && (nz (opcode2 .& (1 << 5)))
   then
     off_reg <- RA_CopyFromM68kRegister ((opcode2 >> 6) .& 7) ;;
     width_reg <- RA_CopyFromM68kRegister (opcode2 .& 7) ;;
     mask_reg <- RA_AllocARMRegister ;;
     masked_src <- RA_AllocARMRegister ;;
     tmp <- RA_AllocARMRegister ;;
     emit "add_reg" [R base; R base; R off_reg; I ASR; I 3] ;;
     emit "and_immed" [R off_reg; R off_reg; I 3; I 0] ;;
     emit "and_immed" [R width_reg; R width_reg; I 5; I 0] ;;
     emit "cbnz" [R width_reg; I 2] ;;
     emit "mov_immed_u16" [R width_reg; I 32; I 0] ;;
     emit "mov_immed_u16" [R mask_reg; I 1; I 0] ;;
     emit "lslv64" [R mask_reg; R mask_reg; R width_reg] ;;
     emit "sub64_immed" [R mask_reg; R mask_reg; I 1] ;;
     emit "ands64_reg" [R masked_src; R src; R mask_reg; I LSL; I 0] ;;
     emit "rorv64" [R mask_reg; R mask_reg; R width_reg] ;;
     emit "rorv64" [R masked_src; R masked_src; R width_reg] ;;
     emit "ldr64_offset" [R base; R tmp; I 0] ;;
     (if nz update_mask
      then
        cc <- RA_ModifyCC ;;
        emit "cmn64_reg" [I 31; R masked_src; I LSL; I 0] ;;
        EMIT_GetNZ00 cc update_mask
      else skip) ;;
     emit "lsrv64" [R mask_reg; R mask_reg; R off_reg] ;;
     emit "lsrv64" [R masked_src; R masked_src; R off_reg] ;;
     emit "bic64_reg" [R tmp; R tmp; R mask_reg; I LSL; I 0] ;;
     emit "orr64_reg" [R tmp; R tmp; R masked_src; I LSL; I 0] ;;
     emit "str64_offset" [R base; R tmp; I 0] ;;
     RA_FreeARMRegister tmp ;;
     RA_FreeARMRegister mask_reg ;;
     RA_FreeARMRegister width_reg ;;
     RA_FreeARMRegister off_reg ;;
     RA_FreeARMRegister masked_src
   else skip) ;;
  RA_FreeARMRegister base ;;
  EMIT_AdvancePC (2 * (ext_words + 1)) ;;
  advance_m68k_ptr ext_words.

(** ** Dispatch table *)

(** The functions the table refers to.  [handler_fn] gives their bodies. *)
Inductive handler : Type :=
| fn_EMIT_ASR
| fn_EMIT_LSR
| fn_EMIT_ROXR
| fn_EMIT_ROR
| fn_EMIT_ASR_mem
| fn_EMIT_LSR_mem
| fn_EMIT_ROXR_mem
| fn_EMIT_ROR_mem
| fn_EMIT_ASL
| fn_EMIT_LSL
| fn_EMIT_ROXL
| fn_EMIT_ROL
| fn_EMIT_ASL_mem
| fn_EMIT_LSL_mem
| fn_EMIT_ROXL_mem
| fn_EMIT_ROL_mem
| fn_EMIT_BFTST
| fn_EMIT_BFCHG_reg
| fn_EMIT_BFCHG
| fn_EMIT_BFCLR_reg
| fn_EMIT_BFCLR
| fn_EMIT_BFSET_reg
| fn_EMIT_BFSET
| fn_EMIT_BFEXTU
| fn_EMIT_BFEXTS
| fn_EMIT_BFFFO_reg
| fn_EMIT_BFFFO
| fn_EMIT_BFINS_reg
| fn_EMIT_BFINS.

Definition handler_fn (h : handler) : Z -> M unit :=
  match h with
  | fn_EMIT_ASR => EMIT_ASR
  | fn_EMIT_LSR => EMIT_LSR
  | fn_EMIT_ROXR => EMIT_ROXR
  | fn_EMIT_ROR => EMIT_ROR
  | fn_EMIT_ASR_mem => EMIT_ASR_mem
  | fn_EMIT_LSR_mem => EMIT_LSR_mem
  | fn_EMIT_ROXR_mem => EMIT_ROXR_mem
  | fn_EMIT_ROR_mem => EMIT_ROR_mem
  | fn_EMIT_ASL => EMIT_ASL
  | fn_EMIT_LSL => EMIT_LSL
  | fn_EMIT_ROXL => EMIT_ROXL
  | fn_EMIT_ROL => EMIT_ROL
  | fn_EMIT_ASL_mem => EMIT_ASL_mem
  | fn_EMIT_LSL_mem => EMIT_LSL_mem
  | fn_EMIT_ROXL_mem => EMIT_ROXL_mem
  | fn_EMIT_ROL_mem => EMIT_ROL_mem
  | fn_EMIT_BFTST => EMIT_BFTST
  | fn_EMIT_BFCHG_reg => EMIT_BFCHG_reg
  | fn_EMIT_BFCHG => EMIT_BFCHG
  | fn_EMIT_BFCLR_reg => EMIT_BFCLR_reg
  | fn_EMIT_BFCLR => EMIT_BFCLR
  | fn_EMIT_BFSET_reg => EMIT_BFSET_reg
  | fn_EMIT_BFSET => EMIT_BFSET
  | fn_EMIT_BFEXTU => EMIT_BFEXTU
  | fn_EMIT_BFEXTS => EMIT_BFEXTS
  | fn_EMIT_BFFFO_reg => EMIT_BFFFO_reg
  | fn_EMIT_BFFFO => EMIT_BFFFO
  | fn_EMIT_BFINS_reg => EMIT_BFINS_reg
  | fn_EMIT_BFINS => EMIT_BFINS
  end.

(** Modelled from the spec: [struct OpcodeDef] is declared in [M68k.h],
    which is missing from the sources.  The initialisers give, in this
    order, the handler, a second pointer that is [NULL] in every entry
    (left out here), the flags the instruction needs, the flags it sets,
    the base length in words, the needs-EA flag and the operand size. *)
Record OpcodeDef : Type := mkOpcodeDef {
  od_Emit : option handler;
  od_SRNeeds : Z;
  od_SRSets : Z;
  od_BaseLength : Z;
  od_HasEA : Z;
  od_OpSize : Z
}.

(** An entry without initialiser is zero. *)
Definition od_zero : OpcodeDef := mkOpcodeDef None 0 0 0 0 0.

(** The numerals of the table are octal: [oct 720] is [0720]. *)
Fixpoint oct_digits (fuel : nat) (d : Z) : Z :=
  match fuel with
  | O => 0
  | S fuel => d mod 10 + 8 * oct_digits fuel (d / 10)
  end.
Definition oct (d : Z) : Z := oct_digits 8 d.

(** One range initialiser, [[lo ... hi] = { { f }, NULL, needs, sets,
    length, ea, size }]. *)
Record range_init : Type := rng {
  rng_lo : Z;
  rng_hi : Z;
  rng_def : OpcodeDef
}.

Definition od (f : handler) (needs sets len ea size : Z) : OpcodeDef :=
  mkOpcodeDef (Some f) needs sets len ea size.

Definition InsnTable_init : list range_init := [
  rng (oct 00000) (oct 00007) (od fn_EMIT_ASR SR_X SR_CCR 1 0 1);
  rng (oct 00010) (oct 00017) (od fn_EMIT_LSR SR_X SR_CCR 1 0 1);
  rng (oct 00020) (oct 00027) (od fn_EMIT_ROXR SR_X SR_CCR 1 0 1);
  rng (oct 00030) (oct 00037) (od fn_EMIT_ROR 0 SR_NZVC 1 0 1);
  rng (oct 00040) (oct 00047) (od fn_EMIT_ASR SR_X SR_CCR 1 0 1);
  rng (oct 00050) (oct 00057) (od fn_EMIT_LSR SR_X SR_CCR 1 0 1);
  rng (oct 00060) (oct 00067) (od fn_EMIT_ROXR SR_X SR_CCR 1 0 1);
  rng (oct 00070) (oct 00077) (od fn_EMIT_ROR 0 SR_NZVC 1 0 1);
  rng (oct 00100) (oct 00107) (od fn_EMIT_ASR SR_X SR_CCR 1 0 2);
  rng (oct 00110) (oct 00117) (od fn_EMIT_LSR SR_X SR_CCR 1 0 2);
  rng (oct 00120) (oct 00127) (od fn_EMIT_ROXR SR_X SR_CCR 1 0 2);
  rng (oct 00130) (oct 00137) (od fn_EMIT_ROR 0 SR_NZVC 1 0 2);
  rng (oct 00140) (oct 00147) (od fn_EMIT_ASR SR_X SR_CCR 1 0 2);
  rng (oct 00150) (oct 00157) (od fn_EMIT_LSR SR_X SR_CCR 1 0 2);
  rng (oct 00160) (oct 00167) (od fn_EMIT_ROXR SR_X SR_CCR 1 0 2);
  rng (oct 00170) (oct 00177) (od fn_EMIT_ROR 0 SR_NZVC 1 0 2);
  rng (oct 00200) (oct 00207) (od fn_EMIT_ASR SR_X SR_CCR 1 0 4);
  rng (oct 00210) (oct 00217) (od fn_EMIT_LSR SR_X SR_CCR 1 0 4);
  rng (oct 00220) (oct 00227) (od fn_EMIT_ROXR SR_X SR_CCR 1 0 4);
  rng (oct 00230) (oct 00237) (od fn_EMIT_ROR 0 SR_NZVC 1 0 4);
  rng (oct 00240) (oct 00247) (od fn_EMIT_ASR SR_X SR_CCR 1 0 4);
  rng (oct 00250) (oct 00257) (od fn_EMIT_LSR SR_X SR_CCR 1 0 4);
  rng (oct 00260) (oct 00267) (od fn_EMIT_ROXR SR_X SR_CCR 1 0 4);
  rng (oct 00270) (oct 00277) (od fn_EMIT_ROR 0 SR_NZVC 1 0 4);
  rng (oct 01000) (oct 01007) (od fn_EMIT_ASR SR_X SR_CCR 1 0 1);
  rng (oct 01010) (oct 01017) (od fn_EMIT_LSR SR_X SR_CCR 1 0 1);
  rng (oct 01020) (oct 01027) (od fn_EMIT_ROXR SR_X SR_CCR 1 0 1);
  rng (oct 01030) (oct 01037) (od fn_EMIT_ROR 0 SR_NZVC 1 0 1);
  rng (oct 01040) (oct 01047) (od fn_EMIT_ASR SR_X SR_CCR 1 0 1);
  rng (oct 01050) (oct 01057) (od fn_EMIT_LSR SR_X SR_CCR 1 0 1);
  rng (oct 01060) (oct 01067) (od fn_EMIT_ROXR SR_X SR_CCR 1 0 1);
  rng (oct 01070) (oct 01077) (od fn_EMIT_ROR 0 SR_NZVC 1 0 1);
  rng (oct 01100) (oct 01107) (od fn_EMIT_ASR SR_X SR_CCR 1 0 2);
  rng (oct 01110) (oct 01117) (od fn_EMIT_LSR SR_X SR_CCR 1 0 2);
  rng (oct 01120) (oct 01127) (od fn_EMIT_ROXR SR_X SR_CCR 1 0 2);
  rng (oct 01130) (oct 01137) (od fn_EMIT_ROR 0 SR_NZVC 1 0 2);
  rng (oct 01140) (oct 01147) (od fn_EMIT_ASR SR_X SR_CCR 1 0 2);
  rng (oct 01150) (oct 01157) (od fn_EMIT_LSR SR_X SR_CCR 1 0 2);
  rng (oct 01160) (oct 01167) (od fn_EMIT_ROXR SR_X SR_CCR 1 0 2);
  rng (oct 01170) (oct 01177) (od fn_EMIT_ROR 0 SR_NZVC 1 0 2);
  rng (oct 01200) (oct 01207) (od fn_EMIT_ASR SR_X SR_CCR 1 0 4);
  rng (oct 01210) (oct 01217) (od fn_EMIT_LSR SR_X SR_CCR 1 0 4);
  rng (oct 01220) (oct 01227) (od fn_EMIT_ROXR SR_X SR_CCR 1 0 4);
  rng (oct 01230) (oct 01237) (od fn_EMIT_ROR 0 SR_NZVC 1 0 4);
  rng (oct 01240) (oct 01247) (od fn_EMIT_ASR SR_X SR_CCR 1 0 4);
  rng (oct 01250) (oct 01257) (od fn_EMIT_LSR SR_X SR_CCR 1 0 4);
  rng (oct 01260) (oct 01267) (od fn_EMIT_ROXR SR_X SR_CCR 1 0 4);
  rng (oct 01270) (oct 01277) (od fn_EMIT_ROR 0 SR_NZVC 1 0 4);
  rng (oct 02000) (oct 02007) (od fn_EMIT_ASR SR_X SR_CCR 1 0 1);
  rng (oct 02010) (oct 02017) (od fn_EMIT_LSR SR_X SR_CCR 1 0 1);
  rng (oct 02020) (oct 02027) (od fn_EMIT_ROXR SR_X SR_CCR 1 0 1);
  rng (oct 02030) (oct 02037) (od fn_EMIT_ROR 0 SR_NZVC 1 0 1);
  rng (oct 02040) (oct 02047) (od fn_EMIT_ASR SR_X SR_CCR 1 0 1);
  rng (oct 02050) (oct 02057) (od fn_EMIT_LSR SR_X SR_CCR 1 0 1);
  rng (oct 02060) (oct 02067) (od fn_EMIT_ROXR SR_X SR_CCR 1 0 1);
  rng (oct 02070) (oct 02077) (od fn_EMIT_ROR 0 SR_NZVC 1 0 1);
  rng (oct 02100) (oct 02107) (od fn_EMIT_ASR SR_X SR_CCR 1 0 2);
  rng (oct 02110) (oct 02117) (od fn_EMIT_LSR SR_X SR_CCR 1 0 2);
  rng (oct 02120) (oct 02127) (od fn_EMIT_ROXR SR_X SR_CCR 1 0 2);
  rng (oct 02130) (oct 02137) (od fn_EMIT_ROR 0 SR_NZVC 1 0 2);
  rng (oct 02140) (oct 02147) (od fn_EMIT_ASR SR_X SR_CCR 1 0 2);
  rng (oct 02150) (oct 02157) (od fn_EMIT_LSR SR_X SR_CCR 1 0 2);
  rng (oct 02160) (oct 02167) (od fn_EMIT_ROXR SR_X SR_CCR 1 0 2);
  rng (oct 02170) (oct 02177) (od fn_EMIT_ROR 0 SR_NZVC 1 0 2);
  rng (oct 02200) (oct 02207) (od fn_EMIT_ASR SR_X SR_CCR 1 0 4);
  rng (oct 02210) (oct 02217) (od fn_EMIT_LSR SR_X SR_CCR 1 0 4);
  rng (oct 02220) (oct 02227) (od fn_EMIT_ROXR SR_X SR_CCR 1 0 4);
  rng (oct 02230) (oct 02237) (od fn_EMIT_ROR 0 SR_NZVC 1 0 4);
  rng (oct 02240) (oct 02247) (od fn_EMIT_ASR SR_X SR_CCR 1 0 4);
  rng (oct 02250) (oct 02257) (od fn_EMIT_LSR SR_X SR_CCR 1 0 4);
  rng (oct 02260) (oct 02267) (od fn_EMIT_ROXR SR_X SR_CCR 1 0 4);
  rng (oct 02270) (oct 02277) (od fn_EMIT_ROR 0 SR_NZVC 1 0 4);
  rng (oct 03000) (oct 03007) (od fn_EMIT_ASR SR_X SR_CCR 1 0 1);
  rng (oct 03010) (oct 03017) (od fn_EMIT_LSR SR_X SR_CCR 1 0 1);
  rng (oct 03020) (oct 03027) (od fn_EMIT_ROXR SR_X SR_CCR 1 0 1);
  rng (oct 03030) (oct 03037) (od fn_EMIT_ROR 0 SR_NZVC 1 0 1);
  rng (oct 03040) (oct 03047) (od fn_EMIT_ASR SR_X SR_CCR 1 0 1);
  rng (oct 03050) (oct 03057) (od fn_EMIT_LSR SR_X SR_CCR 1 0 1);
  rng (oct 03060) (oct 03067) (od fn_EMIT_ROXR SR_X SR_CCR 1 0 1);
  rng (oct 03070) (oct 03077) (od fn_EMIT_ROR 0 SR_NZVC 1 0 1);
  rng (oct 03100) (oct 03107) (od fn_EMIT_ASR SR_X SR_CCR 1 0 2);
  rng (oct 03110) (oct 03117) (od fn_EMIT_LSR SR_X SR_CCR 1 0 2);
  rng (oct 03120) (oct 03127) (od fn_EMIT_ROXR SR_X SR_CCR 1 0 2);
  rng (oct 03130) (oct 03137) (od fn_EMIT_ROR 0 SR_NZVC 1 0 2);
  rng (oct 03140) (oct 03147) (od fn_EMIT_ASR SR_X SR_CCR 1 0 2);
  rng (oct 03150) (oct 03157) (od fn_EMIT_LSR SR_X SR_CCR 1 0 2);
  rng (oct 03160) (oct 03167) (od fn_EMIT_ROXR SR_X SR_CCR 1 0 2);
  rng (oct 03170) (oct 03177) (od fn_EMIT_ROR 0 SR_NZVC 1 0 2);
  rng (oct 03200) (oct 03207) (od fn_EMIT_ASR SR_X SR_CCR 1 0 4);
  rng (oct 03210) (oct 03217) (od fn_EMIT_LSR SR_X SR_CCR 1 0 4);
  rng (oct 03220) (oct 03227) (od fn_EMIT_ROXR SR_X SR_CCR 1 0 4);
  rng (oct 03230) (oct 03237) (od fn_EMIT_ROR 0 SR_NZVC 1 0 4);
  rng (oct 03240) (oct 03247) (od fn_EMIT_ASR SR_X SR_CCR 1 0 4);
  rng (oct 03250) (oct 03257) (od fn_EMIT_LSR SR_X SR_CCR 1 0 4);
  rng (oct 03260) (oct 03267) (od fn_EMIT_ROXR SR_X SR_CCR 1 0 4);
  rng (oct 03270) (oct 03277) (od fn_EMIT_ROR 0 SR_NZVC 1 0 4);
  rng (oct 04000) (oct 04007) (od fn_EMIT_ASR SR_X SR_CCR 1 0 1);
  rng (oct 04010) (oct 04017) (od fn_EMIT_LSR SR_X SR_CCR 1 0 1);
  rng (oct 04020) (oct 04027) (od fn_EMIT_ROXR SR_X SR_CCR 1 0 1);
  rng (oct 04030) (oct 04037) (od fn_EMIT_ROR 0 SR_NZVC 1 0 1);
  rng (oct 04040) (oct 04047) (od fn_EMIT_ASR SR_X SR_CCR 1 0 1);
  rng (oct 04050) (oct 04057) (od fn_EMIT_LSR SR_X SR_CCR 1 0 1);
  rng (oct 04060) (oct 04067) (od fn_EMIT_ROXR SR_X SR_CCR 1 0 1);
  rng (oct 04070) (oct 04077) (od fn_EMIT_ROR 0 SR_NZVC 1 0 1);
  rng (oct 04100) (oct 04107) (od fn_EMIT_ASR SR_X SR_CCR 1 0 2);
  rng (oct 04110) (oct 04117) (od fn_EMIT_LSR SR_X SR_CCR 1 0 2);
  rng (oct 04120) (oct 04127) (od fn_EMIT_ROXR SR_X SR_CCR 1 0 2);
  rng (oct 04130) (oct 04137) (od fn_EMIT_ROR 0 SR_NZVC 1 0 2);
  rng (oct 04140) (oct 04147) (od fn_EMIT_ASR SR_X SR_CCR 1 0 2);
  rng (oct 04150) (oct 04157) (od fn_EMIT_LSR SR_X SR_CCR 1 0 2);
  rng (oct 04160) (oct 04167) (od fn_EMIT_ROXR SR_X SR_CCR 1 0 2);
  rng (oct 04170) (oct 04177) (od fn_EMIT_ROR 0 SR_NZVC 1 0 2);
  rng (oct 04200) (oct 04207) (od fn_EMIT_ASR SR_X SR_CCR 1 0 4);
  rng (oct 04210) (oct 04217) (od fn_EMIT_LSR SR_X SR_CCR 1 0 4);
  rng (oct 04220) (oct 04227) (od fn_EMIT_ROXR SR_X SR_CCR 1 0 4);
  rng (oct 04230) (oct 04237) (od fn_EMIT_ROR 0 SR_NZVC 1 0 4);
  rng (oct 04240) (oct 04247) (od fn_EMIT_ASR SR_X SR_CCR 1 0 4);
  rng (oct 04250) (oct 04257) (od fn_EMIT_LSR SR_X SR_CCR 1 0 4);
  rng (oct 04260) (oct 04267) (od fn_EMIT_ROXR SR_X SR_CCR 1 0 4);
  rng (oct 04270) (oct 04277) (od fn_EMIT_ROR 0 SR_NZVC 1 0 4);
  rng (oct 05000) (oct 05007) (od fn_EMIT_ASR SR_X SR_CCR 1 0 1);
  rng (oct 05010) (oct 05017) (od fn_EMIT_LSR SR_X SR_CCR 1 0 1);
  rng (oct 05020) (oct 05027) (od fn_EMIT_ROXR SR_X SR_CCR 1 0 1);
  rng (oct 05030) (oct 05037) (od fn_EMIT_ROR 0 SR_NZVC 1 0 1);
  rng (oct 05040) (oct 05047) (od fn_EMIT_ASR SR_X SR_CCR 1 0 1);
  rng (oct 05050) (oct 05057) (od fn_EMIT_LSR SR_X SR_CCR 1 0 1);
  rng (oct 05060) (oct 05067) (od fn_EMIT_ROXR SR_X SR_CCR 1 0 1);
  rng (oct 05070) (oct 05077) (od fn_EMIT_ROR 0 SR_NZVC 1 0 1);
  rng (oct 05100) (oct 05107) (od fn_EMIT_ASR SR_X SR_CCR 1 0 2);
  rng (oct 05110) (oct 05117) (od fn_EMIT_LSR SR_X SR_CCR 1 0 2);
  rng (oct 05120) (oct 05127) (od fn_EMIT_ROXR SR_X SR_CCR 1 0 2);
  rng (oct 05130) (oct 05137) (od fn_EMIT_ROR 0 SR_NZVC 1 0 2);
  rng (oct 05140) (oct 05147) (od fn_EMIT_ASR SR_X SR_CCR 1 0 2);
  rng (oct 05150) (oct 05157) (od fn_EMIT_LSR SR_X SR_CCR 1 0 2);
  rng (oct 05160) (oct 05167) (od fn_EMIT_ROXR SR_X SR_CCR 1 0 2);
  rng (oct 05170) (oct 05177) (od fn_EMIT_ROR 0 SR_NZVC 1 0 2);
  rng (oct 05200) (oct 05207) (od fn_EMIT_ASR SR_X SR_CCR 1 0 4);
  rng (oct 05210) (oct 05217) (od fn_EMIT_LSR SR_X SR_CCR 1 0 4);
  rng (oct 05220) (oct 05227) (od fn_EMIT_ROXR SR_X SR_CCR 1 0 4);
  rng (oct 05230) (oct 05237) (od fn_EMIT_ROR 0 SR_NZVC 1 0 4);
  rng (oct 05240) (oct 05247) (od fn_EMIT_ASR SR_X SR_CCR 1 0 4);
  rng (oct 05250) (oct 05257) (od fn_EMIT_LSR SR_X SR_CCR 1 0 4);
  rng (oct 05260) (oct 05267) (od fn_EMIT_ROXR SR_X SR_CCR 1 0 4);
  rng (oct 05270) (oct 05277) (od fn_EMIT_ROR 0 SR_NZVC 1 0 4);
  rng (oct 06000) (oct 06007) (od fn_EMIT_ASR SR_X SR_CCR 1 0 1);
  rng (oct 06010) (oct 06017) (od fn_EMIT_LSR SR_X SR_CCR 1 0 1);
  rng (oct 06020) (oct 06027) (od fn_EMIT_ROXR SR_X SR_CCR 1 0 1);
  rng (oct 06030) (oct 06037) (od fn_EMIT_ROR 0 SR_NZVC 1 0 1);
  rng (oct 06040) (oct 06047) (od fn_EMIT_ASR SR_X SR_CCR 1 0 1);
  rng (oct 06050) (oct 06057) (od fn_EMIT_LSR SR_X SR_CCR 1 0 1);
  rng (oct 06060) (oct 06067) (od fn_EMIT_ROXR SR_X SR_CCR 1 0 1);
  rng (oct 06070) (oct 06077) (od fn_EMIT_ROR 0 SR_NZVC 1 0 1);
  rng (oct 06100) (oct 06107) (od fn_EMIT_ASR SR_X SR_CCR 1 0 2);
  rng (oct 06110) (oct 06117) (od fn_EMIT_LSR SR_X SR_CCR 1 0 2);
  rng (oct 06120) (oct 06127) (od fn_EMIT_ROXR SR_X SR_CCR 1 0 2);
  rng (oct 06130) (oct 06137) (od fn_EMIT_ROR 0 SR_NZVC 1 0 2);
  rng (oct 06140) (oct 06147) (od fn_EMIT_ASR SR_X SR_CCR 1 0 2);
  rng (oct 06150) (oct 06157) (od fn_EMIT_LSR SR_X SR_CCR 1 0 2);
  rng (oct 06160) (oct 06167) (od fn_EMIT_ROXR SR_X SR_CCR 1 0 2);
  rng (oct 06170) (oct 06177) (od fn_EMIT_ROR 0 SR_NZVC 1 0 2);
  rng (oct 06200) (oct 06207) (od fn_EMIT_ASR SR_X SR_CCR 1 0 4);
  rng (oct 06210) (oct 06217) (od fn_EMIT_LSR SR_X SR_CCR 1 0 4);
  rng (oct 06220) (oct 06227) (od fn_EMIT_ROXR SR_X SR_CCR 1 0 4);
  rng (oct 06230) (oct 06237) (od fn_EMIT_ROR 0 SR_NZVC 1 0 4);
  rng (oct 06240) (oct 06247) (od fn_EMIT_ASR SR_X SR_CCR 1 0 4);
  rng (oct 06250) (oct 06257) (od fn_EMIT_LSR SR_X SR_CCR 1 0 4);
  rng (oct 06260) (oct 06267) (od fn_EMIT_ROXR SR_X SR_CCR 1 0 4);
  rng (oct 06270) (oct 06277) (od fn_EMIT_ROR 0 SR_NZVC 1 0 4);
  rng (oct 07000) (oct 07007) (od fn_EMIT_ASR SR_X SR_CCR 1 0 1);
  rng (oct 07010) (oct 07017) (od fn_EMIT_LSR SR_X SR_CCR 1 0 1);
  rng (oct 07020) (oct 07027) (od fn_EMIT_ROXR SR_X SR_CCR 1 0 1);
  rng (oct 07030) (oct 07037) (od fn_EMIT_ROR 0 SR_NZVC 1 0 1);
  rng (oct 07040) (oct 07047) (od fn_EMIT_ASR SR_X SR_CCR 1 0 1);
  rng (oct 07050) (oct 07057) (od fn_EMIT_LSR SR_X SR_CCR 1 0 1);
  rng (oct 07060) (oct 07067) (od fn_EMIT_ROXR SR_X SR_CCR 1 0 1);
  rng (oct 07070) (oct 07077) (od fn_EMIT_ROR 0 SR_NZVC 1 0 1);
  rng (oct 07100) (oct 07107) (od fn_EMIT_ASR SR_X SR_CCR 1 0 2);
  rng (oct 07110) (oct 07117) (od fn_EMIT_LSR SR_X SR_CCR 1 0 2);
  rng (oct 07120) (oct 07127) (od fn_EMIT_ROXR SR_X SR_CCR 1 0 2);
  rng (oct 07130) (oct 07137) (od fn_EMIT_ROR 0 SR_NZVC 1 0 2);
  rng (oct 07140) (oct 07147) (od fn_EMIT_ASR SR_X SR_CCR 1 0 2);
  rng (oct 07150) (oct 07157) (od fn_EMIT_LSR SR_X SR_CCR 1 0 2);
  rng (oct 07160) (oct 07167) (od fn_EMIT_ROXR SR_X SR_CCR 1 0 2);
  rng (oct 07170) (oct 07177) (od fn_EMIT_ROR 0 SR_NZVC 1 0 2);
  rng (oct 07200) (oct 07207) (od fn_EMIT_ASR SR_X SR_CCR 1 0 4);
  rng (oct 07210) (oct 07217) (od fn_EMIT_LSR SR_X SR_CCR 1 0 4);
  rng (oct 07220) (oct 07227) (od fn_EMIT_ROXR SR_X SR_CCR 1 0 4);
  rng (oct 07230) (oct 07237) (od fn_EMIT_ROR 0 SR_NZVC 1 0 4);
  rng (oct 07240) (oct 07247) (od fn_EMIT_ASR SR_X SR_CCR 1 0 4);
  rng (oct 07250) (oct 07257) (od fn_EMIT_LSR SR_X SR_CCR 1 0 4);
  rng (oct 07260) (oct 07267) (od fn_EMIT_ROXR SR_X SR_CCR 1 0 4);
  rng (oct 07270) (oct 07277) (od fn_EMIT_ROR 0 SR_NZVC 1 0 4);
  rng (oct 00320) (oct 00371) (od fn_EMIT_ASR_mem SR_X SR_CCR 1 1 2);
  rng (oct 01320) (oct 01371) (od fn_EMIT_LSR_mem SR_X SR_CCR 1 1 2);
  rng (oct 02320) (oct 02371) (od fn_EMIT_ROXR_mem SR_X SR_CCR 1 1 2);
  rng (oct 03320) (oct 03371) (od fn_EMIT_ROR_mem 0 SR_NZVC 1 1 2);
  rng (oct 00400) (oct 00407) (od fn_EMIT_ASL SR_X SR_CCR 1 0 1);
  rng (oct 00410) (oct 00417) (od fn_EMIT_LSL SR_X SR_CCR 1 0 1);
  rng (oct 00420) (oct 00427) (od fn_EMIT_ROXL SR_X SR_CCR 1 0 1);
  rng (oct 00430) (oct 00437) (od fn_EMIT_ROL 0 SR_NZVC 1 0 1);
  rng (oct 00440) (oct 00447) (od fn_EMIT_ASL SR_X SR_CCR 1 0 1);
  rng (oct 00450) (oct 00457) (od fn_EMIT_LSL SR_X SR_CCR 1 0 1);
  rng (oct 00460) (oct 00467) (od fn_EMIT_ROXL SR_X SR_CCR 1 0 1);
  rng (oct 00470) (oct 00477) (od fn_EMIT_ROL 0 SR_NZVC 1 0 1);
  rng (oct 00500) (oct 00507) (od fn_EMIT_ASL SR_X SR_CCR 1 0 2);
  rng (oct 00510) (oct 00517) (od fn_EMIT_LSL SR_X SR_CCR 1 0 2);
  rng (oct 00520) (oct 00527) (od fn_EMIT_ROXL SR_X SR_CCR 1 0 2);
  rng (oct 00530) (oct 00537) (od fn_EMIT_ROL 0 SR_NZVC 1 0 2);
  rng (oct 00540) (oct 00547) (od fn_EMIT_ASL SR_X SR_CCR 1 0 2);
  rng (oct 00550) (oct 00557) (od fn_EMIT_LSL SR_X SR_CCR 1 0 2);
  rng (oct 00560) (oct 00567) (od fn_EMIT_ROXL SR_X SR_CCR 1 0 2);
  rng (oct 00570) (oct 00577) (od fn_EMIT_ROL 0 SR_NZVC 1 0 2);
  rng (oct 00600) (oct 00607) (od fn_EMIT_ASL SR_X SR_CCR 1 0 4);
  rng (oct 00610) (oct 00617) (od fn_EMIT_LSL SR_X SR_CCR 1 0 4);
  rng (oct 00620) (oct 00627) (od fn_EMIT_ROXL SR_X SR_CCR 1 0 4);
  rng (oct 00630) (oct 00637) (od fn_EMIT_ROL 0 SR_NZVC 1 0 4);
  rng (oct 00640) (oct 00647) (od fn_EMIT_ASL SR_X SR_CCR 1 0 4);
  rng (oct 00650) (oct 00657) (od fn_EMIT_LSL SR_X SR_CCR 1 0 4);
  rng (oct 00660) (oct 00667) (od fn_EMIT_ROXL SR_X SR_CCR 1 0 4);
  rng (oct 00670) (oct 00677) (od fn_EMIT_ROL 0 SR_NZVC 1 0 4);
  rng (oct 01400) (oct 01407) (od fn_EMIT_ASL SR_X SR_CCR 1 0 1);
  rng (oct 01410) (oct 01417) (od fn_EMIT_LSL SR_X SR_CCR 1 0 1);
  rng (oct 01420) (oct 01427) (od fn_EMIT_ROXL SR_X SR_CCR 1 0 1);
  rng (oct 01430) (oct 01437) (od fn_EMIT_ROL 0 SR_NZVC 1 0 1);
  rng (oct 01440) (oct 01447) (od fn_EMIT_ASL SR_X SR_CCR 1 0 1);
  rng (oct 01450) (oct 01457) (od fn_EMIT_LSL SR_X SR_CCR 1 0 1);
  rng (oct 01460) (oct 01467) (od fn_EMIT_ROXL SR_X SR_CCR 1 0 1);
  rng (oct 01470) (oct 01477) (od fn_EMIT_ROL 0 SR_NZVC 1 0 1);
  rng (oct 01500) (oct 01507) (od fn_EMIT_ASL SR_X SR_CCR 1 0 2);
  rng (oct 01510) (oct 01517) (od fn_EMIT_LSL SR_X SR_CCR 1 0 2);
  rng (oct 01520) (oct 01527) (od fn_EMIT_ROXL SR_X SR_CCR 1 0 2);
  rng (oct 01530) (oct 01537) (od fn_EMIT_ROL 0 SR_NZVC 1 0 2);
  rng (oct 01540) (oct 01547) (od fn_EMIT_ASL SR_X SR_CCR 1 0 2);
  rng (oct 01550) (oct 01557) (od fn_EMIT_LSL SR_X SR_CCR 1 0 2);
  rng (oct 01560) (oct 01567) (od fn_EMIT_ROXL SR_X SR_CCR 1 0 2);
  rng (oct 01570) (oct 01577) (od fn_EMIT_ROL 0 SR_NZVC 1 0 2);
  rng (oct 01600) (oct 01607) (od fn_EMIT_ASL SR_X SR_CCR 1 0 4);
  rng (oct 01610) (oct 01617) (od fn_EMIT_LSL SR_X SR_CCR 1 0 4);
  rng (oct 01620) (oct 01627) (od fn_EMIT_ROXL SR_X SR_CCR 1 0 4);
  rng (oct 01630) (oct 01637) (od fn_EMIT_ROL 0 SR_NZVC 1 0 4);
  rng (oct 01640) (oct 01647) (od fn_EMIT_ASL SR_X SR_CCR 1 0 4);
  rng (oct 01650) (oct 01657) (od fn_EMIT_LSL SR_X SR_CCR 1 0 4);
  rng (oct 01660) (oct 01667) (od fn_EMIT_ROXL SR_X SR_CCR 1 0 4);
  rng (oct 01670) (oct 01677) (od fn_EMIT_ROL 0 SR_NZVC 1 0 4);
  rng (oct 02400) (oct 02407) (od fn_EMIT_ASL SR_X SR_CCR 1 0 1);
  rng (oct 02410) (oct 02417) (od fn_EMIT_LSL SR_X SR_CCR 1 0 1);
  rng (oct 02420) (oct 02427) (od fn_EMIT_ROXL SR_X SR_CCR 1 0 1);
  rng (oct 02430) (oct 02437) (od fn_EMIT_ROL 0 SR_NZVC 1 0 1);
  rng (oct 02440) (oct 02447) (od fn_EMIT_ASL SR_X SR_CCR 1 0 1);
  rng (oct 02450) (oct 02457) (od fn_EMIT_LSL SR_X SR_CCR 1 0 1);
  rng (oct 02460) (oct 02467) (od fn_EMIT_ROXL SR_X SR_CCR 1 0 1);
  rng (oct 02470) (oct 02477) (od fn_EMIT_ROL 0 SR_NZVC 1 0 1);
  rng (oct 02500) (oct 02507) (od fn_EMIT_ASL SR_X SR_CCR 1 0 2);
  rng (oct 02510) (oct 02517) (od fn_EMIT_LSL SR_X SR_CCR 1 0 2);
  rng (oct 02520) (oct 02527) (od fn_EMIT_ROXL SR_X SR_CCR 1 0 2);
  rng (oct 02530) (oct 02537) (od fn_EMIT_ROL 0 SR_NZVC 1 0 2);
  rng (oct 02540) (oct 02547) (od fn_EMIT_ASL SR_X SR_CCR 1 0 2);
  rng (oct 02550) (oct 02557) (od fn_EMIT_LSL SR_X SR_CCR 1 0 2);
  rng (oct 02560) (oct 02567) (od fn_EMIT_ROXL SR_X SR_CCR 1 0 2);
  rng (oct 02570) (oct 02577) (od fn_EMIT_ROL 0 SR_NZVC 1 0 2);
  rng (oct 02600) (oct 02607) (od fn_EMIT_ASL SR_X SR_CCR 1 0 4);
  rng (oct 02610) (oct 02617) (od fn_EMIT_LSL SR_X SR_CCR 1 0 4);
  rng (oct 02620) (oct 02627) (od fn_EMIT_ROXL SR_X SR_CCR 1 0 4);
  rng (oct 02630) (oct 02637) (od fn_EMIT_ROL 0 SR_NZVC 1 0 4);
  rng (oct 02640) (oct 02647) (od fn_EMIT_ASL SR_X SR_CCR 1 0 4);
  rng (oct 02650) (oct 02657) (od fn_EMIT_LSL SR_X SR_CCR 1 0 4);
  rng (oct 02660) (oct 02667) (od fn_EMIT_ROXL SR_X SR_CCR 1 0 4);
  rng (oct 02670) (oct 02677) (od fn_EMIT_ROL 0 SR_NZVC 1 0 4);
  rng (oct 03400) (oct 03407) (od fn_EMIT_ASL SR_X SR_CCR 1 0 1);
  rng (oct 03410) (oct 03417) (od fn_EMIT_LSL SR_X SR_CCR 1 0 1);
  rng (oct 03420) (oct 03427) (od fn_EMIT_ROXL SR_X SR_CCR 1 0 1);
  rng (oct 03430) (oct 03437) (od fn_EMIT_ROL 0 SR_NZVC 1 0 1);
  rng (oct 03440) (oct 03447) (od fn_EMIT_ASL SR_X SR_CCR 1 0 1);
  rng (oct 03450) (oct 03457) (od fn_EMIT_LSL SR_X SR_CCR 1 0 1);
  rng (oct 03460) (oct 03467) (od fn_EMIT_ROXL SR_X SR_CCR 1 0 1);
  rng (oct 03470) (oct 03477) (od fn_EMIT_ROL 0 SR_NZVC 1 0 1);
  rng (oct 03500) (oct 03507) (od fn_EMIT_ASL SR_X SR_CCR 1 0 2);
  rng (oct 03510) (oct 03517) (od fn_EMIT_LSL SR_X SR_CCR 1 0 2);
  rng (oct 03520) (oct 03527) (od fn_EMIT_ROXL SR_X SR_CCR 1 0 2);
  rng (oct 03530) (oct 03537) (od fn_EMIT_ROL 0 SR_NZVC 1 0 2);
  rng (oct 03540) (oct 03547) (od fn_EMIT_ASL SR_X SR_CCR 1 0 2);
  rng (oct 03550) (oct 03557) (od fn_EMIT_LSL SR_X SR_CCR 1 0 2);
  rng (oct 03560) (oct 03567) (od fn_EMIT_ROXL SR_X SR_CCR 1 0 2);
  rng (oct 03570) (oct 03577) (od fn_EMIT_ROL 0 SR_NZVC 1 0 2);
  rng (oct 03600) (oct 03607) (od fn_EMIT_ASL SR_X SR_CCR 1 0 4);
  rng (oct 03610) (oct 03617) (od fn_EMIT_LSL SR_X SR_CCR 1 0 4);
  rng (oct 03620) (oct 03627) (od fn_EMIT_ROXL SR_X SR_CCR 1 0 4);
  rng (oct 03630) (oct 03637) (od fn_EMIT_ROL 0 SR_NZVC 1 0 4);
  rng (oct 03640) (oct 03647) (od fn_EMIT_ASL SR_X SR_CCR 1 0 4);
  rng (oct 03650) (oct 03657) (od fn_EMIT_LSL SR_X SR_CCR 1 0 4);
  rng (oct 03660) (oct 03667) (od fn_EMIT_ROXL SR_X SR_CCR 1 0 4);
  rng (oct 03670) (oct 03677) (od fn_EMIT_ROL 0 SR_NZVC 1 0 4);
  rng (oct 04400) (oct 04407) (od fn_EMIT_ASL SR_X SR_CCR 1 0 1);
  rng (oct 04410) (oct 04417) (od fn_EMIT_LSL SR_X SR_CCR 1 0 1);
  rng (oct 04420) (oct 04427) (od fn_EMIT_ROXL SR_X SR_CCR 1 0 1);
  rng (oct 04430) (oct 04437) (od fn_EMIT_ROL 0 SR_NZVC 1 0 1);
  rng (oct 04440) (oct 04447) (od fn_EMIT_ASL SR_X SR_CCR 1 0 1);
  rng (oct 04450) (oct 04457) (od fn_EMIT_LSL SR_X SR_CCR 1 0 1);
  rng (oct 04460) (oct 04467) (od fn_EMIT_ROXL SR_X SR_CCR 1 0 1);
  rng (oct 04470) (oct 04477) (od fn_EMIT_ROL 0 SR_NZVC 1 0 1);
  rng (oct 04500) (oct 04507) (od fn_EMIT_ASL SR_X SR_CCR 1 0 2);
  rng (oct 04510) (oct 04517) (od fn_EMIT_LSL SR_X SR_CCR 1 0 2);
  rng (oct 04520) (oct 04527) (od fn_EMIT_ROXL SR_X SR_CCR 1 0 2);
  rng (oct 04530) (oct 04537) (od fn_EMIT_ROL 0 SR_NZVC 1 0 2);
  rng (oct 04540) (oct 04547) (od fn_EMIT_ASL SR_X SR_CCR 1 0 2);
  rng (oct 04550) (oct 04557) (od fn_EMIT_LSL SR_X SR_CCR 1 0 2);
  rng (oct 04560) (oct 04567) (od fn_EMIT_ROXL SR_X SR_CCR 1 0 2);
  rng (oct 04570) (oct 04577) (od fn_EMIT_ROL 0 SR_NZVC 1 0 2);
  rng (oct 04600) (oct 04607) (od fn_EMIT_ASL SR_X SR_CCR 1 0 4);
  rng (oct 04610) (oct 04617) (od fn_EMIT_LSL SR_X SR_CCR 1 0 4);
  rng (oct 04620) (oct 04627) (od fn_EMIT_ROXL SR_X SR_CCR 1 0 4);
  rng (oct 04630) (oct 04637) (od fn_EMIT_ROL 0 SR_NZVC 1 0 4);
  rng (oct 04640) (oct 04647) (od fn_EMIT_ASL SR_X SR_CCR 1 0 4);
  rng (oct 04650) (oct 04657) (od fn_EMIT_LSL SR_X SR_CCR 1 0 4);
  rng (oct 04660) (oct 04667) (od fn_EMIT_ROXL SR_X SR_CCR 1 0 4);
  rng (oct 04670) (oct 04677) (od fn_EMIT_ROL 0 SR_NZVC 1 0 4);
  rng (oct 05400) (oct 05407) (od fn_EMIT_ASL SR_X SR_CCR 1 0 1);
  rng (oct 05410) (oct 05417) (od fn_EMIT_LSL SR_X SR_CCR 1 0 1);
  rng (oct 05420) (oct 05427) (od fn_EMIT_ROXL SR_X SR_CCR 1 0 1);
  rng (oct 05430) (oct 05437) (od fn_EMIT_ROL 0 SR_NZVC 1 0 1);
  rng (oct 05440) (oct 05447) (od fn_EMIT_ASL SR_X SR_CCR 1 0 1);
  rng (oct 05450) (oct 05457) (od fn_EMIT_LSL SR_X SR_CCR 1 0 1);
  rng (oct 05460) (oct 05467) (od fn_EMIT_ROXL SR_X SR_CCR 1 0 1);
  rng (oct 05470) (oct 05477) (od fn_EMIT_ROL 0 SR_NZVC 1 0 1);
  rng (oct 05500) (oct 05507) (od fn_EMIT_ASL SR_X SR_CCR 1 0 2);
  rng (oct 05510) (oct 05517) (od fn_EMIT_LSL SR_X SR_CCR 1 0 2);
  rng (oct 05520) (oct 05527) (od fn_EMIT_ROXL SR_X SR_CCR 1 0 2);
  rng (oct 05530) (oct 05537) (od fn_EMIT_ROL 0 SR_NZVC 1 0 2);
  rng (oct 05540) (oct 05547) (od fn_EMIT_ASL SR_X SR_CCR 1 0 2);
  rng (oct 05550) (oct 05557) (od fn_EMIT_LSL SR_X SR_CCR 1 0 2);
  rng (oct 05560) (oct 05567) (od fn_EMIT_ROXL SR_X SR_CCR 1 0 2);
  rng (oct 05570) (oct 05577) (od fn_EMIT_ROL 0 SR_NZVC 1 0 2);
  rng (oct 05600) (oct 05607) (od fn_EMIT_ASL SR_X SR_CCR 1 0 4);
  rng (oct 05610) (oct 05617) (od fn_EMIT_LSL SR_X SR_CCR 1 0 4);
  rng (oct 05620) (oct 05627) (od fn_EMIT_ROXL SR_X SR_CCR 1 0 4);
  rng (oct 05630) (oct 05637) (od fn_EMIT_ROL 0 SR_NZVC 1 0 4);
  rng (oct 05640) (oct 05647) (od fn_EMIT_ASL SR_X SR_CCR 1 0 4);
  rng (oct 05650) (oct 05657) (od fn_EMIT_LSL SR_X SR_CCR 1 0 4);
  rng (oct 05660) (oct 05667) (od fn_EMIT_ROXL SR_X SR_CCR 1 0 4);
  rng (oct 05670) (oct 05677) (od fn_EMIT_ROL 0 SR_NZVC 1 0 4);
  rng (oct 06400) (oct 06407) (od fn_EMIT_ASL SR_X SR_CCR 1 0 1);
  rng (oct 06410) (oct 06417) (od fn_EMIT_LSL SR_X SR_CCR 1 0 1);
  rng (oct 06420) (oct 06427) (od fn_EMIT_ROXL SR_X SR_CCR 1 0 1);
  rng (oct 06430) (oct 06437) (od fn_EMIT_ROL 0 SR_NZVC 1 0 1);
  rng (oct 06440) (oct 06447) (od fn_EMIT_ASL SR_X SR_CCR 1 0 1);
  rng (oct 06450) (oct 06457) (od fn_EMIT_LSL SR_X SR_CCR 1 0 1);
  rng (oct 06460) (oct 06467) (od fn_EMIT_ROXL SR_X SR_CCR 1 0 1);
  rng (oct 06470) (oct 06477) (od fn_EMIT_ROL 0 SR_NZVC 1 0 1);
  rng (oct 06500) (oct 06507) (od fn_EMIT_ASL SR_X SR_CCR 1 0 2);
  rng (oct 06510) (oct 06517) (od fn_EMIT_LSL SR_X SR_CCR 1 0 2);
  rng (oct 06520) (oct 06527) (od fn_EMIT_ROXL SR_X SR_CCR 1 0 2);
  rng (oct 06530) (oct 06537) (od fn_EMIT_ROL 0 SR_NZVC 1 0 2);
  rng (oct 06540) (oct 06547) (od fn_EMIT_ASL SR_X SR_CCR 1 0 2);
  rng (oct 06550) (oct 06557) (od fn_EMIT_LSL SR_X SR_CCR 1 0 2);
  rng (oct 06560) (oct 06567) (od fn_EMIT_ROXL SR_X SR_CCR 1 0 2);
  rng (oct 06570) (oct 06577) (od fn_EMIT_ROL 0 SR_NZVC 1 0 2);
  rng (oct 06600) (oct 06607) (od fn_EMIT_ASL SR_X SR_CCR 1 0 4);
  rng (oct 06610) (oct 06617) (od fn_EMIT_LSL SR_X SR_CCR 1 0 4);
  rng (oct 06620) (oct 06627) (od fn_EMIT_ROXL SR_X SR_CCR 1 0 4);
  rng (oct 06630) (oct 06637) (od fn_EMIT_ROL 0 SR_NZVC 1 0 4);
  rng (oct 06640) (oct 06647) (od fn_EMIT_ASL SR_X SR_CCR 1 0 4);
  rng (oct 06650) (oct 06657) (od fn_EMIT_LSL SR_X SR_CCR 1 0 4);
  rng (oct 06660) (oct 06667) (od fn_EMIT_ROXL SR_X SR_CCR 1 0 4);
  rng (oct 06670) (oct 06677) (od fn_EMIT_ROL 0 SR_NZVC 1 0 4);
  rng (oct 07400) (oct 07407) (od fn_EMIT_ASL SR_X SR_CCR 1 0 1);
  rng (oct 07410) (oct 07417) (od fn_EMIT_LSL SR_X SR_CCR 1 0 1);
  rng (oct 07420) (oct 07427) (od fn_EMIT_ROXL SR_X SR_CCR 1 0 1);
  rng (oct 07430) (oct 07437) (od fn_EMIT_ROL 0 SR_NZVC 1 0 1);
  rng (oct 07440) (oct 07447) (od fn_EMIT_ASL SR_X SR_CCR 1 0 1);
  rng (oct 07450) (oct 07457) (od fn_EMIT_LSL SR_X SR_CCR 1 0 1);
  rng (oct 07460) (oct 07467) (od fn_EMIT_ROXL SR_X SR_CCR 1 0 1);
  rng (oct 07470) (oct 07477) (od fn_EMIT_ROL 0 SR_NZVC 1 0 1);
  rng (oct 07500) (oct 07507) (od fn_EMIT_ASL SR_X SR_CCR 1 0 2);
  rng (oct 07510) (oct 07517) (od fn_EMIT_LSL SR_X SR_CCR 1 0 2);
  rng (oct 07520) (oct 07527) (od fn_EMIT_ROXL SR_X SR_CCR 1 0 2);
  rng (oct 07530) (oct 07537) (od fn_EMIT_ROL 0 SR_NZVC 1 0 2);
  rng (oct 07540) (oct 07547) (od fn_EMIT_ASL SR_X SR_CCR 1 0 2);
  rng (oct 07550) (oct 07557) (od fn_EMIT_LSL SR_X SR_CCR 1 0 2);
  rng (oct 07560) (oct 07567) (od fn_EMIT_ROXL SR_X SR_CCR 1 0 2);
  rng (oct 07570) (oct 07577) (od fn_EMIT_ROL 0 SR_NZVC 1 0 2);
  rng (oct 07600) (oct 07607) (od fn_EMIT_ASL SR_X SR_CCR 1 0 4);
  rng (oct 07610) (oct 07617) (od fn_EMIT_LSL SR_X SR_CCR 1 0 4);
  rng (oct 07620) (oct 07627) (od fn_EMIT_ROXL SR_X SR_CCR 1 0 4);
  rng (oct 07630) (oct 07637) (od fn_EMIT_ROL 0 SR_NZVC 1 0 4);
  rng (oct 07640) (oct 07647) (od fn_EMIT_ASL SR_X SR_CCR 1 0 4);
  rng (oct 07650) (oct 07657) (od fn_EMIT_LSL SR_X SR_CCR 1 0 4);
  rng (oct 07660) (oct 07667) (od fn_EMIT_ROXL SR_X SR_CCR 1 0 4);
  rng (oct 07670) (oct 07677) (od fn_EMIT_ROL 0 SR_NZVC 1 0 4);
  rng (oct 00720) (oct 00771) (od fn_EMIT_ASL_mem SR_X SR_CCR 1 1 2);
  rng (oct 01720) (oct 01771) (od fn_EMIT_LSL_mem SR_X SR_CCR 1 1 2);
  rng (oct 02720) (oct 02771) (od fn_EMIT_ROXL_mem SR_X SR_CCR 1 1 2);
  rng (oct 03720) (oct 03771) (od fn_EMIT_ROL_mem 0 SR_NZVC 1 1 2);
  rng (oct 04300) (oct 04307) (od fn_EMIT_BFTST 0 SR_NZVC 2 0 0);
  rng (oct 04320) (oct 04327) (od fn_EMIT_BFTST 0 SR_NZVC 2 0 0);
  rng (oct 04350) (oct 04373) (od fn_EMIT_BFTST 0 SR_NZVC 2 1 0);
  rng (oct 05300) (oct 05307) (od fn_EMIT_BFCHG_reg 0 SR_NZVC 2 0 0);
  rng (oct 05320) (oct 05327) (od fn_EMIT_BFCHG 0 SR_NZVC 2 0 0);
  rng (oct 05350) (oct 05371) (od fn_EMIT_BFCHG 0 SR_NZVC 2 1 0);
  rng (oct 06300) (oct 06307) (od fn_EMIT_BFCLR_reg 0 SR_NZVC 2 0 0);
  rng (oct 06320) (oct 06327) (od fn_EMIT_BFCLR 0 SR_NZVC 2 0 0);
  rng (oct 06350) (oct 06371) (od fn_EMIT_BFCLR 0 SR_NZVC 2 1 0);
  rng (oct 07300) (oct 07307) (od fn_EMIT_BFSET_reg 0 SR_NZVC 2 0 0);
  rng (oct 07320) (oct 07327) (od fn_EMIT_BFSET 0 SR_NZVC 2 0 0);
  rng (oct 07350) (oct 07371) (od fn_EMIT_BFSET 0 SR_NZVC 2 1 0);
  rng (oct 04700) (oct 04707) (od fn_EMIT_BFEXTU 0 SR_NZVC 2 0 0);
  rng (oct 04720) (oct 04727) (od fn_EMIT_BFEXTU 0 SR_NZVC 2 0 0);
  rng (oct 04750) (oct 04773) (od fn_EMIT_BFEXTU 0 SR_NZVC 2 1 0);
  rng (oct 05700) (oct 05707) (od fn_EMIT_BFEXTS 0 SR_NZVC 2 0 0);
  rng (oct 05720) (oct 05727) (od fn_EMIT_BFEXTS 0 SR_NZVC 2 0 0);
  rng (oct 05750) (oct 05773) (od fn_EMIT_BFEXTS 0 SR_NZVC 2 1 0);
  rng (oct 06700) (oct 06707) (od fn_EMIT_BFFFO_reg 0 SR_NZVC 2 0 0);
  rng (oct 06720) (oct 06727) (od fn_EMIT_BFFFO 0 SR_NZVC 2 0 0);
  rng (oct 06750) (oct 06773) (od fn_EMIT_BFFFO 0 SR_NZVC 2 1 0);
  rng (oct 07700) (oct 07707) (od fn_EMIT_BFINS_reg 0 SR_NZVC 2 0 0);
  rng (oct 07720) (oct 07727) (od fn_EMIT_BFINS 0 SR_NZVC 2 0 0);
  rng (oct 07750) (oct 07771) (od fn_EMIT_BFINS 0 SR_NZVC 2 1 0)
].

(** Element [i] of the array: the last initialiser whose range holds [i]
    wins, as with designated initialisers in C. *)
Definition range_lookup (init : list range_init) (i : Z) : OpcodeDef :=
  fold_left
    (fun d r => if (rng_lo r <=? i) && (i <=? rng_hi r) then rng_def r else d)
    init od_zero.

Definition InsnTable_entry (i : Z) : OpcodeDef :=
  range_lookup InsnTable_init i.

Definition InsnTable : list OpcodeDef :=
  (fun n => InsnTable_entry (Z.of_nat n)) <$> seq 0 4096.

(** [InsnTable[i]]; [None] stands for a read outside the array. *)
Definition InsnTable_at (i : Z) : option OpcodeDef :=
  if i <? 0 then None else InsnTable !! Z.to_nat i.

(** ** Entry point of the family *)

Definition get_m68k_ptr : M Z := fun s => (m68k_ptr s, s).

(** [EMIT_lineE]: the result is the value stored in [*insn_consumed], or
    [None] if the table were read outside its bounds.  The two words after
    the opcode are fetched before the test of the special case; the C code
    reads them inside the condition, after the pointer has moved past the
    opcode. *)
Definition EMIT_lineE : M (option Z) :=
  opcode <- fetch16 0 ;;
  advance_m68k_ptr 1 ;;
  let insn_consumed := 1 in
  next0 <- fetch16 0 ;;
  next1 <- fetch16 1 ;;
  if (opcode .& 0xfef8 =? 0xe058) &&
     (next0 =? (0x4840 .| (opcode .& 7))) &&
     (next1 .& 0xfeff =? opcode .& 0xfeff)
  then
    update_mask <- GetSRMask (-1) ;;
    reg <- RA_MapM68kRegister (opcode .& 7) ;;
    RA_SetDirtyM68kRegister (opcode .& 7) ;;
    let insn_consumed := 3 in
    emit "rev" [R reg; R reg] ;;
    EMIT_AdvancePC 6 ;;
    advance_m68k_ptr 2 ;;
    (if nz update_mask
     then
       cc <- RA_ModifyCC ;;
       tmp <- RA_AllocARMRegister ;;
       emit "cmn_reg" [I 31; R reg; I LSL; I 0] ;;
       emit "mov_immed_u16" [R tmp; I update_mask; I 0] ;;
       emit "bic_reg" [R cc; R cc; R tmp; I LSL; I 0] ;;
       (if nz (update_mask .& SR_Z)
        then
          emit "b_cc" [I (A64_CC_EQ .^ 1); I 2] ;;
          emit "orr_immed" [R cc; R cc; I 1; I ((32 - SRB_Z) .& 31)]
        else skip) ;;
       (if nz (update_mask .& SR_N)
        then
          emit "b_cc" [I (A64_CC_MI .^ 1); I 2] ;;
          emit "orr_immed" [R cc; R cc; I 1; I ((32 - SRB_N) .& 31)]
        else skip) ;;
       (if nz (update_mask .& (SR_C .| SR_X))
        then
          emit "b_cc" [I (A64_CC_CS .^ 1); I 3] ;;
          emit "mov_immed_u16" [R tmp; I (SR_C .| SR_X); I 0] ;;
          emit "orr_reg" [R cc; R cc; R tmp; I LSL; I 0]
        else skip) ;;
       RA_FreeARMRegister tmp
     else skip) ;;
    ret (Some insn_consumed)
  else
    match InsnTable_at (opcode .& 0xfff) with
    | None => ret None
    | Some d =>
      match od_Emit d with
      | Some f =>
        handler_fn f opcode ;;
        ret (Some insn_consumed)
      | None =>
        EMIT_FlushPC ;;
        p <- get_m68k_ptr ;;
        EMIT_InjectDebugString "[JIT] opcode %04x at %08x not implemented\n"
                               [I opcode; I (p - 1)] ;;
        EMIT_Exception VECTOR_ILLEGAL_INSTRUCTION 0 ;;
        put (Raw (INSN_TO_LE 0xffffffff)) ;;
        ret (Some insn_consumed)
      end
    end.

(** ** Metadata queries *)

(** [GetSR_LineE]; the [kprintf] of the second branch is left out. *)
Definition GetSR_LineE (opcode : Z) : option Z :=
  match InsnTable_at (opcode .& 0xfff) with
  | None => None
  | Some d =>
    match od_Emit d with
    | Some _ => Some ((od_SRNeeds d << 16) .| od_SRSets d)
    | None => Some (SR_CCR << 16)
    end
  end.

(** [M68K_GetLineELength]; [insn_stream] is a word address of guest
    memory. *)
Definition M68K_GetLineELength (mem : Z -> Z) (insn_stream : Z) : option Z :=
  let opcode := BE16 (u16 (mem insn_stream)) in
  let length := 0 in
  let need_ea := 0 in
  let opsize := 0 in
  match InsnTable_at (opcode .& 0xfff) with
  | None => None
  | Some d =>
    let '(length, need_ea, opsize) :=
      match od_Emit d with
      | Some _ => (od_BaseLength d, od_HasEA d, od_OpSize d)
      | None => (length, need_ea, opsize)
      end in
    let length :=
      if nz need_ea
      then length + SR_GetEALength mem (insn_stream + length) (opcode .& 0x3f) opsize
      else length in
    Some length
  end.

(** ** What is observed of a run *)

(** The state in which the entry point or a handler is called: nothing has
    been left at the cursor and no scratch register has been acquired. *)
Definition start (mem : Z -> Z) (p : Z) : jit := mkJit [] 0 mem p.

(** Scratch-register discipline of a trace: [live] holds the scratch
    registers that are acquired and not yet released.  A register is
    acquired by [RA_AllocARMRegister], [RA_CopyFromM68kRegister] or the
    effective-address resolver; releasing a register that is not live is an
    error, as is a register still live at the end.  Releasing a register
    that belongs to a guest register is no release of a scratch register. *)
Fixpoint discipline (live : list nat) (l : list item) : bool :=
  match l with
  | [] => match live with [] => true | _ :: _ => false end
  | x :: l =>
    match x with
    | RA_Alloc (Scratch k) | RA_Copy (Scratch k) _
    | EA_Load (Scratch k) _ _ _ _ =>
      negb (existsb (Nat.eqb k) live) && discipline (k :: live) l
    | RA_Free (Scratch k) =>
      existsb (Nat.eqb k) live &&
      discipline (List.filter (fun j => negb (Nat.eqb k j)) live) l
    | _ => discipline live l
    end
  end.

(** The arguments of the calls of [EMIT_AdvancePC], in order. *)
Fixpoint pc_advances (l : list item) : list Z :=
  match l with
  | [] => []
  | PC_Advance n :: l => n :: pc_advances l
  | _ :: l => pc_advances l
  end.

(** The instructions with a given mnemonic. *)
Definition is_op (mnemonic : string) (x : item) : bool :=
  match x with
  | Op m _ => String.eqb m mnemonic
  | _ => false
  end.

Definition ops (mnemonic : string) (l : list item) : list item :=
  List.filter (is_op mnemonic) l.

(** Loads and stores: the encoders whose names start with [ldr] or [str]. *)
Definition is_mem_access (x : item) : bool :=
  match x with
  | Op m _ => String.prefix "ldr" m || String.prefix "str" m
  | _ => false
  end.

(** Branches, and the zero words that stand for a branch to be filled in. *)
Definition is_branch (x : item) : bool :=
  match x with
  | Op m _ =>
    existsb (String.eqb m) ["b"; "b_cc"; "cbz"; "cbnz"; "tbz"; "tbnz"]
  | Raw w => w =? 0
  | _ => false
  end.

(** The first argument of an encoder is the register it writes. *)
Definition writes (r : hreg) (x : item) : bool :=
  match x with
  | Op _ (R d :: _) => hreg_eqb d r
  | _ => false
  end.

(** An [and] of register [r] with the low [bits] bits set. *)
Definition is_mask_of (r : hreg) (bits : Z) (x : item) : bool :=
  match x with
  | Op m (_ :: R a :: I w :: _) =>
    (String.eqb m "and_immed" || String.eqb m "ands_immed") &&
    (w =? bits) && hreg_eqb a r
  | _ => false
  end.

(** The part of a trace before the program counter is advanced. *)
Fixpoint before_pc (l : list item) : list item :=
  match l with
  | [] => []
  | PC_Advance _ :: _ => []
  | x :: l => x :: before_pc l
  end.

(** What a run of a handler is summed up to: discipline, the calls of
    [EMIT_AdvancePC] and the byte-reverse instructions. *)
Definition summary (s : jit) : bool * list Z * list item :=
  (discipline [] (code s), pc_advances (code s), ops "rev" (code s)).

(** ** The encoding of the instructions, from the 68k manual *)

(** [RO(R/L).W #8,Dn]: line E, count field 0 (a count of 8), word size,
    immediate count, rotate. *)
Definition is_rot8_word (w : Z) : bool :=
  (w >> 12 =? 0xE) && ((w >> 9) .& 7 =? 0) && ((w >> 6) .& 3 =? 1) &&
  ((w >> 5) .& 1 =? 0) && ((w >> 3) .& 3 =? 3).

(** [SWAP Dn]. *)
Definition SWAP_insn (n : Z) : Z := 0x4840 + n.

(** The words a handler is to consume after the opcode: none for a
    register shift, the extension words of the addressing mode for a
    memory shift, and the extension word of a bitfield instruction plus
    those of its addressing mode. *)
Definition ea_words (mem : Z -> Z) (q : Z) (opcode ext_in : Z) : Z :=
  EA_ext_words mem q (opcode .& 0x3f) ext_in.

Definition consumed_words (f : handler) (mem : Z -> Z) (q opcode : Z) : Z :=
  match f with
  | fn_EMIT_ASR | fn_EMIT_ASL | fn_EMIT_LSR | fn_EMIT_LSL
  | fn_EMIT_ROR | fn_EMIT_ROL | fn_EMIT_ROXR | fn_EMIT_ROXL => 0
  | fn_EMIT_ASR_mem | fn_EMIT_ASL_mem | fn_EMIT_LSR_mem | fn_EMIT_LSL_mem
  | fn_EMIT_ROR_mem | fn_EMIT_ROL_mem | fn_EMIT_ROXR_mem
  | fn_EMIT_ROXL_mem => ea_words mem q opcode 0
  | fn_EMIT_BFTST | fn_EMIT_BFEXTU | fn_EMIT_BFEXTS =>
    if opcode .& 0x0038 =? 0 then 1 else ea_words mem q opcode 1
  | fn_EMIT_BFFFO_reg | fn_EMIT_BFCHG_reg | fn_EMIT_BFSET_reg
  | fn_EMIT_BFCLR_reg | fn_EMIT_BFINS_reg => 1
  | fn_EMIT_BFFFO | fn_EMIT_BFCHG | fn_EMIT_BFSET | fn_EMIT_BFCLR
  | fn_EMIT_BFINS => ea_words mem q opcode 1
  end.

Definition is_reg_shift (f : handler) : bool :=
  match f with
  | fn_EMIT_ASR | fn_EMIT_ASL | fn_EMIT_LSR | fn_EMIT_LSL
  | fn_EMIT_ROR | fn_EMIT_ROL | fn_EMIT_ROXR | fn_EMIT_ROXL => true
  | _ => false
  end.

Definition is_mem_shift (f : handler) : bool :=
  match f with
  | fn_EMIT_ASR_mem | fn_EMIT_ASL_mem | fn_EMIT_LSR_mem | fn_EMIT_LSL_mem
  | fn_EMIT_ROR_mem | fn_EMIT_ROL_mem | fn_EMIT_ROXR_mem
  | fn_EMIT_ROXL_mem => true
  | _ => false
  end.

(** ** The cases of the entry point *)

(** The opcode at [p] and the two words after it, as [EMIT_lineE] reads
    them. *)
Definition word_at (mem : Z -> Z) (a : Z) : Z := BE16 (u16 (mem a)).

(** The condition under which [EMIT_lineE] takes the special case. *)
Definition fused (mem : Z -> Z) (p : Z) : bool :=
  (word_at mem p .& 0xfef8 =? 0xe058) &&
  (word_at mem (p + 1) =? (0x4840 .| (word_at mem p .& 7))) &&
  (word_at mem (p + 2) .& 0xfeff =? word_at mem p .& 0xfeff).

(** What [EMIT_lineE] leaves at the cursor for an opcode without handler
    that was read at address [p]. *)
Definition trap_code (opcode p : Z) : list item :=
  [PC_Flush;
   Svc "EMIT_InjectDebugString: [JIT] opcode %04x at %08x not implemented\n"
       [I opcode; I p];
   Svc "EMIT_Exception" [I VECTOR_ILLEGAL_INSTRUCTION; I 0];
   Raw 0xffffffff].

(** The table element at index [i] agrees with the words its handler
    consumes: base length 1 without effective address for the register
    shifts, base length 1 with effective address for the memory shifts,
    base length 2 for the bitfield instructions, with an effective address
    unless the operand is a data register or the mode is [(An)]; an
    element with effective address never has the immediate mode. *)
Definition with_ea (i : Z) (d : OpcodeDef) : bool :=
  (nz (od_HasEA d) && (i .& 0x3f <? 0x3c)) ||
  ((od_HasEA d =? 0) && (i .& 0x38 =? 0x10)).

Definition table_ok (i : Z) : bool :=
  let d := InsnTable_entry i in
  match od_Emit d with
  | None => true
  | Some f =>
    match f with
    | fn_EMIT_ASR | fn_EMIT_ASL | fn_EMIT_LSR | fn_EMIT_LSL
    | fn_EMIT_ROR | fn_EMIT_ROL | fn_EMIT_ROXR | fn_EMIT_ROXL =>
      (od_BaseLength d =? 1) && (od_HasEA d =? 0)
    | fn_EMIT_ASR_mem | fn_EMIT_ASL_mem | fn_EMIT_LSR_mem | fn_EMIT_LSL_mem
    | fn_EMIT_ROR_mem | fn_EMIT_ROL_mem | fn_EMIT_ROXR_mem
    | fn_EMIT_ROXL_mem =>
      (od_BaseLength d =? 1) && nz (od_HasEA d) && (i .& 0x3f <? 0x3c)
    | fn_EMIT_BFTST | fn_EMIT_BFEXTU | fn_EMIT_BFEXTS =>
      (od_BaseLength d =? 2) &&
      (if i .& 0x0038 =? 0 then od_HasEA d =? 0 else with_ea i d)
    | fn_EMIT_BFFFO_reg | fn_EMIT_BFCHG_reg | fn_EMIT_BFSET_reg
    | fn_EMIT_BFCLR_reg | fn_EMIT_BFINS_reg =>
      (od_BaseLength d =? 2) && (od_HasEA d =? 0)
    | fn_EMIT_BFFFO | fn_EMIT_BFCHG | fn_EMIT_BFSET | fn_EMIT_BFCLR
    | fn_EMIT_BFINS =>
      (od_BaseLength d =? 2) && with_ea i d
    end
  end.

(** ** Checking a property on every [k]-bit number *)

Fixpoint all_bits (k : nat) (P : Z -> bool) : bool :=
  match k with
  | O => P 0
  | S k => all_bits k (fun z => P (2 * z)) && all_bits k (fun z => P (2 * z + 1))
  end.

(** ** Expected shapes of emitted code *)

(** The 16-bit load of a memory shift: sign-extending for [ASL]/[ASR]. *)
Definition load16 (f : handler) : string :=
  match f with
  | fn_EMIT_ASL_mem | fn_EMIT_ASR_mem => "ldrsh_offset"
  | _ => "ldrh_offset"
  end.

(** Pre-decrement is mode 4 ([0x20] in the mode field), post-increment
    mode 3 ([0x18]). *)
Definition expected_load (f : handler) (opcode : Z) (dest tmp : hreg) : item :=
  if opcode .& 0x38 =? 0x20
  then Op (load16 f ++ "_preindex") [R dest; R tmp; I (-2)]
  else Op (load16 f) [R dest; R tmp; I 0].

Definition expected_store (opcode : Z) (dest tmp : hreg) : item :=
  if opcode .& 0x38 =? 0x18
  then Op "strh_offset_postindex" [R dest; R tmp; I 2]
  else Op "strh_offset" [R dest; R tmp; I 0].

Definition is_ea_load (x : item) : bool :=
  match x with
  | EA_Load _ _ _ _ _ => true
  | _ => false
  end.

(** The guest register that holds the count of a register shift. *)
Definition amount_reg (opcode : Z) : hreg := M68kReg ((opcode >> 9) .& 7).

(** The shape the zero-count rule asks of a trace: the count register is
    masked to 6 bits, and a branch comes before the program counter is
    advanced. *)
Definition masked_and_branched (opcode : Z) (l : list item) : bool :=
  existsb (is_mask_of (amount_reg opcode) 6) l &&
  existsb is_branch (before_pc l).

(** What [EMIT_ROXL] emits for a count of zero, between the two words it
    fills in later: the flags N and Z of the operand, and X copied into
    C. *)
Definition ROXL_zero_block (opcode update_mask : Z) : list item :=
  let size := (opcode >> 6) .& 3 in
  let dest := M68kReg (opcode .& 7) in
  (if nz (update_mask .& SR_NZV)
   then (if size =? 0 then [Op "cmn_reg" [I 31; R dest; I LSL; I 24]]
         else if size =? 1 then [Op "cmn_reg" [I 31; R dest; I LSL; I 16]]
         else if size =? 2 then [Op "cmn_reg" [I 31; R dest; I LSL; I 0]]
         else []) ++
        [Svc "EMIT_GetNZ00" [R RegCC; I update_mask]]
   else []) ++
  (if nz (update_mask .& SR_X)
   then [Op "bfxil" [R RegCC; R RegCC; I 4; I 1]]
   else []).

(** The start of [EMIT_ROXL] with a count register, up to the end of the
    zero-count block. *)
Definition ROXL_reg_head (opcode update_mask : Z) : list item :=
  [RA_CC; RA_Map (opcode .& 7); RA_SetDirty (opcode .& 7);
   RA_Map ((opcode >> 9) .& 7);
   RA_Alloc (Scratch 0); RA_Alloc (Scratch 1); RA_Alloc (Scratch 2);
   Op "ands_immed" [R (Scratch 1); R (amount_reg opcode); I 6; I 0];
   Op "b_cc" [I A64_CC_NE;
              I (words (Raw 0 :: ROXL_zero_block opcode update_mask ++ [Raw 0]))]]
  ++ ROXL_zero_block opcode update_mask.

Definition is_plain_shift (f : handler) : bool :=
  match f with
  | fn_EMIT_ASR | fn_EMIT_ASL | fn_EMIT_LSR | fn_EMIT_LSL
  | fn_EMIT_ROR | fn_EMIT_ROL => true
  | _ => false
  end.

Definition is_roxl (f : handler) : bool :=
  match f with
  | fn_EMIT_ROXR | fn_EMIT_ROXL => true
  | _ => false
  end.

(** ** Statements about handlers and the entry point *)

(** A handler called with the read pointer at [q]: it keeps the scratch
    discipline, calls [EMIT_AdvancePC] once, with twice the words of the
    instruction, emits no byte-reverse instruction, and leaves the read
    pointer after the words it consumed. *)
Definition handler_sound (mem : Z -> Z) (q opcode : Z) (f : handler) : Prop :=
  summary (exec (handler_fn f opcode) (start mem q)) =
    (true, [2 * (consumed_words f mem q opcode + 1)], []) /\
  m68k_ptr (exec (handler_fn f opcode) (start mem q)) =
    q + consumed_words f mem q opcode.

(** The length [M68K_GetLineELength] computes from the table element of
    the opcode read at [p]. *)
Definition length_of (mem : Z -> Z) (p opcode : Z) (d : OpcodeDef) : Z :=
  od_BaseLength d +
  if nz (od_HasEA d)
  then SR_GetEALength mem (p + od_BaseLength d) (opcode .& 0x3f) (od_OpSize d)
  else 0.

(** The three words of the special case as the manual encodes them: a
    rotate of a word by 8 on [Dn], [SWAP Dn], and a rotate of a word by 8
    on the same register, each rotate in either direction. *)
Definition rotate_swap_rotate (mem : Z -> Z) (p : Z) : Prop :=
  is_rot8_word (word_at mem p) = true /\
  word_at mem (p + 1) = SWAP_insn (word_at mem p .& 7) /\
  is_rot8_word (word_at mem (p + 2)) = true /\
  word_at mem (p + 2) .& 7 = word_at mem p .& 7.

(** The update mask of the instruction at address [a], as a handler
    reads it. *)
Definition update_mask_at (mem : Z -> Z) (a : Z) : Z :=
  u8 (M68K_GetSRMask mem a).

(** The condition with the further requirement that both rotates have
    the same flags to update; the C code does not test this. *)
Definition rotate_swap_rotate_same_flags (mem : Z -> Z) (p : Z) : Prop :=
  rotate_swap_rotate mem p /\
  update_mask_at mem (p + 2) = update_mask_at mem p.

(** An [and] with a constant, with or without flags. *)
Definition is_and_immed (x : item) : bool :=
  match x with
  | Op m _ => String.eqb m "and_immed" || String.eqb m "ands_immed"
  | _ => false
  end.

(** ** Layout of the table

    The fields of a line-E opcode below the line bits: bits 6-7 are the
    size, and the value 3 there selects the memory shifts (bit 11 clear)
    and the bitfield instructions (bit 11 set). *)

(** The four shift types in the order of the encoding: arithmetic,
    logical, rotate through X, rotate. *)
Definition reg_shift_handler (kind dir : Z) : handler :=
  if kind =? 0 then (if dir =? 0 then fn_EMIT_ASR else fn_EMIT_ASL)
  else if kind =? 1 then (if dir =? 0 then fn_EMIT_LSR else fn_EMIT_LSL)
  else if kind =? 2 then (if dir =? 0 then fn_EMIT_ROXR else fn_EMIT_ROXL)
  else (if dir =? 0 then fn_EMIT_ROR else fn_EMIT_ROL).

Definition mem_shift_handler (kind dir : Z) : handler :=
  if kind =? 0 then (if dir =? 0 then fn_EMIT_ASR_mem else fn_EMIT_ASL_mem)
  else if kind =? 1 then (if dir =? 0 then fn_EMIT_LSR_mem else fn_EMIT_LSL_mem)
  else if kind =? 2 then (if dir =? 0 then fn_EMIT_ROXR_mem else fn_EMIT_ROXL_mem)
  else (if dir =? 0 then fn_EMIT_ROR_mem else fn_EMIT_ROL_mem).

(** The eight bitfield instructions by bits 8-10; [in_reg] holds for a
    field in a data register. *)
Definition bitfield_handler (op : Z) (in_reg : bool) : handler :=
  if op =? 0 then fn_EMIT_BFTST
  else if op =? 1 then fn_EMIT_BFEXTU
  else if op =? 2 then (if in_reg then fn_EMIT_BFCHG_reg else fn_EMIT_BFCHG)
  else if op =? 3 then fn_EMIT_BFEXTS
  else if op =? 4 then (if in_reg then fn_EMIT_BFCLR_reg else fn_EMIT_BFCLR)
  else if op =? 5 then (if in_reg then fn_EMIT_BFFFO_reg else fn_EMIT_BFFFO)
  else if op =? 6 then (if in_reg then fn_EMIT_BFSET_reg else fn_EMIT_BFSET)
  else (if in_reg then fn_EMIT_BFINS_reg else fn_EMIT_BFINS).

(** [BFTST], [BFEXTU], [BFEXTS] and [BFFFO] only read the field. *)
Definition bitfield_reads_only (op : Z) : bool :=
  (op =? 0) || (op =? 1) || (op =? 3) || (op =? 5).

(** The addressing modes the table accepts for a bitfield instruction:
    [Dn], [(An)], [(d16,An)], [(d8,An,Xn)], the two absolute modes, and
    the two modes relative to the program counter for the instructions
    that only read. *)
Definition bitfield_ea_ok (op ea : Z) : bool :=
  (ea .& 0x38 =? 0x00) || (ea .& 0x38 =? 0x10) || (ea .& 0x38 =? 0x28) ||
  (ea .& 0x38 =? 0x30) || (ea =? 0x38) || (ea =? 0x39) ||
  (bitfield_reads_only op && ((ea =? 0x3a) || (ea =? 0x3b))).

Definition handler_tag (f : handler) : Z :=
  match f with
  | fn_EMIT_ASR => 0 | fn_EMIT_LSR => 1 | fn_EMIT_ROXR => 2 | fn_EMIT_ROR => 3
  | fn_EMIT_ASR_mem => 4 | fn_EMIT_LSR_mem => 5 | fn_EMIT_ROXR_mem => 6
  | fn_EMIT_ROR_mem => 7
  | fn_EMIT_ASL => 8 | fn_EMIT_LSL => 9 | fn_EMIT_ROXL => 10 | fn_EMIT_ROL => 11
  | fn_EMIT_ASL_mem => 12 | fn_EMIT_LSL_mem => 13 | fn_EMIT_ROXL_mem => 14
  | fn_EMIT_ROL_mem => 15
  | fn_EMIT_BFTST => 16 | fn_EMIT_BFCHG_reg => 17 | fn_EMIT_BFCHG => 18
  | fn_EMIT_BFCLR_reg => 19 | fn_EMIT_BFCLR => 20 | fn_EMIT_BFSET_reg => 21
  | fn_EMIT_BFSET => 22 | fn_EMIT_BFEXTU => 23 | fn_EMIT_BFEXTS => 24
  | fn_EMIT_BFFFO_reg => 25 | fn_EMIT_BFFFO => 26 | fn_EMIT_BFINS_reg => 27
  | fn_EMIT_BFINS => 28
  end.

Definition handler_eqb (f g : handler) : bool :=
  handler_tag f =? handler_tag g.

(** The element has handler [f] and the three numbers after the flags. *)
Definition od_is (d : OpcodeDef) (f : handler) (len ea size : Z) : bool :=
  match od_Emit d with
  | Some g => handler_eqb g f
  | None => false
  end && (od_BaseLength d =? len) && (od_HasEA d =? ea) && (od_OpSize d =? size).

Definition od_unmapped (d : OpcodeDef) : bool :=
  match od_Emit d with
  | Some _ => false
  | None => true
  end.

(** The shifts and rotates that involve X. *)
Definition uses_X (f : handler) : bool :=
  match f with
  | fn_EMIT_ASR | fn_EMIT_ASL | fn_EMIT_LSR | fn_EMIT_LSL
  | fn_EMIT_ROXR | fn_EMIT_ROXL
  | fn_EMIT_ASR_mem | fn_EMIT_ASL_mem | fn_EMIT_LSR_mem | fn_EMIT_LSL_mem
  | fn_EMIT_ROXR_mem | fn_EMIT_ROXL_mem => true
  | _ => false
  end.

(** The flags fields the table gives a handler. *)
Definition flags_ok (d : OpcodeDef) : Prop :=
  match od_Emit d with
  | Some f =>
    if uses_X f
    then od_SRNeeds d = SR_X /\ od_SRSets d = SR_CCR
    else od_SRNeeds d = 0 /\ od_SRSets d = SR_NZVC
  | None => od_SRNeeds d = 0 /\ od_SRSets d = 0
  end.

(** ** Reports to the allocator, memory traffic, flags *)

(** The guest registers a trace reports as modified, through
    [RA_SetDirtyM68kRegister] or [RA_MapM68kRegisterForWrite]. *)
Definition dirtied (l : list item) : list Z :=
  flat_map (fun x => match x with
                     | RA_SetDirty n | RA_MapForWrite n => [n]
                     | _ => []
                     end) l.

(** What a handler reports, by handler: the register forms report the
    register in the low three bits of the opcode, the extracting
    instructions the register in bits 12-14 of the extension word; the
    memory forms and [BFTST] report none.  This is the bookkeeping of the
    allocator, not the set of registers the emitted code writes. *)
Definition reported_dirty (f : handler) (opcode opcode2 : Z) : list Z :=
  match f with
  | fn_EMIT_ASR | fn_EMIT_ASL | fn_EMIT_LSR | fn_EMIT_LSL
  | fn_EMIT_ROR | fn_EMIT_ROL | fn_EMIT_ROXR | fn_EMIT_ROXL
  | fn_EMIT_BFCHG_reg | fn_EMIT_BFCLR_reg | fn_EMIT_BFSET_reg
  | fn_EMIT_BFINS_reg => [opcode .& 7]
  | fn_EMIT_BFEXTU | fn_EMIT_BFEXTS | fn_EMIT_BFFFO_reg | fn_EMIT_BFFFO =>
    [(opcode2 >> 12) .& 7]
  | _ => []
  end.

(** The item involves the register of the condition codes: the call of
    [RA_ModifyCC], or an instruction or service that is given the
    register. *)
Definition mentions_cc (x : item) : bool :=
  match x with
  | RA_CC => true
  | Op _ args | Svc _ args => existsb (arg_eqb (R RegCC)) args
  | _ => false
  end.

(** The handlers that rotate through X read the flag whatever is to be
    updated. *)
Definition rotates_through_X (f : handler) : bool :=
  match f with
  | fn_EMIT_ROXR | fn_EMIT_ROXL | fn_EMIT_ROXR_mem | fn_EMIT_ROXL_mem => true
  | _ => false
  end.

(** How a bitfield handler treats its operand. *)
Inductive bitfield_access : Type :=
  | BF_register
  | BF_memory_read
  | BF_memory_modify.

Definition bitfield_access_of (f : handler) (opcode : Z)
  : option bitfield_access :=
  match f with
  | fn_EMIT_BFTST | fn_EMIT_BFEXTU | fn_EMIT_BFEXTS =>
    Some (if opcode .& 0x38 =? 0 then BF_register else BF_memory_read)
  | fn_EMIT_BFCHG_reg | fn_EMIT_BFCLR_reg | fn_EMIT_BFSET_reg
  | fn_EMIT_BFFFO_reg | fn_EMIT_BFINS_reg => Some BF_register
  | fn_EMIT_BFFFO => Some BF_memory_read
  | fn_EMIT_BFCHG | fn_EMIT_BFCLR | fn_EMIT_BFSET | fn_EMIT_BFINS =>
    Some BF_memory_modify
  | _ => None
  end.

(** The loads and stores of a bitfield handler, with the host register
    [tmp] holding the 64 bits around the field. *)
Definition bitfield_traffic (a : bitfield_access) (base tmp : hreg) : list item :=
  match a with
  | BF_register => []
  | BF_memory_read => [Op "ldr64_offset" [R base; R tmp; I 0]]
  | BF_memory_modify => [Op "ldr64_offset" [R base; R tmp; I 0];
                         Op "str64_offset" [R base; R tmp; I 0]]
  end.

(** The shift count of the immediate forms: the field 0 stands for 8. *)
Definition immediate_count (opcode : Z) : Z :=
  if (opcode >> 9) .& 7 =? 0 then 8 else (opcode >> 9) .& 7.

(** The host shift by a constant that the immediate forms of [EMIT_ASL],
    [EMIT_LSL] and [EMIT_ROL] use: a rotate to the left is a rotate to
    the right by 32 less the count. *)
Definition host_shift (f : handler) (opcode : Z) : string * Z :=
  let count := immediate_count opcode in
  let left := nz ((opcode >> 8) .& 1) in
  match f with
  | fn_EMIT_ROR | fn_EMIT_ROL => ("ror", if left then 32 - count else count)
  | fn_EMIT_ASR | fn_EMIT_ASL => (if left then "lsl" else "asr", count)
  | _ => (if left then "lsl" else "lsr", count)
  end.

(** Mnemonic and amount of a shift or rotate by a constant. *)
Definition constant_shift (x : item) : list (string * Z) :=
  match x with
  | Op m [_; _; I k] =>
    if String.eqb m "lsl" || String.eqb m "lsr" || String.eqb m "asr" ||
       String.eqb m "ror"
    then [(m, k)] else []
  | _ => []
  end.

(** What [GetSR_LineE] packs for an opcode. *)
Definition flags_needed (opcode : Z) : Z :=
  match od_Emit (InsnTable_entry (opcode .& 0xfff)) with
  | Some _ => od_SRNeeds (InsnTable_entry (opcode .& 0xfff))
  | None => SR_CCR
  end.

Definition flags_set (opcode : Z) : Z :=
  match od_Emit (InsnTable_entry (opcode .& 0xfff)) with
  | Some _ => od_SRSets (InsnTable_entry (opcode .& 0xfff))
  | None => 0
  end.

(** The five condition-code masks are bits of a 5-bit mask. *)
Definition flags_in_range : Prop :=
  0 <= SR_C < 32 /\ 0 <= SR_V < 32 /\ 0 <= SR_Z < 32 /\ 0 <= SR_N < 32 /\
  0 <= SR_X < 32.
End LineE.
(** ** A concrete set of collaborators

    A little-endian host with the condition codes of the 68k and of
    AArch64; a resolver and a length service that agree on the extension
    words of the addressing modes (one word for a 16-bit displacement, an
    index word or a short absolute address, two for a long absolute
    address); every service call leaves two words at the cursor. *)

Definition sample_ea_length (ea : Z) : Z :=
  if ea .& 0x38 =? 0x28 then 1
  else if ea .& 0x38 =? 0x30 then 1
  else if ea .& 0x38 =? 0x38 then (if ea .& 7 =? 1 then 2 else 1)
  else 0.

Definition sample_ext (mask : Z) : Externals := {|
  host_big_endian := false;
  SR_C := 0x01; SR_V := 0x02; SR_Z := 0x04; SR_N := 0x08; SR_X := 0x10;
  SRB_Z := 2; SRB_N := 3; SRB_X := 4;
  VECTOR_ILLEGAL_INSTRUCTION := 0x10;
  A64_CC_EQ := 0; A64_CC_NE := 1; A64_CC_CS := 2; A64_CC_MI := 4;
  ARM_CC_EQ := 0; ARM_CC_MI := 4;
  LSL := 0; LSR := 1; ASR := 2; ROR := 3;
  M68K_GetSRMask := fun _ _ => mask;
  SR_GetEALength := fun _ _ ea _ => sample_ea_length ea;
  EA_ext_words := fun _ _ ea k => k + sample_ea_length ea;
  GetNZxx_mask := fun m => m .& 0x13;
  svc_words := fun _ => 2
|}.

(** The same collaborators with an update mask that depends on the
    address of the instruction. *)
Definition sample_ext_masks (mask_at : Z -> Z) : Externals := {|
  host_big_endian := false;
  SR_C := 0x01; SR_V := 0x02; SR_Z := 0x04; SR_N := 0x08; SR_X := 0x10;
  SRB_Z := 2; SRB_N := 3; SRB_X := 4;
  VECTOR_ILLEGAL_INSTRUCTION := 0x10;
  A64_CC_EQ := 0; A64_CC_NE := 1; A64_CC_CS := 2; A64_CC_MI := 4;
  ARM_CC_EQ := 0; ARM_CC_MI := 4;
  LSL := 0; LSR := 1; ASR := 2; ROR := 3;
  M68K_GetSRMask := fun _ a => mask_at a;
  SR_GetEALength := fun _ _ ea _ => sample_ea_length ea;
  EA_ext_words := fun _ _ ea k => k + sample_ea_length ea;
  GetNZxx_mask := fun m => m .& 0x13;
  svc_words := fun _ => 2
|}.

(** Guest memory holding the given big-endian words from address 0 on, as
    a little-endian host reads it. *)
Definition guest_words (ws : list Z) (a : Z) : Z :=
  if a <? 0 then 0 else bswap16 (nth (Z.to_nat a) ws 0).


(** * md5.c: [CalcMD5] and [CalcCRC32]

    A pointer is a byte address.  [CalcMD5] reads memory in 32-bit words,
    as the host loads them; the branch of [CalcCRC32] for hosts other than
    AArch64 reads it in bytes (the AArch64 branch is inline assembly and is
    not embedded). *)

Module md5.
Section md5.
Context `{Externals}.

(** Conversion to [uint32_t], and the complement of a [uint32_t]. *)
Definition u32 (z : Z) : Z := z .& 0xffffffff.
Definition not32 (z : Z) : Z := z .^ 0xffffffff.

(** Modelled from the spec: [BE32] of [support.h], missing from the
    sources, stores a host word big-endian. *)
Definition BE32 (x : Z) : Z := if host_big_endian then x else bswap32 x.

Definition s : list Z := [
   7; 12; 17; 22; 7; 12; 17; 22; 7; 12; 17; 22; 7; 12; 17; 22;
   5; 9; 14; 20; 5; 9; 14; 20; 5; 9; 14; 20; 5; 9; 14; 20;
   4; 11; 16; 23; 4; 11; 16; 23; 4; 11; 16; 23; 4; 11; 16; 23;
   6; 10; 15; 21; 6; 10; 15; 21; 6; 10; 15; 21; 6; 10; 15; 21].

Definition K : list Z := [
   0xd76aa478; 0xe8c7b756; 0x242070db; 0xc1bdceee;
   0xf57c0faf; 0x4787c62a; 0xa8304613; 0xfd469501;
   0x698098d8; 0x8b44f7af; 0xffff5bb1; 0x895cd7be;
   0x6b901122; 0xfd987193; 0xa679438e; 0x49b40821;
   0xf61e2562; 0xc040b340; 0x265e5a51; 0xe9b6c7aa;
   0xd62f105d; 0x02441453; 0xd8a1e681; 0xe7d3fbc8;
   0x21e1cde6; 0xc33707d6; 0xf4d50d87; 0x455a14ed;
   0xa9e3e905; 0xfcefa3f8; 0x676f02d9; 0x8d2a4c8a;
   0xfffa3942; 0x8771f681; 0x6d9d6122; 0xfde5380c;
   0xa4beea44; 0x4bdecfa9; 0xf6bb4b60; 0xbebfbc70;
   0x289b7ec6; 0xeaa127fa; 0xd4ef3085; 0x04881d05;
   0xd9d4d039; 0xe6db99e5; 0x1fa27cf8; 0xc4ac5665;
   0xf4292244; 0x432aff97; 0xab9423a7; 0xfc93a039;
   0x655b59c3; 0x8f0ccc92; 0xffeff47d; 0x85845dd1;
   0x6fa87e4f; 0xfe2ce6e0; 0xa3014314; 0x4e0811a1;
   0xf7537e82; 0xbd3af235; 0x2ad7d2bb; 0xeb86d391].

Record MD5 : Type := mkMD5 { a : Z; b : Z; c : Z; d : Z }.

(** [prefetch (from, pad)]: the 16 words at [from] become the block. *)
Definition prefetch (mem : Z -> Z) (from : Z) : list Z :=
  (fun i => mem (from + 4 * Z.of_nat i)) <$> seq 0 16.

(** The word of the block that step [i] reads. *)
Definition g (i : Z) : Z :=
  if i <=? 15 then i
  else if i <=? 31 then (5 * i + 1) .& 15
  else if i <=? 47 then (3 * i + 5) .& 15
  else (7 * i) .& 15.

(** One pass of the inner loop. *)
Definition step (pad : list Z) (st : Z * Z * Z * Z) (i : Z) : Z * Z * Z * Z :=
  let '(A, B, C, D) := st in
  let F :=
    if i <=? 15 then (B .& C) .| (not32 B .& D)
    else if i <=? 31 then (D .& B) .| (not32 D .& C)
    else if i <=? 47 then B .^ C .^ D
    else C .^ (B .| not32 D) in
  let F := u32 (F + A + nth (Z.to_nat i) K 0 + nth (Z.to_nat (g i)) pad 0) in
  let si := nth (Z.to_nat i) s 0 in
  (D, u32 (B + (u32 (F << si) .| (F >> (32 - si)))), B, C).

(** The body of the outer loop up to the update of [md]. *)
Definition block (pad : list Z) (md : MD5) : MD5 :=
  let '(A, B, C, D) :=
    fold_left (step pad) (Z.of_nat <$> seq 0 64) (a md, b md, c md, d md) in
  mkMD5 (u32 (a md + A)) (u32 (b md + B)) (u32 (c md + C)) (u32 (d md + D)).

(** The block that follows the data: the mark, zeros, the start address
    and the length in bytes, both cut to 32 bits. *)
Definition trailer (_start _end : Z) : list Z :=
  [BE32 0x80000000] ++ repeat 0 13 ++ [u32 _start; u32 (_end - _start)].

(** The outer loop with [count] passes left; [M] and [E] are byte
    addresses. *)
Fixpoint passes (mem : Z -> Z) (_start _end E : Z) (count : nat)
    (md : MD5) (M : Z) (pad : list Z) : MD5 :=
  match count with
  | O => md
  | S count =>
    let md := block pad md in
    let M := M + 64 in
    let pad := if M =? E then trailer _start _end else prefetch mem M in
    passes mem _start _end E count md M pad
  end.

Definition CalcMD5 (mem : Z -> Z) (_start _end : Z) : MD5 :=
  let md := mkMD5 0x67452301 0xefcdab89 0x98badcfe 0x10325476 in
  let M := _start in
  let E := _start + ((_end - _start + 63) .& Z.lnot 63) in
  let count := u32 (1 + Z.quot (Z.quot (E - M) 4) 16) in
  passes mem _start _end E (Z.to_nat count) md M (prefetch mem M).

Definition crc32_table : list Z := [
   0x00000000; 0x77073096; 0xee0e612c; 0x990951ba; 0x076dc419; 0x706af48f;
   0xe963a535; 0x9e6495a3; 0x0edb8832; 0x79dcb8a4; 0xe0d5e91e; 0x97d2d988;
   0x09b64c2b; 0x7eb17cbd; 0xe7b82d07; 0x90bf1d91; 0x1db71064; 0x6ab020f2;
   0xf3b97148; 0x84be41de; 0x1adad47d; 0x6ddde4eb; 0xf4d4b551; 0x83d385c7;
   0x136c9856; 0x646ba8c0; 0xfd62f97a; 0x8a65c9ec; 0x14015c4f; 0x63066cd9;
   0xfa0f3d63; 0x8d080df5; 0x3b6e20c8; 0x4c69105e; 0xd56041e4; 0xa2677172;
   0x3c03e4d1; 0x4b04d447; 0xd20d85fd; 0xa50ab56b; 0x35b5a8fa; 0x42b2986c;
   0xdbbbc9d6; 0xacbcf940; 0x32d86ce3; 0x45df5c75; 0xdcd60dcf; 0xabd13d59;
   0x26d930ac; 0x51de003a; 0xc8d75180; 0xbfd06116; 0x21b4f4b5; 0x56b3c423;
   0xcfba9599; 0xb8bda50f; 0x2802b89e; 0x5f058808; 0xc60cd9b2; 0xb10be924;
   0x2f6f7c87; 0x58684c11; 0xc1611dab; 0xb6662d3d; 0x76dc4190; 0x01db7106;
   0x98d220bc; 0xefd5102a; 0x71b18589; 0x06b6b51f; 0x9fbfe4a5; 0xe8b8d433;
   0x7807c9a2; 0x0f00f934; 0x9609a88e; 0xe10e9818; 0x7f6a0dbb; 0x086d3d2d;
   0x91646c97; 0xe6635c01; 0x6b6b51f4; 0x1c6c6162; 0x856530d8; 0xf262004e;
   0x6c0695ed; 0x1b01a57b; 0x8208f4c1; 0xf50fc457; 0x65b0d9c6; 0x12b7e950;
   0x8bbeb8ea; 0xfcb9887c; 0x62dd1ddf; 0x15da2d49; 0x8cd37cf3; 0xfbd44c65;
   0x4db26158; 0x3ab551ce; 0xa3bc0074; 0xd4bb30e2; 0x4adfa541; 0x3dd895d7;
   0xa4d1c46d; 0xd3d6f4fb; 0x4369e96a; 0x346ed9fc; 0xad678846; 0xda60b8d0;
   0x44042d73; 0x33031de5; 0xaa0a4c5f; 0xdd0d7cc9; 0x5005713c; 0x270241aa;
   0xbe0b1010; 0xc90c2086; 0x5768b525; 0x206f85b3; 0xb966d409; 0xce61e49f;
   0x5edef90e; 0x29d9c998; 0xb0d09822; 0xc7d7a8b4; 0x59b33d17; 0x2eb40d81;
   0xb7bd5c3b; 0xc0ba6cad; 0xedb88320; 0x9abfb3b6; 0x03b6e20c; 0x74b1d29a;
   0xead54739; 0x9dd277af; 0x04db2615; 0x73dc1683; 0xe3630b12; 0x94643b84;
   0x0d6d6a3e; 0x7a6a5aa8; 0xe40ecf0b; 0x9309ff9d; 0x0a00ae27; 0x7d079eb1;
   0xf00f9344; 0x8708a3d2; 0x1e01f268; 0x6906c2fe; 0xf762575d; 0x806567cb;
   0x196c3671; 0x6e6b06e7; 0xfed41b76; 0x89d32be0; 0x10da7a5a; 0x67dd4acc;
   0xf9b9df6f; 0x8ebeeff9; 0x17b7be43; 0x60b08ed5; 0xd6d6a3e8; 0xa1d1937e;
   0x38d8c2c4; 0x4fdff252; 0xd1bb67f1; 0xa6bc5767; 0x3fb506dd; 0x48b2364b;
   0xd80d2bda; 0xaf0a1b4c; 0x36034af6; 0x41047a60; 0xdf60efc3; 0xa867df55;
   0x316e8eef; 0x4669be79; 0xcb61b38c; 0xbc66831a; 0x256fd2a0; 0x5268e236;
   0xcc0c7795; 0xbb0b4703; 0x220216b9; 0x5505262f; 0xc5ba3bbe; 0xb2bd0b28;
   0x2bb45a92; 0x5cb36a04; 0xc2d7ffa7; 0xb5d0cf31; 0x2cd99e8b; 0x5bdeae1d;
   0x9b64c2b0; 0xec63f226; 0x756aa39c; 0x026d930a; 0x9c0906a9; 0xeb0e363f;
   0x72076785; 0x05005713; 0x95bf4a82; 0xe2b87a14; 0x7bb12bae; 0x0cb61b38;
   0x92d28e9b; 0xe5d5be0d; 0x7cdcefb7; 0x0bdbdf21; 0x86d3d2d4; 0xf1d4e242;
   0x68ddb3f8; 0x1fda836e; 0x81be16cd; 0xf6b9265b; 0x6fb077e1; 0x18b74777;
   0x88085ae6; 0xff0f6a70; 0x66063bca; 0x11010b5c; 0x8f659eff; 0xf862ae69;
   0x616bffd3; 0x166ccf45; 0xa00ae278; 0xd70dd2ee; 0x4e048354; 0x3903b3c2;
   0xa7672661; 0xd06016f7; 0x4969474d; 0x3e6e77db; 0xaed16a4a; 0xd9d65adc;
   0x40df0b66; 0x37d83bf0; 0xa9bcae53; 0xdebb9ec5; 0x47b2cf7f; 0x30b5ffe9;
   0xbdbdf21c; 0xcabac28a; 0x53b39330; 0x24b4a3a6; 0xbad03605; 0xcdd70693;
   0x54de5729; 0x23d967bf; 0xb3667a2e; 0xc4614ab8; 0x5d681b02; 0x2a6f2b94;
   0xb40bbe37; 0xc30c8ea1; 0x5a05df1b; 0x2d02ef8d].

(** One pass of the loop of [CalcCRC32]: [crc] and the byte read. *)
Definition crc32_byte (crc byte : Z) : Z :=
  nth (Z.to_nat ((crc .^ byte) .& 0xff)) crc32_table 0 .^ (crc >> 8).

Fixpoint crc32_loop (mem : Z -> Z) (n : nat) (s0 crc : Z) : Z :=
  match n with
  | O => crc
  | S n => crc32_loop mem n (s0 + 1) (crc32_byte crc (mem s0 .& 0xff))
  end.

(** [while (s < e)]: the loop runs [e - s] times, and not at all when
    [e <= s]. *)
Definition CalcCRC32 (mem : Z -> Z) (_start _end : Z) : Z :=
  crc32_loop mem (Z.to_nat (_end - _start)) _start 0xffffffff.

(** ** Reference definitions for the statements *)

(** One bit of the division by the reflected polynomial [0xedb88320]. *)
Definition crc32_bit (x : Z) : Z :=
  (x >> 1) .^ (if Z.odd x then 0xedb88320 else 0).

(** The blocks of 64 bytes that cover [len] bytes from [_start]. *)
Definition data_blocks (mem : Z -> Z) (_start len : Z) : list (list Z) :=
  (fun k => prefetch mem (_start + 64 * Z.of_nat k)) <$>
  seq 0 (Z.to_nat ((len + 63) / 64)).

(** The 16 steps of the round that step [i] belongs to. *)
Definition round_of (i : Z) : list Z :=
  Z.of_nat <$> seq (16 * Z.to_nat (i / 16)) 16.

Definition md5_init : MD5 := mkMD5 0x67452301 0xefcdab89 0x98badcfe 0x10325476.

End md5.
End md5.
(** ** Proof automation *)

(** [run] executes the monadic operations on a known state; [split_ifs]
    follows every branch of a handler; [by_cases] closes a goal that holds
    by computation on each branch. *)
Ltac run :=
  cbv beta iota zeta delta
    [exec bind ret skip put emit fresh RA_AllocARMRegister
     RA_CopyFromM68kRegister RA_FreeARMRegister RA_MapM68kRegister
     RA_MapM68kRegisterForWrite RA_SetDirtyM68kRegister RA_ModifyCC
     EMIT_LoadFromEffectiveAddress EMIT_AdvancePC EMIT_FlushPC EMIT_GetNZ00
     EMIT_GetNZxx EMIT_SetFlagsConditional EMIT_Exception
     EMIT_InjectDebugString fetch16 GetSRMask advance_m68k_ptr get_m68k_ptr
     cursor words_from patch code ra_next m68k_mem m68k_ptr fst snd start].

Ltac split_ifs :=
  run;
  repeat (match goal with
          | |- context [if ?c then _ else _] => destruct c eqn:?
          end; run).

Ltac by_cases := split_ifs; vm_compute; reflexivity.

(** * Properties *)

(** ** Numbers of 12 and 16 bits *)

Lemma all_bits_spec (k : nat) (P : Z -> bool) :
  all_bits k P = true -> forall z, 0 <= z < 2 ^ Z.of_nat k -> P z = true.
Proof.
  revert P. induction k as [|k IH]; intros P HP z Hz.
  - simpl in HP. replace z with 0 by (simpl in Hz; lia). exact HP.
  - simpl in HP. apply andb_true_iff in HP. destruct HP as [H0 H1].
    rewrite Nat2Z.inj_succ, Z.pow_succ_r in Hz by lia.
    destruct (Z.eq_dec (z mod 2) 0) as [E|E].
    + replace z with (2 * (z / 2)) by (rewrite (Z.div_mod z 2) at 2; lia).
      apply (IH _ H0). split; [apply Z.div_pos; lia|].
      apply Z.div_lt_upper_bound; lia.
    + assert (z mod 2 = 1) by (pose proof (Z.mod_pos_bound z 2); lia).
      replace z with (2 * (z / 2) + 1) by (rewrite (Z.div_mod z 2) at 2; lia).
      apply (IH _ H1). split; [apply Z.div_pos; lia|].
      apply Z.div_lt_upper_bound; lia.
Qed.

Lemma land_fff_range (z : Z) : 0 <= z .& 0xfff < 4096.
Proof.
  change 0xfff with (Z.ones 12). rewrite Z.land_ones by lia.
  apply Z.mod_pos_bound. lia.
Qed.

Lemma u16_range (z : Z) : 0 <= u16 z < 65536.
Proof.
  unfold u16. change 0xffff with (Z.ones 16). rewrite Z.land_ones by lia.
  apply Z.mod_pos_bound. lia.
Qed.

Lemma bswap16_range (z : Z) : 0 <= bswap16 z < 65536.
Proof. apply u16_range. Qed.

Lemma land_fff_land (z m : Z) :
  0 <= m < 4096 -> (z .& 0xfff) .& m = z .& m.
Proof.
  intros Hm. rewrite <- Z.land_assoc. f_equal.
  change 0xfff with (Z.ones 12). rewrite Z.land_comm, Z.land_ones by lia.
  apply Z.mod_small. lia.
Qed.

Section Table.
Context `{Externals}.

Lemma BE16_range (z : Z) : 0 <= BE16 (u16 z) < 65536.
Proof.
  unfold BE16. destruct host_big_endian.
  - apply u16_range.
  - apply bswap16_range.
Qed.

(** The table has 4096 elements and an index masked to 12 bits is inside
    it. *)
Lemma InsnTable_length : length InsnTable = 4096%nat.
Proof. unfold InsnTable. rewrite length_fmap, length_seq. reflexivity. Qed.

Lemma InsnTable_at_entry (i : Z) :
  0 <= i < 4096 -> InsnTable_at i = Some (InsnTable_entry i).
Proof.
  intros Hi. unfold InsnTable_at, InsnTable.
  destruct (i <? 0) eqn:E; [lia|].
  rewrite list_lookup_fmap, lookup_seq_lt by lia.
  simpl. f_equal. f_equal. lia.
Qed.

Lemma InsnTable_at_masked (opcode : Z) :
  InsnTable_at (opcode .& 0xfff) = Some (InsnTable_entry (opcode .& 0xfff)).
Proof. apply InsnTable_at_entry, land_fff_range. Qed.

Lemma InsnTable_at_outside (i : Z) :
  i < 0 \/ 4096 <= i -> InsnTable_at i = None.
Proof.
  intros Hi. unfold InsnTable_at. destruct (i <? 0) eqn:E; [reflexivity|].
  apply lookup_ge_None. rewrite InsnTable_length. lia.
Qed.

(** For an opcode with a handler, [M68K_GetLineELength] is [length_of]
    at the table element. *)
Lemma GetLineELength_handler (mem : Z -> Z) (a : Z) (f : handler) :
  od_Emit (InsnTable_entry (word_at mem a .& 0xfff)) = Some f ->
  M68K_GetLineELength mem a =
    Some (length_of mem a (word_at mem a)
                    (InsnTable_entry (word_at mem a .& 0xfff))).
Proof.
  unfold word_at, length_of, M68K_GetLineELength. intros Hf.
  rewrite InsnTable_at_masked, Hf.
  destruct (nz (od_HasEA _)); [reflexivity|].
  rewrite Z.add_0_r. reflexivity.
Qed.

(** A property of index and element that a computation checks on the
    4096 elements holds for each of them. *)
Lemma table_forall (P : Z -> OpcodeDef -> bool) :
  (let init := InsnTable_init in
   all_bits 12 (fun i => P i (range_lookup init i))) = true ->
  forall i, 0 <= i < 4096 -> P i (InsnTable_entry i) = true.
Proof.
  intros Hall i Hi.
  exact (all_bits_spec 12 (fun i => P i (InsnTable_entry i)) Hall i Hi).
Qed.

End Table.

(** ** Metadata queries *)

Section Metadata.
Context `{Externals}.

(** C6: for every opcode, [GetSR_LineE] reads the table at the opcode
    masked to 12 bits, which is an index inside the 4096 elements, and
    returns the needed flags shifted left by 16 or-ed with the flags set
    when the element has a handler, and all five flags shifted left by 16,
    with no flag set, when it has none. *)
Theorem GetSR_LineE_flags (opcode : Z) :
  0 <= opcode .& 0xfff < 4096 /\
  InsnTable_at (opcode .& 0xfff) = Some (InsnTable_entry (opcode .& 0xfff)) /\
  GetSR_LineE opcode =
    Some (match od_Emit (InsnTable_entry (opcode .& 0xfff)) with
          | Some _ =>
            (od_SRNeeds (InsnTable_entry (opcode .& 0xfff)) << 16) .|
            od_SRSets (InsnTable_entry (opcode .& 0xfff))
          | None => ((SR_X .| SR_N .| SR_Z .| SR_V .| SR_C) << 16) .| 0
          end).
Proof.
  split; [apply land_fff_range|]. split; [apply InsnTable_at_masked|].
  unfold GetSR_LineE. rewrite InsnTable_at_masked.
  destruct (od_Emit _); [reflexivity|].
  rewrite Z.lor_0_r. reflexivity.
Qed.

(** C7: for a mapped opcode, [M68K_GetLineELength] returns the base length
    of the table element, plus, exactly when its needs-EA flag is set, the
    length [SR_GetEALength] computes at the stream position base-length
    words after the opcode, for the low six bits of the opcode and the
    operand size of the element. *)
Theorem GetLineELength_mapped (mem : Z -> Z) (a : Z) (f : handler) :
  let opcode := BE16 (u16 (mem a)) in
  let d := InsnTable_entry (opcode .& 0xfff) in
  od_Emit d = Some f ->
  M68K_GetLineELength mem a =
    Some (od_BaseLength d +
          if nz (od_HasEA d)
          then SR_GetEALength mem (a + od_BaseLength d) (opcode .& 0x3f)
                              (od_OpSize d)
          else 0).
Proof.
  intros opcode d Hf.
  exact (GetLineELength_handler mem a f Hf).
Qed.

(** C10: for an opcode without handler, [M68K_GetLineELength] returns 0:
    length, needs-EA flag and operand size keep their initial zero and the
    effective-address length is not added. *)
Theorem GetLineELength_unmapped (mem : Z -> Z) (a : Z) :
  od_Emit (InsnTable_entry (BE16 (u16 (mem a)) .& 0xfff)) = None ->
  M68K_GetLineELength mem a = Some 0.
Proof.
  intros Hf. unfold M68K_GetLineELength.
  rewrite InsnTable_at_masked, Hf. reflexivity.
Qed.

End Metadata.

(** [ASL.W (A0)] at address 0 is mapped: one word, and no extension word
    for the addressing mode. *)
Lemma GetLineELength_mapped_witness :
  od_Emit (InsnTable_entry (H := sample_ext 0x1f) (0xe1d0 .& 0xfff)) =
    Some fn_EMIT_ASL_mem /\
  M68K_GetLineELength (H := sample_ext 0x1f) (guest_words [0xe1d0]) 0 = Some 1.
Proof.
  split; [vm_compute; reflexivity|].
  apply (GetLineELength_mapped (H := sample_ext 0x1f) (guest_words [0xe1d0]) 0
           fn_EMIT_ASL_mem).
  vm_compute; reflexivity.
Defined.

(** [0xe0c0] has no handler. *)
Lemma GetLineELength_unmapped_witness :
  od_Emit (InsnTable_entry (H := sample_ext 0x1f) (0xe0c0 .& 0xfff)) = None /\
  M68K_GetLineELength (H := sample_ext 0x1f) (guest_words [0xe0c0]) 0 = Some 0.
Proof.
  split; [vm_compute; reflexivity|].
  apply (GetLineELength_unmapped (H := sample_ext 0x1f) (guest_words [0xe0c0]) 0).
  vm_compute; reflexivity.
Defined.

(** ** Every handler, on every opcode *)

Section Handlers.
Context `{Externals}.
Variables (mem : Z -> Z) (q opcode : Z).

Tactic Notation "sound" reference(body) :=
  unfold handler_sound, handler_fn, consumed_words, ea_words, body;
  split_ifs; (split; [vm_compute; reflexivity | lia]).

Lemma sound_ASL_mem : handler_sound mem q opcode fn_EMIT_ASL_mem.
Proof. sound EMIT_ASL_mem. Qed.
Lemma sound_LSL_mem : handler_sound mem q opcode fn_EMIT_LSL_mem.
Proof. sound EMIT_LSL_mem. Qed.
Lemma sound_ROXL_mem : handler_sound mem q opcode fn_EMIT_ROXL_mem.
Proof. sound EMIT_ROXL_mem. Qed.
Lemma sound_ROL_mem : handler_sound mem q opcode fn_EMIT_ROL_mem.
Proof. sound EMIT_ROL_mem. Qed.
Lemma sound_ASL : handler_sound mem q opcode fn_EMIT_ASL.
Proof. sound EMIT_ASL. Qed.
Lemma sound_LSL : handler_sound mem q opcode fn_EMIT_LSL.
Proof. sound EMIT_LSL. Qed.
Lemma sound_ROL : handler_sound mem q opcode fn_EMIT_ROL.
Proof. sound EMIT_ROL. Qed.
Lemma sound_ROXL : handler_sound mem q opcode fn_EMIT_ROXL.
Proof. sound EMIT_ROXL. Qed.
Lemma sound_BFTST : handler_sound mem q opcode fn_EMIT_BFTST.
Proof. sound EMIT_BFTST. Qed.
Lemma sound_BFEXTU : handler_sound mem q opcode fn_EMIT_BFEXTU.
Proof. sound EMIT_BFEXTU. Qed.
Lemma sound_BFEXTS : handler_sound mem q opcode fn_EMIT_BFEXTS.
Proof. sound EMIT_BFEXTS. Qed.
Lemma sound_BFFFO_reg : handler_sound mem q opcode fn_EMIT_BFFFO_reg.
Proof. sound EMIT_BFFFO_reg. Qed.
Lemma sound_BFFFO : handler_sound mem q opcode fn_EMIT_BFFFO.
Proof. sound EMIT_BFFFO. Qed.
Lemma sound_BFCHG_reg : handler_sound mem q opcode fn_EMIT_BFCHG_reg.
Proof. sound EMIT_BFCHG_reg. Qed.
Lemma sound_BFCHG : handler_sound mem q opcode fn_EMIT_BFCHG.
Proof. sound EMIT_BFCHG. Qed.
Lemma sound_BFSET_reg : handler_sound mem q opcode fn_EMIT_BFSET_reg.
Proof. sound EMIT_BFSET_reg. Qed.
Lemma sound_BFSET : handler_sound mem q opcode fn_EMIT_BFSET.
Proof. sound EMIT_BFSET. Qed.
Lemma sound_BFCLR_reg : handler_sound mem q opcode fn_EMIT_BFCLR_reg.
Proof. sound EMIT_BFCLR_reg. Qed.
Lemma sound_BFCLR : handler_sound mem q opcode fn_EMIT_BFCLR.
Proof. sound EMIT_BFCLR. Qed.
Lemma sound_BFINS_reg : handler_sound mem q opcode fn_EMIT_BFINS_reg.
Proof. sound EMIT_BFINS_reg. Qed.
Lemma sound_BFINS : handler_sound mem q opcode fn_EMIT_BFINS.
Proof. sound EMIT_BFINS. Qed.

Lemma handlers_sound (f : handler) : handler_sound mem q opcode f.
Proof.
  destruct f.
  - exact sound_ASL.
  - exact sound_LSL.
  - exact sound_ROXL.
  - exact sound_ROL.
  - exact sound_ASL_mem.
  - exact sound_LSL_mem.
  - exact sound_ROXL_mem.
  - exact sound_ROL_mem.
  - exact sound_ASL.
  - exact sound_LSL.
  - exact sound_ROXL.
  - exact sound_ROL.
  - exact sound_ASL_mem.
  - exact sound_LSL_mem.
  - exact sound_ROXL_mem.
  - exact sound_ROL_mem.
  - exact sound_BFTST.
  - exact sound_BFCHG_reg.
  - exact sound_BFCHG.
  - exact sound_BFCLR_reg.
  - exact sound_BFCLR.
  - exact sound_BFSET_reg.
  - exact sound_BFSET.
  - exact sound_BFEXTU.
  - exact sound_BFEXTS.
  - exact sound_BFFFO_reg.
  - exact sound_BFFFO.
  - exact sound_BFINS_reg.
  - exact sound_BFINS.
Qed.

End Handlers.

(** ** The entry point *)

Section Entry.
Context `{Externals}.
Variables (mem : Z -> Z) (p : Z).

Lemma word_at_range (a : Z) : 0 <= word_at mem a < 65536.
Proof. apply BE16_range. Qed.

(** Without the special case, [EMIT_lineE] stores 1 in [insn_consumed] and
    either runs the handler of the table element, with the read pointer
    after the opcode, or leaves the trap sequence. *)
Lemma EMIT_lineE_dispatch :
  fused mem p = false ->
  EMIT_lineE (start mem p) =
    match od_Emit (InsnTable_entry (word_at mem p .& 0xfff)) with
    | Some f =>
      (Some 1, exec (handler_fn f (word_at mem p)) (start mem (p + 1)))
    | None =>
      (Some 1, mkJit (trap_code (word_at mem p) p) 0 mem (p + 1))
    end.
Proof.
  intros Hf. unfold fused, word_at in Hf. unfold EMIT_lineE. run.
  rewrite !Z.add_0_r. replace (p + 1 + 0) with (p + 1) by lia.
  replace (p + 1 + 1) with (p + 2) by lia.
  rewrite Hf, InsnTable_at_masked. unfold word_at.
  destruct (od_Emit _) as [f|].
  - destruct (handler_fn f _ _) as [u s]. reflexivity.
  - unfold trap_code, INSN_TO_LE.
    replace (p + 1 - 1) with p by lia.
    destruct host_big_endian; reflexivity.
Qed.

End Entry.

(** ** The byte-reverse special case *)

Section Fused.
Context `{Externals}.
Variables (mem : Z -> Z) (p : Z).

(** With the special case, [EMIT_lineE] stores 3 in [insn_consumed], emits
    one byte-reverse instruction on the register of the opcode, advances
    the program counter once, by 6 bytes, moves the read pointer past the
    three words and keeps the scratch discipline. *)
Lemma EMIT_lineE_fused :
  fused mem p = true ->
  fst (EMIT_lineE (start mem p)) = Some 3 /\
  summary (snd (EMIT_lineE (start mem p))) =
    (true, [6],
     [Op "rev" [R (M68kReg (word_at mem p .& 7));
                R (M68kReg (word_at mem p .& 7))]]) /\
  m68k_ptr (snd (EMIT_lineE (start mem p))) = p + 3.
Proof.
  intros Hf. unfold fused, word_at in Hf. unfold EMIT_lineE. run.
  rewrite !Z.add_0_r. replace (p + 1 + 0) with (p + 1) by lia.
  replace (p + 1 + 1) with (p + 2) by lia.
  rewrite Hf. unfold word_at. clear Hf.
  generalize (BE16 (u16 (mem p)) .& 7) as r.
  generalize (u8 (M68K_GetSRMask mem (p + 1 + -1))) as m. intros m r.
  split_ifs; (split; [reflexivity | split; [vm_compute; reflexivity | lia]]).
Qed.

End Fused.
(** ** Opcodes without handler *)

Section Trap.
Context `{Externals}.
Variables (mem : Z -> Z) (p : Z).

(** An opcode that takes the special case has a handler. *)
Lemma rot8_is_mapped (w : Z) :
  w .& 0xfef8 = 0xe058 ->
  od_Emit (InsnTable_entry (w .& 0xfff)) <> None.
Proof.
  intros Hm.
  pose proof (table_forall
    (fun i d => implb (i .& 0xef8 =? 0x058)
                      (match od_Emit d with Some _ => true | None => false end))
    ltac:(vm_compute; reflexivity) _ (land_fff_range w)) as Hb.
  cbv beta in Hb.
  assert ((w .& 0xfff) .& 0xef8 = 0x058) as E.
  { rewrite land_fff_land by lia.
    change 0xef8 with (0xfef8 .& 0xfff).
    rewrite Z.land_assoc, Hm. reflexivity. }
  rewrite E in Hb. change (0x058 =? 0x058) with true in Hb.
  cbv beta iota delta [implb] in Hb.
  destruct (od_Emit _); [discriminate|discriminate].
Qed.

Lemma unmapped_not_fused :
  od_Emit (InsnTable_entry (word_at mem p .& 0xfff)) = None ->
  fused mem p = false.
Proof.
  intros Hn. unfold fused.
  destruct (word_at mem p .& 0xfef8 =? 0xe058) eqn:E; [|reflexivity].
  apply Z.eqb_eq in E.
  destruct (rot8_is_mapped _ E Hn).
Qed.

(** C5: for an opcode whose table element has no handler, [EMIT_lineE]
    flushes the deferred program counter, leaves a diagnostic record with
    the opcode and its guest address, the illegal-instruction exception
    sequence, and one all-ones word as the last word; nothing else is
    left at the cursor, so no handler has run, and [insn_consumed] is 1. *)
Theorem unmapped_opcode_traps :
  od_Emit (InsnTable_entry (word_at mem p .& 0xfff)) = None ->
  fst (EMIT_lineE (start mem p)) = Some 1 /\
  code (snd (EMIT_lineE (start mem p))) =
    [PC_Flush;
     Svc "EMIT_InjectDebugString: [JIT] opcode %04x at %08x not implemented\n"
         [I (word_at mem p); I p];
     Svc "EMIT_Exception" [I VECTOR_ILLEGAL_INSTRUCTION; I 0];
     Raw 0xffffffff] /\
  last (code (snd (EMIT_lineE (start mem p)))) = Some (Raw 0xffffffff) /\
  List.filter (fun x => match x with Raw _ => true | _ => false end)
              (code (snd (EMIT_lineE (start mem p)))) = [Raw 0xffffffff] /\
  pc_advances (code (snd (EMIT_lineE (start mem p)))) = [].
Proof.
  intros Hn. rewrite (EMIT_lineE_dispatch mem p (unmapped_not_fused Hn)), Hn.
  repeat split; reflexivity.
Qed.

End Trap.

(** [0xe0c0] at address 0 has no handler. *)
Lemma unmapped_opcode_traps_witness :
  od_Emit (InsnTable_entry (H := sample_ext 0x1f)
             (word_at (H := sample_ext 0x1f) (guest_words [0xe0c0]) 0 .& 0xfff))
    = None /\
  code (snd (EMIT_lineE (H := sample_ext 0x1f)
               (start (guest_words [0xe0c0]) 0))) =
    [PC_Flush;
     Svc "EMIT_InjectDebugString: [JIT] opcode %04x at %08x not implemented\n"
         [I 0xe0c0; I 0];
     Svc "EMIT_Exception" [I 0x10; I 0];
     Raw 0xffffffff].
Proof.
  split; [vm_compute; reflexivity|].
  apply (unmapped_opcode_traps (H := sample_ext 0x1f) (guest_words [0xe0c0]) 0).
  vm_compute; reflexivity.
Defined.

(** ** Scratch registers and the program counter *)

Section Discipline.
Context `{Externals}.

Lemma summary_inv (s : jit) (b : bool) (l : list Z) (r : list item) :
  summary s = (b, l, r) ->
  discipline [] (code s) = b /\ pc_advances (code s) = l /\
  ops "rev" (code s) = r.
Proof. unfold summary. intros E. inversion E. auto. Qed.

(** C9: in every run of every handler, on every opcode, every scratch
    register acquired from the allocator (also through a copy of a guest
    register or through the effective-address resolver) is released
    exactly once before the handler returns, and no scratch register stays
    acquired; the same holds for a call of the entry point, whichever path
    it takes. *)
Theorem scratch_registers_released (mem : Z -> Z) (q opcode : Z) (f : handler) :
  discipline [] (code (exec (handler_fn f opcode) (start mem q))) = true /\
  discipline [] (code (snd (EMIT_lineE (start mem q)))) = true.
Proof.
  split.
  - destruct (handlers_sound mem q opcode f) as [Hs _].
    apply summary_inv in Hs. tauto.
  - destruct (fused mem q) eqn:Hf.
    + destruct (EMIT_lineE_fused mem q Hf) as (_ & Hs & _).
      apply summary_inv in Hs. tauto.
    + rewrite (EMIT_lineE_dispatch mem q Hf).
      destruct (od_Emit _) as [g|]; [|reflexivity].
      destruct (handlers_sound mem (q + 1) (word_at mem q) g) as [Hs _].
      apply summary_inv in Hs. tauto.
Qed.

(** The table agrees with the handlers on the words of an instruction. *)
Lemma table_is_ok (i : Z) : 0 <= i < 4096 -> table_ok i = true.
Proof.
  intros Hi.
  exact (table_forall
    (fun i d =>
       match od_Emit d with
       | None => true
       | Some f =>
         match f with
         | fn_EMIT_ASR | fn_EMIT_ASL | fn_EMIT_LSR | fn_EMIT_LSL
         | fn_EMIT_ROR | fn_EMIT_ROL | fn_EMIT_ROXR | fn_EMIT_ROXL =>
           (od_BaseLength d =? 1) && (od_HasEA d =? 0)
         | fn_EMIT_ASR_mem | fn_EMIT_ASL_mem | fn_EMIT_LSR_mem
         | fn_EMIT_LSL_mem | fn_EMIT_ROR_mem | fn_EMIT_ROL_mem
         | fn_EMIT_ROXR_mem | fn_EMIT_ROXL_mem =>
           (od_BaseLength d =? 1) && nz (od_HasEA d) && (i .& 0x3f <? 0x3c)
         | fn_EMIT_BFTST | fn_EMIT_BFEXTU | fn_EMIT_BFEXTS =>
           (od_BaseLength d =? 2) &&
           (if i .& 0x0038 =? 0 then od_HasEA d =? 0 else with_ea i d)
         | fn_EMIT_BFFFO_reg | fn_EMIT_BFCHG_reg | fn_EMIT_BFSET_reg
         | fn_EMIT_BFCLR_reg | fn_EMIT_BFINS_reg =>
           (od_BaseLength d =? 2) && (od_HasEA d =? 0)
         | fn_EMIT_BFFFO | fn_EMIT_BFCHG | fn_EMIT_BFSET | fn_EMIT_BFCLR
         | fn_EMIT_BFINS =>
           (od_BaseLength d =? 2) && with_ea i d
         end
       end)
    ltac:(vm_compute; reflexivity) i Hi).
Qed.

Section Agreement.
(** The resolver and the length service agree on the extension words of
    an addressing mode other than the immediate one, and the mode [(An)]
    has none. *)
Hypothesis ea_agree : forall mem q ea k opsize,
  0 <= ea < 0x3c ->
  EA_ext_words mem q ea k = k + SR_GetEALength mem (q + k) ea opsize.
Hypothesis ea_indirect : forall mem q ea k,
  ea .& 0x38 = 0x10 -> EA_ext_words mem q ea k = k.

Variables (mem : Z -> Z) (p : Z).

Lemma land_3f_range (z : Z) : 0 <= z .& 0x3f.
Proof. apply Z.land_nonneg. right. lia. Qed.

Lemma length_no_ea (opcode : Z) (d : OpcodeDef) (n : Z) :
  (od_BaseLength d =? n) && (od_HasEA d =? 0) = true ->
  length_of mem p opcode d = n.
Proof.
  intros Hok. apply andb_true_iff in Hok. destruct Hok as [Hb He].
  apply Z.eqb_eq in Hb. apply Z.eqb_eq in He.
  unfold length_of, nz. rewrite Hb, He. simpl. lia.
Qed.

Lemma length_mem_shift (opcode : Z) (d : OpcodeDef) :
  (od_BaseLength d =? 1) && nz (od_HasEA d) &&
  ((opcode .& 0xfff) .& 0x3f <? 0x3c) = true ->
  length_of mem p opcode d = ea_words mem (p + 1) opcode 0 + 1.
Proof.
  intros Hok. apply andb_true_iff in Hok. destruct Hok as [Hok Hlt].
  apply andb_true_iff in Hok. destruct Hok as [Hb He].
  apply Z.eqb_eq in Hb. apply Z.ltb_lt in Hlt.
  rewrite land_fff_land in Hlt by lia.
  unfold length_of, ea_words. rewrite Hb, He.
  rewrite (ea_agree mem (p + 1) _ 0 (od_OpSize d))
    by (pose proof (land_3f_range opcode); lia).
  replace (p + 1 + 0) with (p + 1) by lia. lia.
Qed.

Lemma length_with_ea (opcode : Z) (d : OpcodeDef) :
  (od_BaseLength d =? 2) && with_ea (opcode .& 0xfff) d = true ->
  length_of mem p opcode d = ea_words mem (p + 1) opcode 1 + 1.
Proof.
  intros Hok. apply andb_true_iff in Hok. destruct Hok as [Hb Hw].
  apply Z.eqb_eq in Hb. unfold with_ea in Hw.
  rewrite !land_fff_land in Hw by lia.
  unfold length_of, ea_words. rewrite Hb.
  apply orb_true_iff in Hw. destruct Hw as [Hw|Hw];
    apply andb_true_iff in Hw; destruct Hw as [Ha Hc].
  - rewrite Ha. apply Z.ltb_lt in Hc.
    rewrite (ea_agree mem (p + 1) _ 1 (od_OpSize d))
      by (pose proof (land_3f_range opcode); lia).
    replace (p + 1 + 1) with (p + 2) by lia. lia.
  - apply Z.eqb_eq in Ha. apply Z.eqb_eq in Hc.
    unfold nz. rewrite Ha. simpl.
    rewrite ea_indirect; [lia|].
    rewrite <- Z.land_assoc. exact Hc.
Qed.

(** The words a handler consumes are the length of the instruction less
    the opcode word. *)
Lemma consumed_is_length (f : handler) :
  od_Emit (InsnTable_entry (word_at mem p .& 0xfff)) = Some f ->
  M68K_GetLineELength mem p =
    Some (consumed_words f mem (p + 1) (word_at mem p) + 1).
Proof.
  intros Hf. rewrite (GetLineELength_handler mem p f Hf).
  pose proof (table_is_ok _ (land_fff_range (word_at mem p))) as Hok.
  unfold table_ok in Hok. rewrite Hf in Hok.
  set (opcode := word_at mem p) in *.
  set (d := InsnTable_entry (opcode .& 0xfff)) in *.
  f_equal.
  destruct f; cbv beta iota delta [consumed_words];
    try (apply (length_no_ea opcode d _ Hok));
    try (apply (length_mem_shift opcode d Hok));
    try (apply (length_with_ea opcode d Hok)).
  all: rewrite land_fff_land in Hok by lia.
  all: apply andb_true_iff in Hok; destruct Hok as [Hb Hw].
  all: destruct (opcode .& 0x0038 =? 0);
    [ apply (length_no_ea opcode d 2); rewrite Hb, Hw; reflexivity
    | apply length_with_ea; rewrite Hb, Hw; reflexivity ].
Qed.

(** C2: a handler advances the program counter once, by twice the words
    it consumed plus the opcode; called from the entry point for a mapped
    opcode, the words consumed after the opcode are the length
    [M68K_GetLineELength] gives for the instruction less 1, and a register
    shift advances by 2 bytes; the special case advances by 6 bytes. *)
Theorem pc_advance_exact :
  (forall (f : handler) (opcode q : Z),
     let s := exec (handler_fn f opcode) (start mem q) in
     pc_advances (code s) = [2 * (1 + (m68k_ptr s - q))]) /\
  (fused mem p = true ->
   pc_advances (code (snd (EMIT_lineE (start mem p)))) = [6]) /\
  (forall f : handler,
     fused mem p = false ->
     od_Emit (InsnTable_entry (word_at mem p .& 0xfff)) = Some f ->
     let s := snd (EMIT_lineE (start mem p)) in
     let n := m68k_ptr s - (p + 1) in
     pc_advances (code s) = [2 * (1 + n)] /\
     M68K_GetLineELength mem p = Some (n + 1) /\
     (is_reg_shift f = true -> pc_advances (code s) = [2])).
Proof.
  assert (forall (f : handler) (opcode q : Z),
            let s := exec (handler_fn f opcode) (start mem q) in
            pc_advances (code s) = [2 * (1 + (m68k_ptr s - q))] /\
            m68k_ptr s - q = consumed_words f mem q opcode) as Hh.
  { intros f opcode q s. subst s.
    destruct (handlers_sound mem q opcode f) as [Hs Hp].
    apply summary_inv in Hs. destruct Hs as (_ & Hs & _).
    rewrite Hs, Hp. split; [f_equal|]; lia. }
  split; [intros f opcode q; apply Hh|]. split.
  - intros Hf. destruct (EMIT_lineE_fused mem p Hf) as (_ & Hs & _).
    apply summary_inv in Hs. tauto.
  - intros f Hf Hm s n. subst n s.
    rewrite (EMIT_lineE_dispatch mem p Hf), Hm.
    cbv beta iota delta [snd].
    destruct (Hh f (word_at mem p) (p + 1)) as [Ha Hc].
    cbv zeta in Ha, Hc. rewrite Ha, Hc, (consumed_is_length f Hm).
    split; [reflexivity|]. split; [reflexivity|].
    intros Hr. destruct f; try discriminate Hr; reflexivity.
Qed.

End Agreement.
End Discipline.

Lemma sample_ea_agree (mask : Z) (mem : Z -> Z) (q ea k opsize : Z) :
  0 <= ea < 0x3c ->
  EA_ext_words (Externals := sample_ext mask) mem q ea k =
  k + SR_GetEALength (Externals := sample_ext mask) mem (q + k) ea opsize.
Proof. reflexivity. Qed.

Lemma sample_ea_indirect (mask : Z) (mem : Z -> Z) (q ea k : Z) :
  ea .& 0x38 = 0x10 ->
  EA_ext_words (Externals := sample_ext mask) mem q ea k = k.
Proof.
  intros E. simpl. unfold sample_ea_length. rewrite E. simpl. lia.
Qed.

(** [ASL.W 16(A0)] at address 0: one extension word, 4 bytes, 2 words. *)
Lemma pc_advance_exact_witness :
  pc_advances (code (snd (EMIT_lineE (H := sample_ext 0x1f)
                            (start (guest_words [0xe1e8; 0x0010]) 0)))) = [4] /\
  M68K_GetLineELength (H := sample_ext 0x1f)
                      (guest_words [0xe1e8; 0x0010]) 0 = Some 2.
Proof.
  destruct (pc_advance_exact (H := sample_ext 0x1f)
              (sample_ea_agree 0x1f) (sample_ea_indirect 0x1f)
              (guest_words [0xe1e8; 0x0010]) 0) as (_ & _ & Hd).
  destruct (Hd fn_EMIT_ASL_mem) as (Ha & Hl & _).
  - vm_compute; reflexivity.
  - vm_compute; reflexivity.
  - split; [exact Ha | exact Hl].
Defined.
(** ** The rotate, swap, rotate idiom *)

Section Idiom.
Context `{Externals}.

(** The mask test of the C code recognises [RO(R/L).W #8,Dn]. *)
Lemma rot8_mask (w : Z) :
  0 <= w < 65536 -> (w .& 0xfef8 =? 0xe058) = is_rot8_word w.
Proof.
  intros Hw. apply eqb_prop.
  exact (all_bits_spec 16
           (fun w => Bool.eqb (w .& 0xfef8 =? 0xe058) (is_rot8_word w))
           ltac:(vm_compute; reflexivity) w Hw).
Qed.

Lemma land_7_range (w : Z) : 0 <= w .& 7 < 2 ^ Z.of_nat 3.
Proof.
  change 7 with (Z.ones 3). rewrite Z.land_ones by lia.
  apply Z.mod_pos_bound. lia.
Qed.

Lemma swap_lor (w : Z) : 0x4840 .| (w .& 7) = SWAP_insn (w .& 7).
Proof.
  apply Z.eqb_eq.
  exact (all_bits_spec 3 (fun r => 0x4840 .| r =? SWAP_insn r)
           ltac:(vm_compute; reflexivity) _ (land_7_range w)).
Qed.

(** A rotate by 8 is [0xe058] or [0xe158] plus the register. *)
Lemma rot8_form (w : Z) :
  0 <= w < 65536 -> is_rot8_word w = true ->
  w .& 0xfeff = 0xe058 + (w .& 7) /\
  (w .& 0xfff = 0x058 + (w .& 7) \/ w .& 0xfff = 0x158 + (w .& 7)).
Proof.
  intros Hw Hr.
  pose proof (all_bits_spec 16
    (fun w => implb (is_rot8_word w)
                ((w .& 0xfeff =? 0xe058 + (w .& 7)) &&
                 ((w .& 0xfff =? 0x058 + (w .& 7)) ||
                  (w .& 0xfff =? 0x158 + (w .& 7)))))
    ltac:(vm_compute; reflexivity) w Hw) as Hb.
  cbv beta in Hb. rewrite Hr in Hb. cbv beta iota delta [implb] in Hb.
  apply andb_true_iff in Hb. destruct Hb as [Ha Hb].
  apply orb_true_iff in Hb. rewrite !Z.eqb_eq in Hb.
  apply Z.eqb_eq in Ha. auto.
Qed.

(** Equality up to bit 8 with a rotate by 8 on register [r]. *)
Lemma rot8_same (w r : Z) :
  0 <= w < 65536 -> 0 <= r < 2 ^ Z.of_nat 3 ->
  (w .& 0xfeff =? 0xe058 + r) = is_rot8_word w && (w .& 7 =? r).
Proof.
  intros Hw Hr. apply eqb_prop.
  pose proof (all_bits_spec 3
    (fun r => all_bits 16
       (fun w => Bool.eqb (w .& 0xfeff =? 0xe058 + r)
                          (is_rot8_word w && (w .& 7 =? r))))
    ltac:(vm_compute; reflexivity) r Hr) as Hb.
  exact (all_bits_spec 16 _ Hb w Hw).
Qed.

Variables (mem : Z -> Z) (p : Z).

(** The three mask tests of the C code are the three words. *)
Lemma fused_is_rotate_swap_rotate :
  fused mem p = true <-> rotate_swap_rotate mem p.
Proof.
  unfold fused, rotate_swap_rotate.
  pose proof (word_at_range mem p) as R0.
  pose proof (word_at_range mem (p + 2)) as R2.
  rewrite (rot8_mask _ R0), swap_lor, !andb_true_iff, Z.eqb_eq.
  split.
  - intros [[Ha Hb] Hc]. destruct (rot8_form _ R0 Ha) as [Hf _].
    rewrite Hf, (rot8_same _ _ R2 (land_7_range _)) in Hc.
    apply andb_true_iff in Hc. destruct Hc as [Hc Hd]. apply Z.eqb_eq in Hd.
    repeat split; assumption.
  - intros (Ha & Hb & Hc & Hd). destruct (rot8_form _ R0 Ha) as [Hf _].
    repeat split; try assumption.
    rewrite Hf, (rot8_same _ _ R2 (land_7_range _)), Hc. simpl.
    apply Z.eqb_eq. exact Hd.
Qed.

(** C1, as the code has it: [EMIT_lineE] stores 3 in [insn_consumed]
    exactly when the three words at the read pointer are a rotate of a
    word by 8, [SWAP] on the same register and a rotate of a word by 8 on
    the same register, each rotate in either direction; it emits the
    byte-reverse instruction, once, exactly in that case, and in every
    other case it stores 1 and emits no byte-reverse instruction.  The
    flags the two rotates are to update take no part in the condition:
    the statement holds for every [M68K_GetSRMask]. *)
Theorem fused_exactly_on_rotate_swap_rotate :
  (fst (EMIT_lineE (start mem p)) = Some 3 <-> rotate_swap_rotate mem p) /\
  (ops "rev" (code (snd (EMIT_lineE (start mem p)))) =
     [Op "rev" [R (M68kReg (word_at mem p .& 7));
                R (M68kReg (word_at mem p .& 7))]] <->
   rotate_swap_rotate mem p) /\
  (~ rotate_swap_rotate mem p ->
   fst (EMIT_lineE (start mem p)) = Some 1 /\
   ops "rev" (code (snd (EMIT_lineE (start mem p)))) = []).
Proof.
  assert (fused mem p = false ->
          fst (EMIT_lineE (start mem p)) = Some 1 /\
          ops "rev" (code (snd (EMIT_lineE (start mem p)))) = []) as Hn.
  { intros Hf. rewrite (EMIT_lineE_dispatch mem p Hf).
    destruct (od_Emit _) as [f|]; [|split; reflexivity].
    split; [reflexivity|]. cbv beta iota delta [snd].
    destruct (handlers_sound mem (p + 1) (word_at mem p) f) as [Hs _].
    apply summary_inv in Hs. tauto. }
  rewrite <- fused_is_rotate_swap_rotate.
  destruct (fused mem p) eqn:Hf.
  - destruct (EMIT_lineE_fused mem p Hf) as (Hc & Hs & _).
    apply summary_inv in Hs. destruct Hs as (_ & _ & Hr).
    rewrite Hc, Hr. repeat split; auto; intros; congruence.
  - destruct (Hn eq_refl) as [Hc Hr]. rewrite Hc, Hr.
    repeat split; auto; intros; congruence.
Qed.

End Idiom.

(** [ROR.W #8,D3; SWAP D3; ROR.W #8,D3] where the first rotate has no
    flag to update and the second has N, Z, V and C to update: the
    special case is taken, with the byte-reverse instruction and no flag
    code, although the two rotates do not have the same flags to update. *)
Lemma fused_with_unequal_update_masks :
  let ext := sample_ext_masks (fun a => if a =? 2 then 0x0f else 0) in
  let mem := guest_words [0xe05b; 0x4843; 0xe05b] in
  update_mask_at (H := ext) mem 0 = 0 /\
  update_mask_at (H := ext) mem 2 = 0x0f /\
  EMIT_lineE (H := ext) (start mem 0) =
    (Some 3,
     mkJit [RA_Map 3; RA_SetDirty 3;
            Op "rev" [R (M68kReg 3); R (M68kReg 3)]; PC_Advance 6]
           0 mem 3) /\
  ~ (fst (EMIT_lineE (H := ext) (start mem 0)) = Some 3 <->
     rotate_swap_rotate_same_flags (H := ext) mem 0).
Proof.
  intros ext mem.
  assert (EMIT_lineE (H := ext) (start mem 0) =
            (Some 3,
             mkJit [RA_Map 3; RA_SetDirty 3;
                    Op "rev" [R (M68kReg 3); R (M68kReg 3)]; PC_Advance 6]
                   0 mem 3)) as HE by (vm_compute; reflexivity).
  split; [reflexivity|]. split; [reflexivity|]. split; [exact HE|].
  rewrite HE. intros [Hi _]. destruct (Hi eq_refl) as [_ Hm].
  vm_compute in Hm. discriminate Hm.
Qed.
(** ** Memory shifts: the load and the store *)

Section MemoryShifts.
Context `{Externals}.
Variables (mem : Z -> Z) (q opcode : Z).

Tactic Notation "mem_shift" reference(body) :=
  unfold handler_fn, expected_load, expected_store, load16,
    EMIT_ASR_mem, EMIT_LSR_mem, EMIT_ROXR_mem, EMIT_ROR_mem; unfold body;
  split_ifs; vm_compute; repeat split; reflexivity.

(** C8: a memory shift or rotate resolves its effective address once,
    then loads once and stores once, 16 bits each: in pre-decrement mode
    the load is the pre-indexed one with offset -2 and the store has
    offset 0; in post-increment mode the load has offset 0 and the store
    is the post-indexed one with offset 2; in every other mode both have
    offset 0.  The address register is the one the resolver returned. *)
Theorem memory_shift_accesses (f : handler) :
  is_mem_shift f = true ->
  let l := code (exec (handler_fn f opcode) (start mem q)) in
  List.filter is_ea_load l = [EA_Load (Scratch 1) 0 (opcode .& 0x3f) 0 1] /\
  List.filter is_mem_access l =
    [expected_load f opcode (Scratch 1) (Scratch 0);
     expected_store opcode (Scratch 1) (Scratch 0)].
Proof.
  intros Hm l. subst l. destruct f; try discriminate Hm; clear Hm.
  - mem_shift EMIT_ASL_mem.
  - mem_shift EMIT_LSL_mem.
  - mem_shift EMIT_ROXL_mem.
  - mem_shift EMIT_ROL_mem.
  - mem_shift EMIT_ASL_mem.
  - mem_shift EMIT_LSL_mem.
  - mem_shift EMIT_ROXL_mem.
  - mem_shift EMIT_ROL_mem.
Qed.

End MemoryShifts.

(** [LSR.W -(A1)] and [ROXL.W (A2)+]. *)
Lemma memory_shift_accesses_witness :
  List.filter is_mem_access
    (code (exec (handler_fn (H := sample_ext 0x1f) fn_EMIT_LSR_mem 0xe2e1)
                (start (guest_words [0xe2e1]) 1))) =
    [Op "ldrh_offset_preindex" [R (Scratch 1); R (Scratch 0); I (-2)];
     Op "strh_offset" [R (Scratch 1); R (Scratch 0); I 0]] /\
  List.filter is_mem_access
    (code (exec (handler_fn (H := sample_ext 0x1f) fn_EMIT_ROXL_mem 0xe5da)
                (start (guest_words [0xe5da]) 1))) =
    [Op "ldrh_offset" [R (Scratch 1); R (Scratch 0); I 0];
     Op "strh_offset_postindex" [R (Scratch 1); R (Scratch 0); I 2]].
Proof.
  split.
  - apply (memory_shift_accesses (H := sample_ext 0x1f)
             (guest_words [0xe2e1]) 1 0xe2e1 fn_EMIT_LSR_mem).
    reflexivity.
  - apply (memory_shift_accesses (H := sample_ext 0x1f)
             (guest_words [0xe5da]) 1 0xe5da fn_EMIT_ROXL_mem).
    reflexivity.
Defined.

(** ** Register shifts with the count in a register *)


Section RegisterCount.
Context `{Externals}.
Variables (mem : Z -> Z) (q opcode : Z).

Tactic Notation "reg_count" reference(body) :=
  unfold handler_fn, masked_and_branched, amount_reg,
    EMIT_ASR, EMIT_LSR, EMIT_ROR; unfold body;
  run;
  generalize (u8 (M68K_GetSRMask mem (q + -1))) as m; intros m;
  split_ifs; try discriminate; vm_compute; repeat split; reflexivity.

Ltac roxl_head :=
  unfold handler_fn, ROXL_reg_head, ROXL_zero_block, amount_reg, EMIT_ROXR;
  unfold EMIT_ROXL; run;
  generalize (u8 (M68K_GetSRMask mem (q + -1))) as m; intros m;
  split_ifs; try discriminate; vm_compute; repeat split; reflexivity.


End RegisterCount.

(** ** [BFFFO] on a data register, the whole register as the field *)

Section FindFirstOne.
Context `{Externals}.
Variables (mem : Z -> Z) (q opcode : Z).

(** C4: with offset 0 and width 32 given in the extension word, the count
    of leading zeros of the source is written to the destination only
    together with the flags; when no flag is to be updated nothing at all
    is emitted between the register mappings and the advance of the
    program counter, and the destination is left as it was. *)
Theorem BFFFO_reg_whole_register :
  word_at mem q .& 0x0fff = 0 ->
  let src := M68kReg (opcode .& 7) in
  let dest := M68kReg ((word_at mem q >> 12) .& 7) in
  let update_mask := u8 (M68K_GetSRMask mem (q + -1)) in
  let l := code (exec (EMIT_BFFFO_reg opcode) (start mem q)) in
  l = RA_Map (opcode .& 7) :: RA_MapForWrite ((word_at mem q >> 12) .& 7) ::
      ((if nz update_mask
        then [RA_CC;
              Op "cmn_reg" [I 31; R src; I LSL; I 0];
              Op "clz" [R dest; R src];
              Svc "EMIT_GetNZ00" [R RegCC; I update_mask]]
        else []) ++ [PC_Advance 4])%list /\
  (update_mask = 0 -> existsb (writes dest) l = false).
Proof.
  unfold word_at. cbv zeta. intros Hw.
  assert (BE16 (u16 (mem q)) .& 0x0820 = 0) as H1.
  { replace (BE16 (u16 (mem q)) .& 0x0820)
      with ((BE16 (u16 (mem q)) .& 0x0fff) .& 0x0820)
      by (rewrite <- Z.land_assoc; reflexivity).
    rewrite Hw. reflexivity. }
  assert ((BE16 (u16 (mem q)) >> 6) .& 0x1f = 0) as H2.
  { replace ((BE16 (u16 (mem q)) >> 6) .& 0x1f)
      with (((BE16 (u16 (mem q)) .& 0x0fff) >> 6) .& 0x1f)
      by (rewrite Z.shiftr_land, <- Z.land_assoc; reflexivity).
    rewrite Hw. reflexivity. }
  assert (BE16 (u16 (mem q)) .& 0x1f = 0) as H3.
  { replace (BE16 (u16 (mem q)) .& 0x1f)
      with ((BE16 (u16 (mem q)) .& 0x0fff) .& 0x1f)
      by (rewrite <- Z.land_assoc; reflexivity).
    rewrite Hw. reflexivity. }
  unfold EMIT_BFFFO_reg. run. rewrite !Z.add_0_r, H1, H2, H3.
  generalize (u8 (M68K_GetSRMask mem (q + -1))) as m.
  generalize ((BE16 (u16 (mem q)) >> 12) .& 7) as d. intros d m.
  change (0 =? 0) with true. cbv beta iota delta [negb orb]. run.
  destruct (nz m) eqn:Hm; run.
  - split; [reflexivity|]. intros ->. discriminate Hm.
  - split; [reflexivity|]. intros _. reflexivity.
Qed.

End FindFirstOne.

(** [BFFFO D0{0:32},D1] translated while no flag is needed afterwards. *)
Lemma BFFFO_reg_whole_register_witness :
  code (exec (EMIT_BFFFO_reg (H := sample_ext 0) 0xedc0)
             (start (guest_words [0xedc0; 0x1000]) 1)) =
    [RA_Map 0; RA_MapForWrite 1; PC_Advance 4].
Proof.
  apply (BFFFO_reg_whole_register (H := sample_ext 0)
           (guest_words [0xedc0; 0x1000]) 1 0xedc0).
  reflexivity.
Defined.
(** ** Layout of the table *)

Lemma handler_eqb_eq (f g : handler) : handler_eqb f g = true -> f = g.
Proof.
  unfold handler_eqb. intros E. apply Z.eqb_eq in E.
  destruct f, g; try reflexivity; discriminate E.
Qed.

Section Layout.
Context `{Externals}.

Lemma od_is_spec (d : OpcodeDef) (f : handler) (len ea size : Z) :
  od_is d f len ea size = true ->
  od_Emit d = Some f /\ od_BaseLength d = len /\ od_HasEA d = ea /\
  od_OpSize d = size.
Proof.
  unfold od_is. rewrite !andb_true_iff, !Z.eqb_eq.
  intros [[[Hf Hl] He] Hs]. repeat split; try assumption.
  destruct (od_Emit d) as [g|]; [|discriminate Hf].
  f_equal. apply handler_eqb_eq. exact Hf.
Qed.

Lemma od_unmapped_spec (d : OpcodeDef) :
  od_unmapped d = true -> od_Emit d = None.
Proof. unfold od_unmapped. destruct (od_Emit d); [discriminate|reflexivity]. Qed.

(** Every opcode whose size field is not 3 is a register shift or rotate
    and has a handler: bits 3-4 select the type, bit 8 the direction; the
    instruction is one word long, has no effective address, and its
    operand size is 1, 2 or 4 bytes by the size field. *)
Theorem register_shifts_mapped (i : Z) :
  0 <= i < 4096 ->
  (i >> 6) .& 3 <> 3 ->
  let d := InsnTable_entry i in
  od_Emit d = Some (reg_shift_handler ((i >> 3) .& 3) ((i >> 8) .& 1)) /\
  od_BaseLength d = 1 /\ od_HasEA d = 0 /\
  od_OpSize d = 1 << ((i >> 6) .& 3).
Proof.
  intros Hi Hs d. subst d. apply od_is_spec.
  pose proof (table_forall
    (fun i d =>
       ((i >> 6) .& 3 =? 3) ||
       od_is d (reg_shift_handler ((i >> 3) .& 3) ((i >> 8) .& 1))
             1 0 (1 << ((i >> 6) .& 3)))
    ltac:(vm_compute; reflexivity) i Hi) as Hp.
  cbv beta in Hp. apply orb_true_iff in Hp.
  destruct Hp as [Hp|Hp]; [apply Z.eqb_eq in Hp; contradiction|exact Hp].
Qed.

(** A memory shift or rotate (size field 3, bit 11 clear) has a handler
    exactly for the addressing modes from [(An)] up to the long absolute
    address: bits 9-10 select the type and bit 8 the direction, the
    element asks for the effective address and gives a 16-bit operand.
    For a data or address register, the modes relative to the program
    counter and the immediate mode there is no handler. *)
Theorem memory_shifts_mapped (i : Z) :
  0 <= i < 4096 ->
  (i >> 6) .& 3 = 3 ->
  (i >> 11) .& 1 = 0 ->
  let d := InsnTable_entry i in
  (0x10 <= i .& 0x3f <= 0x39 ->
   od_Emit d = Some (mem_shift_handler ((i >> 9) .& 3) ((i >> 8) .& 1)) /\
   od_BaseLength d = 1 /\ od_HasEA d = 1 /\ od_OpSize d = 2) /\
  (i .& 0x3f < 0x10 \/ 0x39 < i .& 0x3f -> od_Emit d = None).
Proof.
  intros Hi Hs Hb d. subst d.
  pose proof (table_forall
    (fun i d =>
       negb (((i >> 6) .& 3 =? 3) && ((i >> 11) .& 1 =? 0)) ||
       (if (0x10 <=? i .& 0x3f) && (i .& 0x3f <=? 0x39)
        then od_is d (mem_shift_handler ((i >> 9) .& 3) ((i >> 8) .& 1)) 1 1 2
        else od_unmapped d))
    ltac:(vm_compute; reflexivity) i Hi) as Hp.
  cbv beta in Hp. rewrite Hs, Hb in Hp.
  change (negb ((3 =? 3) && (0 =? 0))) with false in Hp.
  rewrite orb_false_l in Hp.
  split.
  - intros [Hl Hu]. apply od_is_spec.
    apply Z.leb_le in Hl. apply Z.leb_le in Hu. rewrite Hl, Hu in Hp. exact Hp.
  - intros Ho. apply od_unmapped_spec.
    destruct (0x10 <=? i .& 0x3f) eqn:Hl; [|exact Hp].
    destruct (i .& 0x3f <=? 0x39) eqn:Hu; [|exact Hp].
    apply Z.leb_le in Hl. apply Z.leb_le in Hu. lia.
Qed.

(** A bitfield instruction (size field 3, bit 11 set) is selected by bits
    8-10.  It has a handler exactly for a data register, [(An)],
    [(d16,An)], [(d8,An,Xn)] and the two absolute modes, and, when it only
    reads the field, for the two modes relative to the program counter;
    a field in a data register goes to the register handler.  The
    instruction is two words long and the element asks for the effective
    address except for a data register and for [(An)]. *)
Theorem bitfields_mapped (i : Z) :
  0 <= i < 4096 ->
  (i >> 6) .& 3 = 3 ->
  (i >> 11) .& 1 = 1 ->
  let d := InsnTable_entry i in
  let op := (i >> 8) .& 7 in
  let ea := i .& 0x3f in
  (bitfield_ea_ok op ea = true ->
   od_Emit d = Some (bitfield_handler op (ea .& 0x38 =? 0)) /\
   od_BaseLength d = 2 /\
   od_HasEA d = (if (ea .& 0x38 =? 0) || (ea .& 0x38 =? 0x10) then 0 else 1) /\
   od_OpSize d = 0) /\
  (bitfield_ea_ok op ea = false -> od_Emit d = None).
Proof.
  intros Hi Hs Hb d op ea. subst d op ea.
  pose proof (table_forall
    (fun i d =>
       negb (((i >> 6) .& 3 =? 3) && ((i >> 11) .& 1 =? 1)) ||
       (if bitfield_ea_ok ((i >> 8) .& 7) (i .& 0x3f)
        then od_is d (bitfield_handler ((i >> 8) .& 7) (i .& 0x3f .& 0x38 =? 0)) 2
                   (if (i .& 0x3f .& 0x38 =? 0) || (i .& 0x3f .& 0x38 =? 0x10)
                    then 0 else 1) 0
        else od_unmapped d))
    ltac:(vm_compute; reflexivity) i Hi) as Hp.
  cbv beta in Hp. rewrite Hs, Hb in Hp.
  change (negb ((3 =? 3) && (1 =? 1))) with false in Hp.
  rewrite orb_false_l in Hp.
  split; intros Hok; rewrite Hok in Hp.
  - apply od_is_spec. exact Hp.
  - apply od_unmapped_spec. exact Hp.
Qed.

(** The element found for an index is zero or comes from one of the
    initialisers. *)
Lemma range_lookup_from (P : OpcodeDef -> Prop) (init : list range_init) (i : Z) :
  P od_zero ->
  Forall (fun r => P (rng_def r)) init ->
  P (range_lookup init i).
Proof.
  unfold range_lookup. generalize od_zero as d0.
  induction init as [|r init IH]; intros d0 H0 Hall; [exact H0|].
  inversion Hall as [|? ? Hr Hrest]; subst. simpl.
  apply IH; [|exact Hrest].
  destruct ((rng_lo r <=? i) && (i <=? rng_hi r)); assumption.
Qed.

(** The flags of the table: the arithmetic and logical shifts and the
    rotates through X need X and set all five flags; the plain rotates
    and the bitfield instructions need no flag and set N, Z, V and C,
    never X.  An element without handler has both fields zero. *)
Theorem table_flags (i : Z) : flags_ok (InsnTable_entry i).
Proof.
  unfold InsnTable_entry. apply range_lookup_from.
  - split; reflexivity.
  - unfold InsnTable_init.
    repeat (apply List.Forall_cons; [split; reflexivity|]).
    apply List.Forall_nil.
Qed.

End Layout.

(** [ROXL.W (A0)+] is index 0o2730 of the table. *)
Lemma memory_shifts_mapped_witness :
  od_Emit (InsnTable_entry (H := sample_ext 0x1f) 0x5d8) = Some fn_EMIT_ROXL_mem /\
  od_Emit (InsnTable_entry (H := sample_ext 0x1f) 0x5c8) = None.
Proof.
  pose proof (memory_shifts_mapped (H := sample_ext 0x1f) 0x5d8
                ltac:(lia) eq_refl eq_refl) as W1.
  pose proof (memory_shifts_mapped (H := sample_ext 0x1f) 0x5c8
                ltac:(lia) eq_refl eq_refl) as W2.
  cbv zeta in W1, W2. split.
  - apply W1. vm_compute. split; discriminate.
  - apply W2. left. vm_compute. reflexivity.
Defined.

(** [LSL.L D1,D0] is index 0o1650. *)
Lemma register_shifts_mapped_witness :
  od_Emit (InsnTable_entry (H := sample_ext 0x1f) 0x3a8) = Some fn_EMIT_LSL /\
  od_OpSize (InsnTable_entry (H := sample_ext 0x1f) 0x3a8) = 4.
Proof.
  pose proof (register_shifts_mapped (H := sample_ext 0x1f) 0x3a8
                ltac:(lia) ltac:(vm_compute; discriminate)) as W.
  cbv zeta in W. split; [apply W|apply W].
Defined.

(** [BFEXTU (d16,PC)] is mapped and [BFSET (d16,PC)] is not. *)
Lemma bitfields_mapped_witness :
  od_Emit (InsnTable_entry (H := sample_ext 0x1f) 0x9fa) = Some fn_EMIT_BFEXTU /\
  od_Emit (InsnTable_entry (H := sample_ext 0x1f) 0xefa) = None.
Proof.
  pose proof (bitfields_mapped (H := sample_ext 0x1f) 0x9fa
                ltac:(lia) eq_refl eq_refl) as W1.
  pose proof (bitfields_mapped (H := sample_ext 0x1f) 0xefa
                ltac:(lia) eq_refl eq_refl) as W2.
  cbv zeta in W1, W2. split.
  - apply W1. reflexivity.
  - apply W2. reflexivity.
Defined.
(** ** What the handlers report and touch *)

(** The four cases of offset and width in a bitfield extension word are
    exhaustive. *)
Lemma land_0820 (w : Z) :
  (w .& 0x0820 =? 0) = negb (nz (w .& 2048)) && negb (nz (w .& 32)).
Proof.
  unfold nz. rewrite !negb_involutive.
  change 0x0820 with (2048 .| 32). rewrite Z.land_lor_distr_r.
  destruct (w .& 2048 =? 0) eqn:E1, (w .& 32 =? 0) eqn:E2; simpl;
    rewrite ?Z.eqb_eq, ?Z.eqb_neq in *; rewrite ?Z.lor_eq_0_iff; tauto.
Qed.

Ltac impossible_field :=
  exfalso;
  repeat match goal with
         | Hx : _ = false |- _ => revert Hx
         | Hx : _ = true |- _ => revert Hx
         end;
  change (1 << 11) with 2048; change (1 << 5) with 32;
  rewrite ?land_0820;
  match goal with
  | |- context [nz (?w .& 2048)] =>
    destruct (nz (w .& 2048)), (nz (w .& 32))
  end; simpl; intros; congruence.

Section Profile.
Context `{Externals}.
Variables (mem : Z -> Z) (q opcode : Z).

Ltac name_inputs :=
  rewrite ?Z.add_0_r;
  try (generalize (BE16 (u16 (mem q))); intros opcode2);
  try (generalize (u8 (M68K_GetSRMask mem (q + -1))); intros m).

Ltac unfold_alias :=
  unfold handler_fn, EMIT_ASR, EMIT_LSR, EMIT_ROR, EMIT_ROXR,
    EMIT_ASR_mem, EMIT_LSR_mem, EMIT_ROR_mem, EMIT_ROXR_mem.

Tactic Notation "dirty" reference(body) :=
  unfold reported_dirty, word_at; unfold_alias; unfold body; run; name_inputs;
  split_ifs; first [solve [vm_compute; reflexivity] | impossible_field].


Tactic Notation "traffic" reference(body) :=
  unfold bitfield_traffic; unfold_alias; unfold body; run; name_inputs;
  split_ifs; try discriminate;
  first [ solve [vm_compute;
                 (split; [first [exists RegCC; reflexivity | eexists; reflexivity]
                         | reflexivity])]
        | impossible_field ].

(** A bitfield handler on a data register emits no load and no store and
    does not call the resolver.  On memory it calls the resolver once,
    for the address, with the extension-word counter at 1, and loads 64
    bits once from the register the resolver returned, at offset 0; the
    handlers that modify the field store the same host register back to
    the same address once, and the handlers that only read emit no
    store. *)
Theorem bitfield_memory_traffic (f : handler) (a : bitfield_access) :
  bitfield_access_of f opcode = Some a ->
  let l := code (exec (handler_fn f opcode) (start mem q)) in
  (exists tmp : hreg,
     List.filter is_mem_access l = bitfield_traffic a (Scratch 0) tmp) /\
  List.filter is_ea_load l =
    match a with
    | BF_register => []
    | _ => [EA_Load (Scratch 0) 0 (opcode .& 0x3f) 1 0]
    end.
Proof.
  intros Ha l. subst l. unfold bitfield_access_of in Ha.
  destruct f; try discriminate Ha; injection Ha as <-.
  - traffic EMIT_BFTST.
  - traffic EMIT_BFCHG_reg.
  - traffic EMIT_BFCHG.
  - traffic EMIT_BFCLR_reg.
  - traffic EMIT_BFCLR.
  - traffic EMIT_BFSET_reg.
  - traffic EMIT_BFSET.
  - traffic EMIT_BFEXTU.
  - traffic EMIT_BFEXTS.
  - traffic EMIT_BFFFO_reg.
  - traffic EMIT_BFFFO.
  - traffic EMIT_BFINS_reg.
  - traffic EMIT_BFINS.
Qed.

Ltac split_unneeded :=
  repeat (rewrite ?Z.land_0_l; change (nz 0) with false; run;
          match goal with
          | |- context [if ?c then _ else _] => destruct c eqn:?
          end);
  rewrite ?Z.land_0_l; change (nz 0) with false; run.

Tactic Notation "unneeded" reference(body) :=
  unfold_alias; unfold body; run;
  match goal with Hm : _ = 0 |- _ => rewrite Hm end;
  rewrite ?Z.add_0_r;
  try (generalize (BE16 (u16 (mem q))); intros opcode2);
  split_unneeded; vm_compute; reflexivity.

(** When no flag has to be updated, the code of a handler other than the
    rotates through X does not involve the register of the condition
    codes: [RA_ModifyCC] is not called, and no instruction and no flag
    service is given that register. *)
Theorem flags_untouched_when_unneeded (f : handler) :
  rotates_through_X f = false ->
  u8 (M68K_GetSRMask mem (q + -1)) = 0 ->
  existsb mentions_cc (code (exec (handler_fn f opcode) (start mem q))) = false.
Proof.
  intros Hr Hm. destruct f; try discriminate Hr; clear Hr.
  - unneeded EMIT_ASL.
  - unneeded EMIT_LSL.
  - unneeded EMIT_ROL.
  - unneeded EMIT_ASL_mem.
  - unneeded EMIT_LSL_mem.
  - unneeded EMIT_ROL_mem.
  - unneeded EMIT_ASL.
  - unneeded EMIT_LSL.
  - unneeded EMIT_ROL.
  - unneeded EMIT_ASL_mem.
  - unneeded EMIT_LSL_mem.
  - unneeded EMIT_ROL_mem.
  - unneeded EMIT_BFTST.
  - unneeded EMIT_BFCHG_reg.
  - unneeded EMIT_BFCHG.
  - unneeded EMIT_BFCLR_reg.
  - unneeded EMIT_BFCLR.
  - unneeded EMIT_BFSET_reg.
  - unneeded EMIT_BFSET.
  - unneeded EMIT_BFEXTU.
  - unneeded EMIT_BFEXTS.
  - unneeded EMIT_BFFFO_reg.
  - unneeded EMIT_BFFFO.
  - unneeded EMIT_BFINS_reg.
  - unneeded EMIT_BFINS.
Qed.

Lemma size_cases (z : Z) :
  z .& 3 <> 3 -> z .& 3 = 0 \/ z .& 3 = 1 \/ z .& 3 = 2.
Proof.
  intros Hn. assert (0 <= z .& 3 < 4) as Hr; [|lia].
  change 3 with (Z.ones 2). rewrite Z.land_ones by lia.
  apply Z.mod_pos_bound. reflexivity.
Qed.

Tactic Notation "immediate" reference(body) :=
  unfold_alias; unfold host_shift, immediate_count; unfold body; run;
  generalize (u8 (M68K_GetSRMask mem (q + -1))); intros m;
  match goal with Hr : nz _ = false |- _ => rewrite Hr end;
  match goal with Hs : _ .& 3 = _ |- _ => rewrite Hs end;
  replace (negb (nz ((opcode >> 9) .& 7))) with ((opcode >> 9) .& 7 =? 0)
    by (unfold nz; rewrite negb_involutive; reflexivity);
  split_ifs; try discriminate; vm_compute; reflexivity.

(** A shift or rotate of a register by a constant, other than through X,
    emits one host shift by a constant: [lsl] for a shift to the left,
    [asr] or [lsr] for a shift to the right, by the count field of the
    opcode, and [ror] for a rotate, by the count to the right and by 32
    less the count to the left; the count field 0 stands for 8. *)
Theorem immediate_shift_count (f : handler) :
  is_plain_shift f = true ->
  nz ((opcode >> 5) .& 1) = false ->
  (opcode >> 6) .& 3 <> 3 ->
  flat_map constant_shift (code (exec (handler_fn f opcode) (start mem q))) =
    [host_shift f opcode].
Proof.
  intros Hf Hr Hs. apply size_cases in Hs.
  destruct f; try discriminate Hf; clear Hf;
    destruct Hs as [Hs|[Hs|Hs]].
  - immediate EMIT_ASL.
  - immediate EMIT_ASL.
  - immediate EMIT_ASL.
  - immediate EMIT_LSL.
  - immediate EMIT_LSL.
  - immediate EMIT_LSL.
  - immediate EMIT_ROL.
  - immediate EMIT_ROL.
  - immediate EMIT_ROL.
  - immediate EMIT_ASL.
  - immediate EMIT_ASL.
  - immediate EMIT_ASL.
  - immediate EMIT_LSL.
  - immediate EMIT_LSL.
  - immediate EMIT_LSL.
  - immediate EMIT_ROL.
  - immediate EMIT_ROL.
  - immediate EMIT_ROL.
Qed.

(** In the special case of [EMIT_lineE] the register of the first rotate
    is mapped and reported as modified, the byte-reverse instruction and
    the advance of the program counter follow, and the flags are updated
    after that exactly when the update mask found at the address of the
    first rotate is not zero: with a zero mask these four items are the
    whole code. *)
Theorem special_case_code :
  fused mem q = true ->
  let r := word_at mem q .& 7 in
  let l := code (snd (EMIT_lineE (start mem q))) in
  take 4 l = [RA_Map r; RA_SetDirty r;
              Op "rev" [R (M68kReg r); R (M68kReg r)]; PC_Advance 6] /\
  dirtied l = [r] /\
  existsb mentions_cc (drop 4 l) = nz (u8 (M68K_GetSRMask mem q)) /\
  (u8 (M68K_GetSRMask mem q) = 0 -> drop 4 l = []).
Proof.
  intros Hf. unfold fused, word_at in Hf. unfold EMIT_lineE. run.
  rewrite !Z.add_0_r. replace (q + 1 + 0) with (q + 1) by lia.
  replace (q + 1 + 1) with (q + 2) by lia.
  rewrite Hf. unfold word_at. clear Hf. run.
  replace (q + 1 + -1) with q by lia.
  generalize (BE16 (u16 (mem q)) .& 7) as r.
  generalize (u8 (M68K_GetSRMask mem q)) as m. intros m r.
  destruct (nz m) eqn:Hm; split_ifs;
    (split; [vm_compute; reflexivity|]);
    (split; [vm_compute; reflexivity|]);
    (split; [vm_compute; reflexivity|]);
    intros ->; first [discriminate Hm | reflexivity].
Qed.

(** The two masks can be taken out of the result of [GetSR_LineE] again:
    the flags needed are the result shifted right by 16 and the flags set
    are its low 16 bits. *)
Theorem GetSR_LineE_unpack (w : Z) :
  flags_in_range ->
  exists v : Z,
    GetSR_LineE w = Some v /\
    v >> 16 = flags_needed w /\ v .& 0xffff = flags_set w.
Proof.
  intros (HC & HV & HZ & HN & HX).
  assert (forall a b, 0 <= a < 32 -> 0 <= b < 32 -> 0 <= a .| b < 32) as Hor.
  { intros a b Ha Hb. split; [apply Z.lor_nonneg; lia|].
    destruct (Z.eq_dec (a .| b) 0) as [->|Hnz]; [lia|].
    apply (Z.log2_lt_cancel _ 32). change (Z.log2 32) with 5.
    rewrite Z.log2_lor by lia.
    assert (forall c, 0 <= c < 32 -> Z.log2 c < 5) as Hlog.
    { intros c Hc. destruct (Z.eq_dec c 0) as [->|Hc0]; [reflexivity|].
      apply Z.log2_lt_pow2; lia. }
    pose proof (Hlog a Ha). pose proof (Hlog b Hb). lia. }
  assert (0 <= SR_CCR < 32) as Hccr by (unfold SR_CCR; auto).
  assert (0 <= SR_NZVC < 32) as Hnzvc by (unfold SR_NZVC; auto).
  assert (forall a b, 0 <= a -> 0 <= b < 65536 ->
            ((a << 16) .| b) >> 16 = a /\ ((a << 16) .| b) .& 0xffff = b) as Hp.
  { intros a b Ha Hb. split.
    - rewrite Z.shiftr_lor, Z.shiftr_shiftl_l by lia.
      rewrite (Z.shiftr_div_pow2 b), Z.div_small by lia.
      rewrite Z.sub_diag, Z.shiftl_0_r. apply Z.lor_0_r.
    - change 0xffff with (Z.ones 16). rewrite Z.land_lor_distr_l.
      rewrite !Z.land_ones by lia.
      rewrite Z.shiftl_mul_pow2, Z.mod_mul, (Z.mod_small b) by lia.
      reflexivity. }
  pose proof (table_flags (w .& 0xfff)) as Hfl. unfold flags_ok in Hfl.
  unfold GetSR_LineE, flags_needed, flags_set.
  rewrite InsnTable_at_masked.
  destruct (od_Emit _) as [f|]; eexists; (split; [reflexivity|]).
  - destruct (uses_X f); destruct Hfl as [-> ->]; apply Hp; lia.
  - rewrite <- (Z.lor_0_r (SR_CCR << 16)). apply Hp; lia.
Qed.

End Profile.

(** [BFCHG (A0){1:8}] loads and stores back; [BFTST] on the same operand
    only loads. *)
Lemma bitfield_memory_traffic_witness :
  (exists tmp : hreg,
     List.filter is_mem_access
       (code (exec (handler_fn (H := sample_ext 0x1f) fn_EMIT_BFCHG 0xead0)
                   (start (guest_words [0xead0; 0x0048]) 1))) =
       [Op "ldr64_offset" [R (Scratch 0); R tmp; I 0];
        Op "str64_offset" [R (Scratch 0); R tmp; I 0]]) /\
  (exists tmp : hreg,
     List.filter is_mem_access
       (code (exec (handler_fn (H := sample_ext 0x1f) fn_EMIT_BFTST 0xe8d0)
                   (start (guest_words [0xe8d0; 0x0048]) 1))) =
       [Op "ldr64_offset" [R (Scratch 0); R tmp; I 0]]).
Proof.
  split.
  - apply (bitfield_memory_traffic (H := sample_ext 0x1f)
             (guest_words [0xead0; 0x0048]) 1 0xead0 fn_EMIT_BFCHG
             BF_memory_modify eq_refl).
  - apply (bitfield_memory_traffic (H := sample_ext 0x1f)
             (guest_words [0xe8d0; 0x0048]) 1 0xe8d0 fn_EMIT_BFTST
             BF_memory_read eq_refl).
Defined.

(** [ASL.W #3,D2] translated while no flag is needed afterwards. *)
Lemma flags_untouched_when_unneeded_witness :
  existsb mentions_cc
    (code (exec (handler_fn (H := sample_ext 0) fn_EMIT_ASL 0xe742)
                (start (guest_words [0xe742]) 1))) = false.
Proof.
  apply (flags_untouched_when_unneeded (H := sample_ext 0)
           (guest_words [0xe742]) 1 0xe742 fn_EMIT_ASL); reflexivity.
Defined.

(** [ROL.L #8,D1], with the count field 0, and [ASR.W #3,D2]. *)
Lemma immediate_shift_count_witness :
  flat_map constant_shift
    (code (exec (handler_fn (H := sample_ext 0x1f) fn_EMIT_ROL 0xe199)
                (start (guest_words [0xe199]) 1))) = [("ror", 24)] /\
  flat_map constant_shift
    (code (exec (handler_fn (H := sample_ext 0x1f) fn_EMIT_ASR 0xe642)
                (start (guest_words [0xe642]) 1))) = [("asr", 3)].
Proof.
  split.
  - apply (immediate_shift_count (H := sample_ext 0x1f)
             (guest_words [0xe199]) 1 0xe199 fn_EMIT_ROL);
      [reflexivity | reflexivity | vm_compute; discriminate].
  - apply (immediate_shift_count (H := sample_ext 0x1f)
             (guest_words [0xe642]) 1 0xe642 fn_EMIT_ASR);
      [reflexivity | reflexivity | vm_compute; discriminate].
Defined.

(** [ROR.W #8,D3; SWAP D3; ROR.W #8,D3] while no flag is needed. *)
Lemma special_case_code_witness :
  code (snd (EMIT_lineE (H := sample_ext 0)
               (start (guest_words [0xe05b; 0x4843; 0xe05b]) 0))) =
    [RA_Map 3; RA_SetDirty 3; Op "rev" [R (M68kReg 3); R (M68kReg 3)];
     PC_Advance 6].
Proof.
  pose proof (special_case_code (H := sample_ext 0)
                (guest_words [0xe05b; 0x4843; 0xe05b]) 0 eq_refl) as W.
  cbv zeta in W. destruct W as (W1 & _ & _ & W2).
  rewrite <- (take_drop 4 (code _)), W1, (W2 eq_refl). reflexivity.
Defined.

Lemma GetSR_LineE_unpack_witness :
  exists v : Z,
    GetSR_LineE (H := sample_ext 0x1f) 0xe3a8 = Some v /\
    v >> 16 = 0x10 /\ v .& 0xffff = 0x1f.
Proof.
  apply (GetSR_LineE_unpack (H := sample_ext 0x1f) 0xe3a8).
  unfold flags_in_range. cbn. lia.
Defined.
(** ** md5.c *)

Module md5_facts.
Import md5.
Section md5_facts.
Context `{Externals}.

(** In each of the 64 steps the word index [g] is inside the block of 16
    words, the rotation [s[i]] is between 1 and 31, so that neither
    [F << s[i]] nor [F >> (32 - s[i])] shifts by 32 or more, and [K[i]]
    is inside its table; the round of 16 steps that the step belongs to
    reads every word of the block once. *)
Theorem steps_in_bounds (i : Z) :
  0 <= i < 64 ->
  0 <= g i < 16 /\ 0 < nth (Z.to_nat i) s 0 < 32 /\
  (Z.to_nat i < length K)%nat /\
  NoDup (g <$> round_of i).
Proof.
  intros Hi.
  assert (all_bits 6
    (fun i => (0 <=? g i) && (g i <? 16) &&
              (0 <? nth (Z.to_nat i) s 0) && (nth (Z.to_nat i) s 0 <? 32) &&
              (Z.to_nat i <? length K)%nat &&
              bool_decide (NoDup (g <$> round_of i))) = true) as Hall
    by (vm_compute; reflexivity).
  pose proof (all_bits_spec 6 _ Hall i Hi) as Hp.
  cbv beta in Hp. rewrite !andb_true_iff in Hp.
  destruct Hp as [[[[[H1 H2] H3] H4] H5] H6].
  apply Z.leb_le in H1. apply Z.ltb_lt in H2, H3, H4.
  apply Nat.ltb_lt in H5. apply bool_decide_eq_true in H6. auto.
Qed.

Lemma passes_S (mem : Z -> Z) (_start _end E : Z) (n : nat) (md : MD5)
    (M : Z) (pad : list Z) :
  passes mem _start _end E (S n) md M pad =
    passes mem _start _end E n (block pad md) (M + 64)
      (if M + 64 =? E then trailer _start _end else prefetch mem (M + 64)).
Proof. reflexivity. Qed.

Lemma passes_O (mem : Z -> Z) (_start _end E : Z) (md : MD5) (M : Z)
    (pad : list Z) :
  passes mem _start _end E 0 md M pad = md.
Proof. reflexivity. Qed.

Lemma fold_left_cons {A B : Type} (f : A -> B -> A) (x : B) (l : list B) (a0 : A) :
  fold_left f (x :: l) a0 = fold_left f l (f a0 x).
Proof. reflexivity. Qed.

Lemma fold_left_nil {A B : Type} (f : A -> B -> A) (a0 : A) :
  fold_left f [] a0 = a0.
Proof. reflexivity. Qed.

(** The outer loop on a range that still has [k + 1] blocks of data
    ahead of [E]. *)
Lemma passes_data (mem : Z -> Z) (_start _end E : Z) (k : nat) :
  forall (md : MD5) (M : Z),
    E = M + 64 * Z.of_nat (S k) ->
    passes mem _start _end E (S (S k)) md M (prefetch mem M) =
      fold_left (fun md pad => block pad md)
        (((fun j => prefetch mem (M + 64 * Z.of_nat j)) <$> seq 0 (S k)) ++
         [trailer _start _end]) md.
Proof.
  induction k as [|k IH]; intros md M HE.
  - rewrite !passes_S.
    replace (M + 64 =? E) with true by (symmetry; apply Z.eqb_eq; lia).
    change (seq 0 1) with [0%nat]. rewrite list_fmap_singleton.
    change (64 * Z.of_nat 0) with 0. rewrite Z.add_0_r.
    rewrite passes_O, <- app_comm_cons, app_nil_l.
    rewrite !fold_left_cons, fold_left_nil. cbv beta. reflexivity.
  - rewrite passes_S.
    replace (M + 64 =? E) with false by (symmetry; apply Z.eqb_neq; lia).
    rewrite IH by lia.
    change (seq 0 (S (S k))) with (0%nat :: seq 1 (S k)).
    rewrite <- (fmap_S_seq 0 (S k)). rewrite fmap_cons, <- list_fmap_compose.
    change (64 * Z.of_nat 0) with 0. rewrite Z.add_0_r.
    rewrite <- app_comm_cons, fold_left_cons. cbv beta.
    rewrite (list_fmap_ext
               ((fun j => prefetch mem (M + 64 * Z.of_nat j)) ∘ S)
               (fun j => prefetch mem (M + 64 + 64 * Z.of_nat j)) (seq 0 (S k)));
      [reflexivity|].
    intros _ j _. unfold compose. f_equal. lia.
Qed.

Lemma round_up_64 (len : Z) :
  (len + 63) .& Z.lnot 63 = 64 * ((len + 63) / 64).
Proof.
  change (Z.land (len + 63) (Z.lnot 63)) with (Z.ldiff (len + 63) (Z.ones 6)).
  rewrite Z.ldiff_ones_r by lia.
  rewrite Z.shiftl_mul_pow2, Z.shiftr_div_pow2 by lia.
  change (2 ^ 6) with 64. lia.
Qed.

(** On a range of [len > 0] bytes [CalcMD5] digests the blocks of 64
    bytes that cover the range, reading up to the end of the last block
    whatever the length, and then one more block that holds the mark,
    the start address and the length; the digest depends on the address
    of the data.  The number of blocks has to fit the 32-bit counter. *)
Theorem CalcMD5_blocks (mem : Z -> Z) (_start len : Z) :
  0 < len ->
  (len + 63) / 64 + 1 < 2 ^ 32 ->
  CalcMD5 mem _start (_start + len) =
    fold_left (fun md pad => block pad md)
      (data_blocks mem _start len ++ [trailer _start (_start + len)])
      md5_init.
Proof.
  intros Hl Hc. unfold CalcMD5, data_blocks.
  replace (_start + len - _start) with len by lia.
  rewrite round_up_64.
  set (n := (len + 63) / 64) in *.
  assert (1 <= n) as Hn.
  { subst n. apply Z.div_le_lower_bound; lia. }
  replace (_start + 64 * n - _start) with (n * 16 * 4) by lia.
  rewrite !Z.quot_mul by lia.
  unfold u32. change 0xffffffff with (Z.ones 32).
  rewrite Z.land_ones, Z.mod_small by lia.
  replace (Z.to_nat (1 + n)) with (S (S (Z.to_nat (n - 1)))) by lia.
  rewrite passes_data by lia.
  replace (S (Z.to_nat (n - 1))) with (Z.to_nat n) by lia.
  reflexivity.
Qed.

(** On an empty range [CalcMD5] digests the 64 bytes at the start
    address, which are outside the range, and no block with the mark and
    the length. *)
Theorem CalcMD5_empty (mem : Z -> Z) (_start : Z) :
  CalcMD5 mem _start _start = block (prefetch mem _start) md5_init.
Proof.
  unfold CalcMD5. replace (_start - _start) with 0 by lia.
  change ((0 + 63) .& Z.lnot 63) with 0.
  replace (_start + 0 - _start) with 0 by lia.
  change (Z.to_nat (u32 (1 + Z.quot (Z.quot 0 4) 16))) with 1%nat.
  rewrite passes_S, passes_O. reflexivity.
Qed.

(** The loop of [CalcCRC32] run once more. *)
Lemma crc32_loop_snoc (mem : Z -> Z) (n : nat) :
  forall s0 crc,
    crc32_loop mem (S n) s0 crc =
      crc32_byte (crc32_loop mem n s0 crc) (mem (s0 + Z.of_nat n) .& 0xff).
Proof.
  induction n as [|n IH]; intros s0 crc.
  - cbn. rewrite Z.add_0_r. reflexivity.
  - change (crc32_loop mem (S (S n)) s0 crc)
      with (crc32_loop mem (S n) (s0 + 1) (crc32_byte crc (mem s0 .& 0xff))).
    rewrite IH. cbn [crc32_loop]. f_equal. f_equal. f_equal. lia.
Qed.

(** [CalcCRC32] of an empty or reversed range is the initial value
    [0xffffffff], and a range longer by one byte gives the value of the
    shorter range passed once through the table with that byte; no
    final complement is applied. *)
Theorem CalcCRC32_by_bytes (mem : Z -> Z) (_start _end : Z) :
  (_end <= _start -> CalcCRC32 mem _start _end = 0xffffffff) /\
  (_start <= _end ->
   CalcCRC32 mem _start (_end + 1) =
     crc32_byte (CalcCRC32 mem _start _end) (mem _end .& 0xff)).
Proof.
  unfold CalcCRC32. split; intros Hr.
  - replace (Z.to_nat (_end - _start)) with 0%nat by lia. reflexivity.
  - replace (Z.to_nat (_end + 1 - _start)) with (S (Z.to_nat (_end - _start)))
      by lia.
    rewrite crc32_loop_snoc. f_equal. f_equal. f_equal. lia.
Qed.

Ltac by_bits :=
  apply Z.bits_inj'; intros n Hn;
  rewrite ?Z.lxor_spec, ?Z.bits_0;
  repeat match goal with
         | |- context [Z.testbit ?z n] => destruct (Z.testbit z n)
         end; reflexivity.

(** The division step is linear over exclusive or. *)
Lemma crc32_bit_lxor (u v : Z) :
  crc32_bit (u .^ v) = crc32_bit u .^ crc32_bit v.
Proof.
  unfold crc32_bit. rewrite Z.shiftr_lxor, <- !Z.bit0_odd, Z.lxor_spec.
  destruct (Z.testbit u 0), (Z.testbit v 0); cbn [xorb]; by_bits.
Qed.

Lemma crc32_bits_lxor (k : nat) (u v : Z) :
  Nat.iter k crc32_bit (u .^ v) =
    Nat.iter k crc32_bit u .^ Nat.iter k crc32_bit v.
Proof.
  induction k as [|k IH]; [reflexivity|].
  rewrite !Nat.iter_succ, IH. apply crc32_bit_lxor.
Qed.

(** Bits above the low [k] bits come down unchanged in [k] steps. *)
Lemma crc32_bits_high (k : nat) (h : Z) :
  Nat.iter k crc32_bit (h << Z.of_nat k) = h.
Proof.
  revert h. induction k as [|k IH]; intros h.
  - apply Z.shiftl_0_r.
  - rewrite Nat.iter_succ_r. unfold crc32_bit at 2.
    rewrite <- Z.bit0_odd, Z.shiftl_spec_low by lia.
    rewrite Z.lxor_0_r, Z.shiftr_shiftl_l by lia.
    replace (Z.of_nat (S k) - 1) with (Z.of_nat k) by lia.
    apply IH.
Qed.

Lemma split_low_byte (x : Z) : x = ((x >> 8) << 8) .^ (x .& 0xff).
Proof.
  apply Z.bits_inj'. intros n Hn.
  rewrite Z.lxor_spec, Z.land_spec. change 0xff with (Z.ones 8).
  destruct (Z.lt_ge_cases n 8) as [Hl|Hg].
  - rewrite Z.shiftl_spec_low, Z.ones_spec_low by lia.
    rewrite andb_true_r. reflexivity.
  - rewrite Z.shiftl_spec_high, Z.shiftr_spec, Z.ones_spec_high by lia.
    replace (n - 8 + 8) with n by lia.
    rewrite andb_false_r, xorb_false_r. reflexivity.
Qed.

Lemma crc32_table_entry (i : Z) :
  0 <= i < 256 ->
  nth (Z.to_nat i) crc32_table 0 = Nat.iter 8 crc32_bit i.
Proof.
  intros Hi. apply Z.eqb_eq.
  exact (all_bits_spec 8
           (fun i => nth (Z.to_nat i) crc32_table 0 =? Nat.iter 8 crc32_bit i)
           ltac:(vm_compute; reflexivity) i Hi).
Qed.

(** One pass through the table is eight steps of the division by the
    reflected polynomial [0xedb88320] on the value combined with the
    byte: the 256 constants are the remainders of the 256 bytes. *)
Theorem crc32_byte_bitwise (crc byte : Z) :
  0 <= byte < 256 ->
  crc32_byte crc byte = Nat.iter 8 crc32_bit (crc .^ byte).
Proof.
  intros Hb. unfold crc32_byte.
  rewrite (split_low_byte (crc .^ byte)) at 2.
  rewrite crc32_bits_lxor, (crc32_bits_high 8).
  rewrite crc32_table_entry.
  - rewrite Z.shiftr_lxor, (Z.shiftr_div_pow2 byte), Z.div_small by lia.
    rewrite Z.lxor_0_r. apply Z.lxor_comm.
  - change 0xff with (Z.ones 8). rewrite Z.land_ones by lia.
    apply Z.mod_pos_bound. reflexivity.
Qed.

End md5_facts.

Lemma steps_in_bounds_witness :
  0 <= g 17 < 16 /\ 0 < nth (Z.to_nat 17) s 0 < 32 /\
  (Z.to_nat 17 < length K)%nat /\
  NoDup (g <$> round_of 17).
Proof. apply (steps_in_bounds 17). lia. Defined.

(** One byte of data, and a range that ends inside its first block. *)
Lemma CalcMD5_blocks_witness :
  CalcMD5 (H := sample_ext 0) (fun _ => 0) 0x1000 (0x1000 + 1) =
    fold_left (fun md pad => block pad md)
      (data_blocks (fun _ => 0) 0x1000 1 ++
       [trailer (H := sample_ext 0) 0x1000 (0x1000 + 1)])
      md5_init.
Proof.
  exact (CalcMD5_blocks (H := sample_ext 0) (fun _ => 0) 0x1000 1
           ltac:(lia) ltac:(vm_compute; reflexivity)).
Defined.

Lemma CalcCRC32_by_bytes_witness :
  CalcCRC32 (fun _ => 0x61) 0 (0 + 1) =
    crc32_byte (CalcCRC32 (fun _ => 0x61) 0 0) (0x61 .& 0xff).
Proof.
  apply (CalcCRC32_by_bytes (fun _ => 0x61) 0 0). lia.
Defined.

Lemma crc32_byte_bitwise_witness :
  crc32_byte 0xffffffff 0x61 = Nat.iter 8 crc32_bit (0xffffffff .^ 0x61).
Proof.
  apply (crc32_byte_bitwise 0xffffffff 0x61). lia.
Defined.

End md5_facts.
